(** * Intrusion detection system: network monitor and anomaly detector

    A shallow embedding of [scripts/network_monitor.py] and
    [scripts/anomaly_detector.py], and the properties of the detection
    pipeline proved about it.

    Conventions of the embedding:
    - a raw packet is a [list byte];
    - an address is the dotted-quad [string] that [socket.inet_ntoa]
      produces (the access lists are sets of such strings, and the
      control plane may put any string into them);
    - a reading of [time.time()] is an exact rational [Q]; every call of
      the clock is an explicit argument, so two readings taken during one
      packet may differ;
    - a reading of [datetime.now().isoformat()] is a [string] argument;
    - Python dictionaries and sets whose order is never observed are
      [gmap] and [gset]; [defaultdict] lookups are written out with their
      default, and with the insertion they perform;
    - the statistics of the anomaly detector (mean, standard deviation,
      z-score) are real numbers. *)

From Stdlib Require Import QArith Qabs Reals Lra.
From Stdlib.Strings Require Import Byte.
From stdpp Require Import gmap strings list fin_maps pretty.

Local Open Scope Z_scope.

#[local] Set Warnings "-clear-no-such-hyp".

(** ** Clock readings *)

(** [x < y] on readings of [time.time()]. *)
Definition Qltb (x y : Q) : bool :=
  (Qnum x * Zpos (Qden y) <? Qnum y * Zpos (Qden x))%Z.

(** Python's [int(x)] on a float: truncation towards zero. *)
Definition int_of_time (x : Q) : Z := Z.quot (Qnum x) (Zpos (Qden x)).

(** The readings taken by one call of a rule detector: [time.time()] at its
    entry, then [datetime.now().isoformat()] for the alert, for the
    [first_seen] field of a new investigation record, and for the activity
    entry. *)
Record Clock := {
  time_time : Q;
  now_alert : string;
  now_first_seen : string;
  now_activity : string
}.

(** [deque(maxlen=n).append]: the oldest entries fall out at capacity. *)
Definition deque_append {A} (maxlen : nat) (l : list A) (x : A) : list A :=
  drop (length (l ++ [x]) - maxlen) (l ++ [x]).

(** The result of a call that may raise: the value returned, or the
    exception that left the call. *)
Inductive outcome (A : Type) :=
| Returned (a : A)
| Raised (e : string).
Arguments Returned {A} a.
Arguments Raised {A} e.

Module Monitor.

(** ** Decoder *)

Definition u8 (bs : list byte) (off : nat) : N := Byte.to_N (nth off bs x00).

(** Big-endian fields of [struct.unpack('!...')]. *)
Definition u16 (bs : list byte) (off : nat) : N :=
  (u8 bs off * 256 + u8 bs (off + 1))%N.

Definition u32 (bs : list byte) (off : nat) : N :=
  (u16 bs off * 65536 + u16 bs (off + 2))%N.

(** [socket.inet_ntoa] on the four bytes at [off]. *)
Definition inet_ntoa (bs : list byte) (off : nat) : string :=
  pretty (u8 bs off) +:+ "." +:+ pretty (u8 bs (off + 1)) +:+ "." +:+
  pretty (u8 bs (off + 2)) +:+ "." +:+ pretty (u8 bs (off + 3)).

Record IpInfo := {
  version : N;
  header_length : N;
  ttl : N;
  protocol : N;
  source_ip : string;
  destination_ip : string
}.

(** [parse_ip_header]: [packet[0:20]] is the first 20 bytes, or fewer when
    the packet is shorter; [struct.unpack] raises unless it gets exactly 20
    bytes, and the [except] clause turns that into [None]. *)
Definition parse_ip_header (packet : list byte) : option IpInfo :=
  let ip_header := take 20 packet in
  if (length ip_header =? 20)%nat then
    let version_ihl := u8 ip_header 0 in
    let version := N.shiftr version_ihl 4 in
    let ihl := N.land version_ihl 15 in
    let iph_length := (ihl * 4)%N in
    Some {| version := version;
            header_length := iph_length;
            ttl := u8 ip_header 8;
            protocol := u8 ip_header 9;
            source_ip := inet_ntoa ip_header 12;
            destination_ip := inet_ntoa ip_header 16 |}
  else None.

Record TcpInfo := {
  source_port : N;
  destination_port : N;
  sequence : N;
  acknowledgement : N;
  tcp_header_length : N;
  flags : N
}.

(** [parse_tcp_header]: the slice [packet[l:l+20]] must hold 20 bytes. *)
Definition parse_tcp_header (packet : list byte) (ip_header_length : N)
  : option TcpInfo :=
  let tcp_header := take 20 (drop (N.to_nat ip_header_length) packet) in
  if (length tcp_header =? 20)%nat then
    let doff_reserved := u8 tcp_header 12 in
    Some {| source_port := u16 tcp_header 0;
            destination_port := u16 tcp_header 2;
            sequence := u32 tcp_header 4;
            acknowledgement := u32 tcp_header 8;
            tcp_header_length := (N.shiftr doff_reserved 4 * 4)%N;
            flags := u8 tcp_header 13 |}
  else None.

(** ** State of the monitor *)

(** An entry of [self.alerts]. *)
Record Alert := {
  alert_id : string;
  alert_type : string;
  alert_title : string;
  alert_description : string;
  alert_timestamp : string;
  alert_source_ip : string;
  alert_destination_ip : string;
  alert_status : string
}.

(** An entry of the [activities] list of an investigation record. *)
Record Activity := {
  act_timestamp : string;
  act_action : string;
  act_details : string;
  act_severity : string
}.

(** A value of [self.ip_investigation_data]. The keys [status] and
    [last_seen] are absent from a new record; [get_ip_investigation_data]
    adds them. *)
Record Investigation := {
  first_seen : string;
  activities : list Activity;
  ports_accessed : list N;
  classification : string;
  notes : string;
  status : option string;
  last_seen : option string
}.

(** An entry of [self.traffic_history]. *)
Record TrafficEntry := {
  te_timestamp : Q;
  te_source_ip : string;
  te_dest_ip : string;
  te_dest_port : N;
  te_protocol : string;
  te_flags : N
}.

Record Config := {
  port_scan_threshold : Z;
  ddos_threshold : Z;
  monitoring_enabled : bool;
  auto_block : bool
}.

Record NetworkMonitor := {
  packet_count : nat;
  suspicious_packets : nat;
  connection_tracker : gmap string (list Q);
  port_scan_tracker : gmap string (gset N);
  traffic_history : list TrafficEntry;
  blocked_ips : gset string;
  whitelisted_ips : gset string;
  alerts : list Alert;
  ip_investigation_data : gmap string Investigation;
  config : Config
}.

(** [NetworkMonitor.__init__] *)
Definition init : NetworkMonitor := {|
  packet_count := 0;
  suspicious_packets := 0;
  connection_tracker := ∅;
  port_scan_tracker := ∅;
  traffic_history := [];
  blocked_ips := ∅;
  whitelisted_ips := ∅;
  alerts := [];
  ip_investigation_data := ∅;
  config := {| port_scan_threshold := 10;
               ddos_threshold := 100;
               monitoring_enabled := true;
               auto_block := false |}
|}.

(** Assignments to one attribute of [self]. *)
Definition set_packet_count (v : nat) (st : NetworkMonitor) :=
  {| packet_count := v;
     suspicious_packets := suspicious_packets st;
     connection_tracker := connection_tracker st;
     port_scan_tracker := port_scan_tracker st;
     traffic_history := traffic_history st;
     blocked_ips := blocked_ips st;
     whitelisted_ips := whitelisted_ips st;
     alerts := alerts st;
     ip_investigation_data := ip_investigation_data st;
     config := config st |}.

Definition set_suspicious_packets (v : nat) (st : NetworkMonitor) :=
  {| packet_count := packet_count st;
     suspicious_packets := v;
     connection_tracker := connection_tracker st;
     port_scan_tracker := port_scan_tracker st;
     traffic_history := traffic_history st;
     blocked_ips := blocked_ips st;
     whitelisted_ips := whitelisted_ips st;
     alerts := alerts st;
     ip_investigation_data := ip_investigation_data st;
     config := config st |}.

Definition set_connection_tracker (v : gmap string (list Q))
    (st : NetworkMonitor) :=
  {| packet_count := packet_count st;
     suspicious_packets := suspicious_packets st;
     connection_tracker := v;
     port_scan_tracker := port_scan_tracker st;
     traffic_history := traffic_history st;
     blocked_ips := blocked_ips st;
     whitelisted_ips := whitelisted_ips st;
     alerts := alerts st;
     ip_investigation_data := ip_investigation_data st;
     config := config st |}.

Definition set_port_scan_tracker (v : gmap string (gset N))
    (st : NetworkMonitor) :=
  {| packet_count := packet_count st;
     suspicious_packets := suspicious_packets st;
     connection_tracker := connection_tracker st;
     port_scan_tracker := v;
     traffic_history := traffic_history st;
     blocked_ips := blocked_ips st;
     whitelisted_ips := whitelisted_ips st;
     alerts := alerts st;
     ip_investigation_data := ip_investigation_data st;
     config := config st |}.

Definition set_traffic_history (v : list TrafficEntry) (st : NetworkMonitor) :=
  {| packet_count := packet_count st;
     suspicious_packets := suspicious_packets st;
     connection_tracker := connection_tracker st;
     port_scan_tracker := port_scan_tracker st;
     traffic_history := v;
     blocked_ips := blocked_ips st;
     whitelisted_ips := whitelisted_ips st;
     alerts := alerts st;
     ip_investigation_data := ip_investigation_data st;
     config := config st |}.

Definition set_blocked_ips (v : gset string) (st : NetworkMonitor) :=
  {| packet_count := packet_count st;
     suspicious_packets := suspicious_packets st;
     connection_tracker := connection_tracker st;
     port_scan_tracker := port_scan_tracker st;
     traffic_history := traffic_history st;
     blocked_ips := v;
     whitelisted_ips := whitelisted_ips st;
     alerts := alerts st;
     ip_investigation_data := ip_investigation_data st;
     config := config st |}.

Definition set_whitelisted_ips (v : gset string) (st : NetworkMonitor) :=
  {| packet_count := packet_count st;
     suspicious_packets := suspicious_packets st;
     connection_tracker := connection_tracker st;
     port_scan_tracker := port_scan_tracker st;
     traffic_history := traffic_history st;
     blocked_ips := blocked_ips st;
     whitelisted_ips := v;
     alerts := alerts st;
     ip_investigation_data := ip_investigation_data st;
     config := config st |}.

Definition set_alerts (v : list Alert) (st : NetworkMonitor) :=
  {| packet_count := packet_count st;
     suspicious_packets := suspicious_packets st;
     connection_tracker := connection_tracker st;
     port_scan_tracker := port_scan_tracker st;
     traffic_history := traffic_history st;
     blocked_ips := blocked_ips st;
     whitelisted_ips := whitelisted_ips st;
     alerts := v;
     ip_investigation_data := ip_investigation_data st;
     config := config st |}.

Definition set_ip_investigation_data (v : gmap string Investigation)
    (st : NetworkMonitor) :=
  {| packet_count := packet_count st;
     suspicious_packets := suspicious_packets st;
     connection_tracker := connection_tracker st;
     port_scan_tracker := port_scan_tracker st;
     traffic_history := traffic_history st;
     blocked_ips := blocked_ips st;
     whitelisted_ips := whitelisted_ips st;
     alerts := alerts st;
     ip_investigation_data := v;
     config := config st |}.

Definition set_config (v : Config) (st : NetworkMonitor) :=
  {| packet_count := packet_count st;
     suspicious_packets := suspicious_packets st;
     connection_tracker := connection_tracker st;
     port_scan_tracker := port_scan_tracker st;
     traffic_history := traffic_history st;
     blocked_ips := blocked_ips st;
     whitelisted_ips := whitelisted_ips st;
     alerts := alerts st;
     ip_investigation_data := ip_investigation_data st;
     config := v |}.

(** Assignments to one key of an investigation record. *)
Definition set_activities (v : list Activity) (d : Investigation) :=
  {| first_seen := first_seen d; activities := v;
     ports_accessed := ports_accessed d; classification := classification d;
     notes := notes d; status := status d; last_seen := last_seen d |}.

Definition set_ports_accessed (v : list N) (d : Investigation) :=
  {| first_seen := first_seen d; activities := activities d;
     ports_accessed := v; classification := classification d;
     notes := notes d; status := status d; last_seen := last_seen d |}.

Definition set_classification (v : string) (d : Investigation) :=
  {| first_seen := first_seen d; activities := activities d;
     ports_accessed := ports_accessed d; classification := v;
     notes := notes d; status := status d; last_seen := last_seen d |}.

Definition set_notes (v : string) (d : Investigation) :=
  {| first_seen := first_seen d; activities := activities d;
     ports_accessed := ports_accessed d; classification := classification d;
     notes := v; status := status d; last_seen := last_seen d |}.

Definition set_status (v : option string) (d : Investigation) :=
  {| first_seen := first_seen d; activities := activities d;
     ports_accessed := ports_accessed d; classification := classification d;
     notes := notes d; status := v; last_seen := last_seen d |}.

Definition set_last_seen (v : option string) (d : Investigation) :=
  {| first_seen := first_seen d; activities := activities d;
     ports_accessed := ports_accessed d; classification := classification d;
     notes := notes d; status := status d; last_seen := v |}.

(** The record that the detectors and [update_ip_notes] store for an
    address that has none. *)
Definition new_investigation (now : string) (ports : list N) : Investigation :=
  {| first_seen := now; activities := []; ports_accessed := ports;
     classification := "unknown"; notes := "";
     status := None; last_seen := None |}.

(** [d[k]] on a [defaultdict]. *)
Definition tracker_get {V} (dflt : V) (m : gmap string V) (k : string) : V :=
  default dflt (m !! k).

(** ** Rule detectors *)

(** [detect_port_scan]. The result is the returned flag and the state the
    call leaves behind. *)
Definition detect_port_scan (source_ip : string) (dest_port : N) (ck : Clock)
    (st : NetworkMonitor) : bool * NetworkMonitor :=
  if decide (source_ip ∈ whitelisted_ips st) then (false, st)
  else
    let current_time := time_time ck in
    let ports := tracker_get ∅ (port_scan_tracker st) source_ip ∪ {[dest_port]} in
    let st := set_port_scan_tracker
                (<[source_ip := ports]> (port_scan_tracker st)) st in
    if port_scan_threshold (config st) <? Z.of_nat (size ports) then
      let alert :=
        {| alert_id := "ps_" +:+ pretty (int_of_time current_time);
           alert_type := "high";
           alert_title := "Port Scan Detected";
           alert_description :=
             "IP " +:+ source_ip +:+ " has accessed " +:+
             pretty (size ports) +:+ " different ports";
           alert_timestamp := now_alert ck;
           alert_source_ip := source_ip;
           alert_destination_ip := "multiple";
           alert_status := "active" |} in
      let st := set_alerts (alerts st ++ [alert]) st in
      let st := set_suspicious_packets (suspicious_packets st + 1) st in
      let data :=
        match ip_investigation_data st !! source_ip with
        | Some d => d
        | None => new_investigation (now_first_seen ck) (elements ports)
        end in
      let data :=
        set_activities
          (activities data ++
             [{| act_timestamp := now_activity ck;
                 act_action := "Port Scan Detected";
                 act_details :=
                   "Accessed " +:+ pretty (size ports) +:+ " different ports";
                 act_severity := "high" |}]) data in
      let st := set_ip_investigation_data
                  (<[source_ip := data]> (ip_investigation_data st)) st in
      let st :=
        if auto_block (config st)
           && bool_decide (source_ip ∉ whitelisted_ips st)
        then set_blocked_ips (blocked_ips st ∪ {[source_ip]}) st
        else st in
      (true, st)
    else (false, st).

(** The comprehension of [detect_ddos]: the recorded arrival times [t] with
    [current_time - t < 1.0]. *)
Definition recent_packets (current_time : Q) (times : list Q) : list Q :=
  List.filter (fun t => Qltb (current_time - t) 1) times.

(** [detect_ddos]. Reading [self.connection_tracker[source_ip]] creates the
    entry when the address has none. *)
Definition detect_ddos (source_ip : string) (ck : Clock)
    (st : NetworkMonitor) : bool * NetworkMonitor :=
  if decide (source_ip ∈ whitelisted_ips st) then (false, st)
  else
    let current_time := time_time ck in
    let times := tracker_get [] (connection_tracker st) source_ip in
    let st := set_connection_tracker
                (<[source_ip := times]> (connection_tracker st)) st in
    let recent := recent_packets current_time times in
    if ddos_threshold (config st) <? Z.of_nat (length recent) then
      let alert :=
        {| alert_id := "ddos_" +:+ pretty (int_of_time current_time);
           alert_type := "high";
           alert_title := "DDoS Attack Detected";
           alert_description :=
             "IP " +:+ source_ip +:+ " sent " +:+
             pretty (length recent) +:+ " packets in 1 second";
           alert_timestamp := now_alert ck;
           alert_source_ip := source_ip;
           alert_destination_ip := "multiple";
           alert_status := "active" |} in
      let st := set_alerts (alerts st ++ [alert]) st in
      let st := set_suspicious_packets (suspicious_packets st + 1) st in
      let data :=
        match ip_investigation_data st !! source_ip with
        | Some d => d
        | None => new_investigation (now_first_seen ck) []
        end in
      let data :=
        set_activities
          (activities data ++
             [{| act_timestamp := now_activity ck;
                 act_action := "DDoS Attack Detected";
                 act_details :=
                   "Sent " +:+ pretty (length recent) +:+ " packets in 1 second";
                 act_severity := "high" |}]) data in
      let st := set_ip_investigation_data
                  (<[source_ip := data]> (ip_investigation_data st)) st in
      let st :=
        if auto_block (config st)
           && bool_decide (source_ip ∉ whitelisted_ips st)
        then set_blocked_ips (blocked_ips st ∪ {[source_ip]}) st
        else st in
      (true, st)
    else (false, st).

(** ** Packet analysis *)

(** The last step of [analyze_packet]: an existing investigation record
    learns the destination port; no record is created here. *)
Definition note_port (source_ip : string) (dest_port : N)
    (st : NetworkMonitor) : NetworkMonitor :=
  match ip_investigation_data st !! source_ip with
  | Some d =>
      if decide (dest_port ∈ ports_accessed d) then st
      else set_ip_investigation_data
             (<[source_ip := set_ports_accessed (ports_accessed d ++ [dest_port]) d]>
                (ip_investigation_data st)) st
  | None => st
  end.

(** [analyze_packet]. [current_time] is the reading taken at its entry;
    [ck_ps] and [ck_dd] are the readings the two detectors take. *)
Definition analyze_packet (packet : list byte) (current_time : Q)
    (ck_ps ck_dd : Clock) (st : NetworkMonitor) : NetworkMonitor :=
  let st := set_packet_count (packet_count st + 1) st in
  match parse_ip_header packet with
  | None => st
  | Some ip_info =>
      let src := source_ip ip_info in
      let dest_ip := destination_ip ip_info in
      if decide (src ∈ blocked_ips st) then st
      else if decide (src ∈ whitelisted_ips st) then
        set_connection_tracker
          (<[src := tracker_get [] (connection_tracker st) src ++ [current_time]]>
             (connection_tracker st)) st
      else
        let st := set_connection_tracker
                    (<[src := tracker_get [] (connection_tracker st) src
                              ++ [current_time]]>
                       (connection_tracker st)) st in
        let st := set_connection_tracker
                    (<[src := List.filter (fun t => Qltb (current_time - t) 60)
                                (tracker_get [] (connection_tracker st) src)]>
                       (connection_tracker st)) st in
        if (protocol ip_info =? 6)%N then
          match parse_tcp_header packet (header_length ip_info) with
          | None => st
          | Some tcp_info =>
              let dest_port := destination_port tcp_info in
              let st := snd (detect_port_scan src dest_port ck_ps st) in
              let st := snd (detect_ddos src ck_dd st) in
              let traffic_entry :=
                {| te_timestamp := current_time;
                   te_source_ip := src;
                   te_dest_ip := dest_ip;
                   te_dest_port := dest_port;
                   te_protocol := "TCP";
                   te_flags := flags tcp_info |} in
              let st := set_traffic_history
                          (deque_append 1000 (traffic_history st) traffic_entry)
                          st in
              note_port src dest_port st
          end
        else st
  end.

(** ** Access lists and investigation data *)

(** [block_ip] *)
Definition block_ip (ip : string) (now : string) (st : NetworkMonitor)
  : bool * NetworkMonitor :=
  if decide (ip ∈ whitelisted_ips st) then (false, st)
  else if decide (ip ∉ blocked_ips st) then
    let st := set_blocked_ips (blocked_ips st ∪ {[ip]}) st in
    let st :=
      match ip_investigation_data st !! ip with
      | Some d =>
          let d := set_classification "malicious" d in
          let d := set_activities
                     (activities d ++
                        [{| act_timestamp := now;
                            act_action := "IP Blocked";
                            act_details := "Manually blocked by administrator";
                            act_severity := "info" |}]) d in
          set_ip_investigation_data (<[ip := d]> (ip_investigation_data st)) st
      | None => st
      end in
    (true, st)
  else (false, st).

(** [whitelist_ip] *)
Definition whitelist_ip (ip : string) (now : string) (st : NetworkMonitor)
  : bool * NetworkMonitor :=
  let st := if decide (ip ∈ blocked_ips st)
            then set_blocked_ips (blocked_ips st ∖ {[ip]}) st
            else st in
  if decide (ip ∉ whitelisted_ips st) then
    let st := set_whitelisted_ips (whitelisted_ips st ∪ {[ip]}) st in
    let st :=
      match ip_investigation_data st !! ip with
      | Some d =>
          let d := set_classification "benign" d in
          let d := set_activities
                     (activities d ++
                        [{| act_timestamp := now;
                            act_action := "IP Whitelisted";
                            act_details := "Manually whitelisted by administrator";
                            act_severity := "info" |}]) d in
          set_ip_investigation_data (<[ip := d]> (ip_investigation_data st)) st
      | None => st
      end in
    (true, st)
  else (false, st).

(** The status that [get_ip_investigation_data] derives from the access
    lists. *)
Definition current_status (ip : string) (st : NetworkMonitor) : string :=
  if decide (ip ∈ blocked_ips st) then "blocked"
  else if decide (ip ∈ whitelisted_ips st) then "whitelisted"
  else "monitoring".

(** [get_ip_investigation_data]. [data] is the stored dictionary itself, not
    a copy: the two assignments go to the store, and the returned value is
    the stored record after them. *)
Definition get_ip_investigation_data (ip : string) (now : string)
    (st : NetworkMonitor) : option Investigation * NetworkMonitor :=
  match ip_investigation_data st !! ip with
  | Some data =>
      let data := set_status (Some (current_status ip st)) data in
      let data := set_last_seen (Some now) data in
      (Some data,
       set_ip_investigation_data (<[ip := data]> (ip_investigation_data st)) st)
  | None => (None, st)
  end.

(** [update_ip_notes] *)
Definition update_ip_notes (ip : string) (text : string) (now : string)
    (st : NetworkMonitor) : bool * NetworkMonitor :=
  let data :=
    match ip_investigation_data st !! ip with
    | Some d => d
    | None => new_investigation now []
    end in
  (true,
   set_ip_investigation_data
     (<[ip := set_notes text data]> (ip_investigation_data st)) st).

(** Modelled from the spec: [remove_block(addr)] and [remove_allow(addr)],
    the list mutations of the control plane that take an address off a
    list. The monitor has no method for them; they are set removals on
    [blocked_ips] and [whitelisted_ips]. *)
Definition remove_block (ip : string) (st : NetworkMonitor) : NetworkMonitor :=
  set_blocked_ips (blocked_ips st ∖ {[ip]}) st.

Definition remove_allow (ip : string) (st : NetworkMonitor) : NetworkMonitor :=
  set_whitelisted_ips (whitelisted_ips st ∖ {[ip]}) st.

(** ** Runs of the monitor *)

(** The calls that reach a monitor during its lifetime, each with the clock
    readings it takes. [Configure] is [self.config.update(...)]. *)
Inductive Op :=
| AnalyzePacket (packet : list byte) (current_time : Q) (ck_ps ck_dd : Clock)
| BlockIp (ip now : string)
| WhitelistIp (ip now : string)
| RemoveBlock (ip : string)
| RemoveAllow (ip : string)
| GetInvestigation (ip now : string)
| UpdateNotes (ip text now : string)
| Configure (cfg : Config).

Definition run_op (op : Op) (st : NetworkMonitor) : NetworkMonitor :=
  match op with
  | AnalyzePacket packet current_time ck_ps ck_dd =>
      analyze_packet packet current_time ck_ps ck_dd st
  | BlockIp ip now => snd (block_ip ip now st)
  | WhitelistIp ip now => snd (whitelist_ip ip now st)
  | RemoveBlock ip => remove_block ip st
  | RemoveAllow ip => remove_allow ip st
  | GetInvestigation ip now => snd (get_ip_investigation_data ip now st)
  | UpdateNotes ip text now => snd (update_ip_notes ip text now st)
  | Configure cfg => set_config cfg st
  end.

Definition run_ops (ops : list Op) (st : NetworkMonitor) : NetworkMonitor :=
  fold_left (fun st op => run_op op st) ops st.

(** Successive calls of the port-scan detector for one source: the flags
    they return, and the final state. *)
Fixpoint detect_port_scans (source_ip : string) (calls : list (N * Clock))
    (st : NetworkMonitor) : list bool * NetworkMonitor :=
  match calls with
  | [] => ([], st)
  | (dest_port, ck) :: rest =>
      let r := detect_port_scan source_ip dest_port ck st in
      let rs := detect_port_scans source_ip rest (snd r) in
      (fst r :: fst rs, snd rs)
  end.

(** No address is on both access lists. *)
Definition exclusive (st : NetworkMonitor) : Prop :=
  blocked_ips st ## whitelisted_ips st.

(** The port set that [detect_port_scan] stores for the source. *)
Definition ports_after (source_ip : string) (dest_port : N)
    (st : NetworkMonitor) : gset N :=
  tracker_get ∅ (port_scan_tracker st) source_ip ∪ {[dest_port]}.

(** [now - t < bound] on clock readings is decidable. *)
Definition Qlt_decision (x y : Q) : Decision (x < y)%Q :=
  match Qlt_le_dec x y with
  | left H => left H
  | right H => right (Qle_not_lt _ _ H)
  end.

(** The state in which [analyze_packet] calls the rule detectors for a
    source that is neither blocked nor allowlisted: the packet is counted,
    its arrival time recorded, and the source's arrival times older than 60
    seconds dropped. *)
Definition track_time (src : string) (current_time : Q)
    (st : NetworkMonitor) : NetworkMonitor :=
  let st := set_packet_count (packet_count st + 1) st in
  let st := set_connection_tracker
              (<[src := tracker_get [] (connection_tracker st) src
                        ++ [current_time]]>
                 (connection_tracker st)) st in
  set_connection_tracker
    (<[src := List.filter (fun t => Qltb (current_time - t) 60)
                (tracker_get [] (connection_tracker st) src)]>
       (connection_tracker st)) st.

(** The steps of [analyze_packet] that follow the bookkeeping of arrival
    times, for a TCP packet: both rule detectors, the traffic log, and the
    port of an existing investigation record. *)
Definition run_detectors (src : string) (dest_port : N) (ck_ps ck_dd : Clock)
    (entry : TrafficEntry) (st : NetworkMonitor) : NetworkMonitor :=
  let st := snd (detect_port_scan src dest_port ck_ps st) in
  let st := snd (detect_ddos src ck_dd st) in
  note_port src dest_port
    (set_traffic_history (deque_append 1000 (traffic_history st) entry) st).

(** The investigation record of [ip] survives from [st] to [st'], with the
    [status] and [last_seen] it had. *)
Definition keeps_record (ip : string) (st st' : NetworkMonitor) : Prop :=
  forall d, ip_investigation_data st !! ip = Some d ->
    exists d', ip_investigation_data st' !! ip = Some d'
               /\ status d' = status d /\ last_seen d' = last_seen d.

(** [op] is not a query of the investigation data of [ip]. *)
Definition not_query (ip : string) (op : Op) : Prop :=
  match op with
  | GetInvestigation ip' _ => ip' ≠ ip
  | _ => True
  end.

(** ** Sample inputs *)

(** A 20-byte header whose version nibble is 6 and whose IHL is 0. *)
Definition not_ipv4 : list byte :=
  [x60; x00; x00; x14; x00; x00; x00; x00; x40; x06; x00; x00;
   x0a; x00; x00; x09; x0a; x00; x00; x01].

(** A TCP packet from 10.0.0.9 to 10.0.0.1, destination port 25: a 20-byte
    IPv4 header followed by a 20-byte TCP header. *)
Definition tcp_from_9 : list byte :=
  [x45; x00; x00; x28; x00; x00; x00; x00; x40; x06; x00; x00;
   x0a; x00; x00; x09; x0a; x00; x00; x01;
   x30; x39; x00; x19; x00; x00; x00; x00; x00; x00; x00; x00;
   x50; x02; x00; x00; x00; x00; x00; x00].

(** The same packet from 10.0.0.7. *)
Definition tcp_from_7 : list byte :=
  [x45; x00; x00; x28; x00; x00; x00; x00; x40; x06; x00; x00;
   x0a; x00; x00; x07; x0a; x00; x00; x01;
   x30; x39; x00; x19; x00; x00; x00; x00; x00; x00; x00; x00;
   x50; x02; x00; x00; x00; x00; x00; x00].

(** Clock readings of a detector call at time [t]. *)
Definition clock_at (t : Q) : Clock :=
  {| time_time := t; now_alert := "2026-01-01T00:00:00";
     now_first_seen := "2026-01-01T00:00:00";
     now_activity := "2026-01-01T00:00:00" |}.

(** A new monitor with both rule thresholds set to 0. *)
Definition sensitive : NetworkMonitor :=
  set_config {| port_scan_threshold := 0; ddos_threshold := 0;
                monitoring_enabled := true; auto_block := false |} init.

(** The number of packets handed to [analyze_packet] in a run. *)
Definition is_packet (op : Op) : bool :=
  match op with AnalyzePacket _ _ _ _ => true | _ => false end.

Definition packets_in (ops : list Op) : nat := length (List.filter is_packet ops).

(** An alert of the rule detectors as they create it. *)
Definition fresh_alert (a : Alert) : Prop :=
  alert_type a = "high" /\ alert_status a = "active"
  /\ alert_destination_ip a = "multiple".

(** The counters agree with the alert list, every alert has severity high,
    and the traffic log is within its capacity. *)
Definition counters_consistent (st : NetworkMonitor) : Prop :=
  suspicious_packets st = length (alerts st) /\
  Forall (fun a => alert_type a = "high") (alerts st) /\
  (length (traffic_history st) <= 1000)%nat.

(** The monitor's half of [apply_configuration] of the API server:
    [network_monitor.config.update] with the rule thresholds of the
    sensitivity level and the automatic-blocking switch. *)
Definition apply_configuration (sensitivityLevel : string)
    (autoBlockEnabled : bool) (st : NetworkMonitor) : NetworkMonitor :=
  set_config
    {| port_scan_threshold :=
         if decide (sensitivityLevel = "high") then 5
         else if decide (sensitivityLevel = "medium") then 10 else 20;
       ddos_threshold :=
         if decide (sensitivityLevel = "high") then 50
         else if decide (sensitivityLevel = "medium") then 100 else 200;
       monitoring_enabled := monitoring_enabled (config st);
       auto_block := autoBlockEnabled |} st.

End Monitor.

Module Detector.

Local Open Scope R_scope.

(** ** Traffic samples and metrics *)

(** An entry of the [traffic_data] handed to [analyze_traffic]. The detector
    reads three keys, each through [entry.get(key, default)]; a missing key
    is [None]. *)
Record TrafficData := {
  td_timestamp : option Q;
  td_dest_port : option N;
  td_source_ip : option string
}.

(** [self.current_metrics]. [ip_counts] is a dictionary that is iterated, so
    it keeps the order in which its keys were first inserted. *)
Record Metrics := {
  packet_rate : nat;
  connection_count : nat;
  unique_ports : gset N;
  ip_counts : list (string * nat)
}.

Definition zero_metrics : Metrics :=
  {| packet_rate := 0; connection_count := 0; unique_ports := ∅; ip_counts := [] |}.

(** [d[k] += 1] on a [defaultdict(int)]. *)
Fixpoint bump (k : string) (d : list (string * nat)) : list (string * nat) :=
  match d with
  | [] => [(k, 1%nat)]
  | (k', c) :: d' =>
      if decide (k' = k) then (k', S c) :: d' else (k', c) :: bump k d'
  end.

(** [d.get(k, 0)] *)
Fixpoint get_count (k : string) (d : list (string * nat)) : nat :=
  match d with
  | [] => 0%nat
  | (k', c) :: d' => if decide (k' = k) then c else get_count k d'
  end.

(** The body of the loop of [update_metrics] over the recent entries. *)
Definition count_entry (m : Metrics) (entry : TrafficData) : Metrics :=
  {| packet_rate := packet_rate m + 1;
     connection_count := connection_count m + 1;
     unique_ports := unique_ports m ∪ {[default 0%N (td_dest_port entry)]};
     ip_counts := bump (default "" (td_source_ip entry)) (ip_counts m) |}.

Definition recent_traffic (current_time : Q) (traffic_data : list TrafficData)
  : list TrafficData :=
  List.filter
    (fun entry => Qltb (current_time - default 0%Q (td_timestamp entry)) 60)
    traffic_data.

(** [self.ip_frequencies[ip].append(count)] followed by the [popleft] that
    keeps at most 100 samples; a new address is inserted last. *)
Fixpoint freq_append (ip : string) (count : nat)
    (d : list (string * list nat)) : list (string * list nat) :=
  match d with
  | [] => [(ip, [count])]
  | (k, counts) :: d' =>
      if decide (k = ip) then
        let counts := counts ++ [count] in
        (k, if (100 <? length counts)%nat then drop 1 counts else counts) :: d'
      else (k, counts) :: freq_append ip count d'
  end.

(** ** Statistics *)

Definition sum_R (xs : list R) : R := fold_right Rplus 0 xs.

(** [statistics.mean] on a sequence of integers. Python raises on an empty
    sequence; every call is made on a non-empty one. *)
Definition mean (xs : list nat) : R :=
  sum_R (map INR xs) / INR (length xs).

(** [statistics.stdev]: the square root of the sample variance, whose
    denominator is [n - 1]. *)
Definition variance (xs : list nat) : R :=
  sum_R (map (fun x => (INR x - mean xs) * (INR x - mean xs)) xs)
  / (INR (length xs) - 1).

Definition stdev (xs : list nat) : R := sqrt (variance xs).

(** [statistics.stdev(xs) if len(xs) > 1 else 0] *)
Definition stdev_or_zero (xs : list nat) : R :=
  if (1 <? length xs)%nat then stdev xs else 0.

(** ** State of the detector *)

Record Thresholds := {
  packet_rate_std_multiplier : R;
  connection_count_std_multiplier : R;
  unusual_port_threshold : R;
  ip_frequency_std_multiplier : R
}.

Record Baseline := {
  packet_rate_mean : R;
  packet_rate_std : R;
  connection_count_mean : R;
  connection_count_std : R;
  port_count_mean : R;
  port_count_std : R
}.

(** What a detector returns. The three global detectors build a dictionary
    with the key [current_value] (and, for ports, [unusual_ports]); the
    per-source detector builds one with [ip_address] and [current_count]
    instead. [expected_range] is kept as the two bounds that the source
    formats into a string. *)
Inductive Anomaly :=
| GlobalAnomaly (type severity : string) (current_value : nat)
    (expected_range : R * R) (z_score : R) (unusual_ports : option (list N))
| SourceAnomaly (severity ip_address : string) (current_count : nat)
    (expected_range : R * R) (z_score : R).

Definition anomaly_type (a : Anomaly) : string :=
  match a with
  | GlobalAnomaly type _ _ _ _ _ => type
  | SourceAnomaly _ _ _ _ _ => "ip_frequency_anomaly"
  end.

Definition anomaly_severity (a : Anomaly) : string :=
  match a with
  | GlobalAnomaly _ severity _ _ _ _ => severity
  | SourceAnomaly severity _ _ _ _ => severity
  end.

Definition anomaly_z_score (a : Anomaly) : R :=
  match a with
  | GlobalAnomaly _ _ _ _ z _ => z
  | SourceAnomaly _ _ _ _ z => z
  end.

(** An entry of [self.alerts]. The description, a template filled with
    formatted numbers, is not kept. *)
Record Alert := {
  alert_id : string;
  alert_type : string;
  alert_title : string;
  alert_timestamp : string;
  alert_source_ip : string;
  alert_destination_ip : string;
  alert_status : string;
  alert_details : Anomaly
}.

(** The attributes of [AnomalyDetector]. [baseline] stands for the two
    attributes [baseline_established] and [baseline]: the source assigns
    them together, in [establish_baseline] only, so the flag is set exactly
    when the dictionary exists. *)
Record AnomalyDetector := {
  baseline : option Baseline;
  baseline_period : Q;
  start_time : Q;
  alerts : list Alert;
  packet_rates : list nat;
  connection_counts : list nat;
  port_distributions : list nat;
  ip_frequencies : list (string * list nat);
  thresholds : Thresholds;
  current_metrics : Metrics
}.

Definition baseline_established (st : AnomalyDetector) : bool :=
  match baseline st with Some _ => true | None => false end.

(** [AnomalyDetector.__init__], at clock reading [now]. *)
Definition init (now : Q) : AnomalyDetector := {|
  baseline := None;
  baseline_period := 3600;
  start_time := now;
  alerts := [];
  packet_rates := [];
  connection_counts := [];
  port_distributions := [];
  ip_frequencies := [];
  thresholds := {| packet_rate_std_multiplier := 3;
                   connection_count_std_multiplier := 2.5;
                   unusual_port_threshold := 0.05;
                   ip_frequency_std_multiplier := 2 |};
  current_metrics := zero_metrics
|}.

Definition set_baseline (v : option Baseline) (st : AnomalyDetector) :=
  {| baseline := v;
     baseline_period := baseline_period st;
     start_time := start_time st;
     alerts := alerts st;
     packet_rates := packet_rates st;
     connection_counts := connection_counts st;
     port_distributions := port_distributions st;
     ip_frequencies := ip_frequencies st;
     thresholds := thresholds st;
     current_metrics := current_metrics st |}.

Definition set_alerts (v : list Alert) (st : AnomalyDetector) :=
  {| baseline := baseline st;
     baseline_period := baseline_period st;
     start_time := start_time st;
     alerts := v;
     packet_rates := packet_rates st;
     connection_counts := connection_counts st;
     port_distributions := port_distributions st;
     ip_frequencies := ip_frequencies st;
     thresholds := thresholds st;
     current_metrics := current_metrics st |}.

Definition set_thresholds (v : Thresholds) (st : AnomalyDetector) :=
  {| baseline := baseline st;
     baseline_period := baseline_period st;
     start_time := start_time st;
     alerts := alerts st;
     packet_rates := packet_rates st;
     connection_counts := connection_counts st;
     port_distributions := port_distributions st;
     ip_frequencies := ip_frequencies st;
     thresholds := v;
     current_metrics := current_metrics st |}.

(** ** Sampling *)

(** [update_metrics], at clock reading [current_time]. *)
Definition update_metrics (current_time : Q) (traffic_data : list TrafficData)
    (st : AnomalyDetector) : AnomalyDetector :=
  let m := fold_left count_entry (recent_traffic current_time traffic_data)
             zero_metrics in
  {| baseline := baseline st;
     baseline_period := baseline_period st;
     start_time := start_time st;
     alerts := alerts st;
     packet_rates := deque_append 100 (packet_rates st) (packet_rate m);
     connection_counts :=
       deque_append 100 (connection_counts st) (connection_count m);
     port_distributions :=
       deque_append 100 (port_distributions st) (size (unique_ports m));
     ip_frequencies :=
       fold_left (fun d kc => freq_append (fst kc) (snd kc) d) (ip_counts m)
         (ip_frequencies st);
     thresholds := thresholds st;
     current_metrics := m |}.

(** ** Baseline *)

(** The dictionary that [establish_baseline] builds from the three series. *)
Definition compute_baseline (st : AnomalyDetector) : Baseline :=
  {| packet_rate_mean := mean (packet_rates st);
     packet_rate_std := stdev_or_zero (packet_rates st);
     connection_count_mean := mean (connection_counts st);
     connection_count_std := stdev_or_zero (connection_counts st);
     port_count_mean := mean (port_distributions st);
     port_count_std := stdev_or_zero (port_distributions st) |}.

(** [establish_baseline], at clock reading [now]. *)
Definition establish_baseline (now : Q) (st : AnomalyDetector)
  : bool * AnomalyDetector :=
  if Qltb (now - start_time st) (baseline_period st) then (false, st)
  else if (length (packet_rates st) <? 50)%nat then (false, st)
  else (true, set_baseline (Some (compute_baseline st)) st).

(** ** Detection *)

(** The common body of the three global detectors, after the baseline has
    been found: [None] when [std == 0], otherwise the z-score test.
    [hi_factor], [hi] and [lo] are the severity rule of the caller. The
    quotient and the product [threshold * hi_factor] are exact real numbers
    here; the source computes them in binary floating point, so a z-score
    that ties with the rounded product can get the other severity. *)
Definition z_test (type : string) (hi_factor : R) (hi lo : string)
    (current : nat) (mean std threshold : R)
    (unusual_ports : option (list N)) : option Anomaly :=
  if Req_dec_T std 0 then None
  else
    let z_score := Rabs (INR current - mean) / std in
    if Rlt_dec threshold z_score then
      let severity := if Rlt_dec (threshold * hi_factor) z_score then hi else lo in
      Some (GlobalAnomaly type severity current (mean - std, mean + std)
              z_score unusual_ports)
    else None.

(** [detect_packet_rate_anomaly] *)
Definition detect_packet_rate_anomaly (st : AnomalyDetector) : option Anomaly :=
  match baseline st with
  | None => None
  | Some b =>
      z_test "packet_rate_anomaly" 1.5 "high" "medium"
        (packet_rate (current_metrics st))
        (packet_rate_mean b) (packet_rate_std b)
        (packet_rate_std_multiplier (thresholds st)) None
  end.

(** [detect_connection_anomaly] *)
Definition detect_connection_anomaly (st : AnomalyDetector) : option Anomaly :=
  match baseline st with
  | None => None
  | Some b =>
      z_test "connection_anomaly" 1.5 "high" "medium"
        (connection_count (current_metrics st))
        (connection_count_mean b) (connection_count_std b)
        (connection_count_std_multiplier (thresholds st)) None
  end.

(** [detect_port_anomaly]: the threshold is the connection multiplier. *)
Definition detect_port_anomaly (st : AnomalyDetector) : option Anomaly :=
  match baseline st with
  | None => None
  | Some b =>
      z_test "port_usage_anomaly" 1.2 "medium" "low"
        (size (unique_ports (current_metrics st)))
        (port_count_mean b) (port_count_std b)
        (connection_count_std_multiplier (thresholds st))
        (Some (elements (unique_ports (current_metrics st))))
  end.

(** The body of the loop of [detect_ip_frequency_anomaly] for one address. *)
Definition source_test (st : AnomalyDetector) (ip : string) (counts : list nat)
  : list Anomaly :=
  if (length counts <? 10)%nat then []
  else
    let current_count := get_count ip (ip_counts (current_metrics st)) in
    let mean := mean counts in
    let std := stdev_or_zero counts in
    if Req_dec_T std 0 then []
    else
      let z_score := Rabs (INR current_count - mean) / std in
      let threshold := ip_frequency_std_multiplier (thresholds st) in
      if Rlt_dec threshold z_score then
        let severity := if Rlt_dec (threshold * 1.5) z_score
                        then "high" else "medium" in
        [SourceAnomaly severity ip current_count (mean - std, mean + std) z_score]
      else [].

(** [detect_ip_frequency_anomaly]: [None] when nothing was found. *)
Definition detect_ip_frequency_anomaly (st : AnomalyDetector)
  : option (list Anomaly) :=
  match flat_map (fun kc => source_test st (fst kc) (snd kc)) (ip_frequencies st) with
  | [] => None
  | anomalies => Some anomalies
  end.

(** ** Alerts *)

Definition title_map (type : string) : string :=
  if decide (type = "packet_rate_anomaly") then "Unusual Packet Rate Detected"
  else if decide (type = "connection_anomaly") then "Abnormal Connection Pattern"
  else if decide (type = "port_usage_anomaly") then "Unusual Port Usage Pattern"
  else if decide (type = "ip_frequency_anomaly") then "Abnormal IP Traffic Frequency"
  else "Network Anomaly Detected".

(** [create_alert]. The dictionary of descriptions is built before one is
    chosen, and two of its entries read [anomaly['current_value']]: on a
    per-source anomaly, which has no such key, the call raises. *)
Definition create_alert (anomaly : Anomaly) (ck : Clock) : outcome Alert :=
  match anomaly with
  | GlobalAnomaly type severity _ _ _ _ =>
      Returned
        {| alert_id := "anomaly_" +:+ pretty (int_of_time (time_time ck))
                       +:+ "_" +:+ type;
           alert_type := severity;
           alert_title := title_map type;
           alert_timestamp := now_alert ck;
           alert_source_ip := "multiple";
           alert_destination_ip := "multiple";
           alert_status := "active";
           alert_details := anomaly |}
  | SourceAnomaly _ _ _ _ _ => Raised "KeyError: 'current_value'"
  end.

(** The loop that turns anomalies into alerts; [cks i] are the clock
    readings of the [i]-th call of [create_alert]. The alerts appended
    before a call raises stay appended. *)
Fixpoint append_alerts (anomalies : list Anomaly) (cks : nat -> Clock)
    (i : nat) (acc : list Alert) : option string * list Alert :=
  match anomalies with
  | [] => (None, acc)
  | anomaly :: rest =>
      match create_alert anomaly (cks i) with
      | Returned alert => append_alerts rest cks (S i) (acc ++ [alert])
      | Raised e => (Some e, acc)
      end
  end.

Definition option_list {A} (o : option A) : list A :=
  match o with Some a => [a] | None => [] end.

(** The list [anomalies] that [analyze_traffic] collects from the four
    detectors. *)
Definition collect_anomalies (st : AnomalyDetector) : list Anomaly :=
  option_list (detect_packet_rate_anomaly st) ++
  option_list (detect_connection_anomaly st) ++
  option_list (detect_port_anomaly st) ++
  default [] (detect_ip_frequency_anomaly st).

(** [analyze_traffic], one tick. [now_update] and [now_establish] are the
    clock readings of [update_metrics] and [establish_baseline]. *)
Definition analyze_traffic (traffic_data : list TrafficData)
    (now_update now_establish : Q) (cks : nat -> Clock)
    (st : AnomalyDetector) : outcome (list Anomaly) * AnomalyDetector :=
  let st := update_metrics now_update traffic_data st in
  if negb (baseline_established st) then
    (Returned [], snd (establish_baseline now_establish st))
  else
    let anomalies := collect_anomalies st in
    match append_alerts anomalies cks 0 (alerts st) with
    | (None, alerts) => (Returned anomalies, set_alerts alerts st)
    | (Some e, alerts) => (Raised e, set_alerts alerts st)
    end.

(** What the control plane does to the detector between ticks
    ([apply_configuration] of the API server): new threshold multipliers. *)
Definition configure (packet_rate connection ip_frequency : R)
    (st : AnomalyDetector) : AnomalyDetector :=
  set_thresholds
    {| packet_rate_std_multiplier := packet_rate;
       connection_count_std_multiplier := connection;
       unusual_port_threshold := unusual_port_threshold (thresholds st);
       ip_frequency_std_multiplier := ip_frequency |} st.

(** ** Runs of the detector *)

(** [sensitivity_multipliers.get(level, sensitivity_multipliers['medium'])]
    of the API server. *)
Definition sensitivity_multipliers (level : string) : R * R * R :=
  if decide (level = "high") then (2, 2, 1.5)
  else if decide (level = "low") then (4, 3, 2.5)
  else (3, 2.5, 2).

(** The calls that reach a detector: a tick, with its clock readings, and a
    change of sensitivity. *)
Inductive Op :=
| Tick (traffic_data : list TrafficData) (now_update now_establish : Q)
    (cks : nat -> Clock)
| Sensitivity (level : string).

Definition run_op (op : Op) (st : AnomalyDetector) : AnomalyDetector :=
  match op with
  | Tick traffic_data now_update now_establish cks =>
      snd (analyze_traffic traffic_data now_update now_establish cks st)
  | Sensitivity level =>
      let '(p, c, i) := sensitivity_multipliers level in configure p c i st
  end.

Definition run_ops (ops : list Op) (st : AnomalyDetector) : AnomalyDetector :=
  fold_left (fun st op => run_op op st) ops st.

(** The standard deviations of a baseline are not negative. *)
Definition baseline_wf (st : AnomalyDetector) : Prop :=
  match baseline st with
  | Some b => 0 <= packet_rate_std b /\ 0 <= connection_count_std b
              /\ 0 <= port_count_std b
  | None => True
  end.

(** The anomalies for which one tick appended an alert. *)
Definition emitted (traffic_data : list TrafficData)
    (now_update now_establish : Q) (cks : nat -> Clock)
    (st : AnomalyDetector) : list Anomaly :=
  map alert_details
    (drop (length (alerts st))
       (alerts (snd (analyze_traffic traffic_data now_update now_establish cks st)))).

(** [current] lies outside the band [mean ± threshold × std]. *)
Definition outside_band (current mean std threshold : R) : Prop :=
  current < mean - threshold * std \/ mean + threshold * std < current.

(** The z-score of [current] exceeds [threshold], for a standard deviation
    that is strictly positive. *)
Definition exceeds (current : nat) (mean std threshold : R) : Prop :=
  0 < std /\ threshold < Rabs (INR current - mean) / std.

(** Some anomaly of [out] is of the given type. *)
Definition has_type (type : string) (out : list Anomaly) : Prop :=
  exists a, a ∈ out /\ anomaly_type a = type.

(** The anomalies at the head of a list up to the first per-source one:
    those for which the alert loop gets to append an alert. *)
Fixpoint global_prefix (anomalies : list Anomaly) : list Anomaly :=
  match anomalies with
  | (GlobalAnomaly _ _ _ _ _ _ as a) :: rest => a :: global_prefix rest
  | _ => []
  end.

(** The three series of the detector have the same length. *)
Definition series_aligned (st : AnomalyDetector) : Prop :=
  length (connection_counts st) = length (packet_rates st) /\
  length (port_distributions st) = length (packet_rates st).

(** The bounds and agreements of the sample series: at most 100 samples
    per series, the connection series equal to the packet-rate series, the
    port series as long as both, and at most 100 samples per source. *)
Definition series_bounded (st : AnomalyDetector) : Prop :=
  (length (packet_rates st) <= 100)%nat /\
  connection_counts st = packet_rates st /\
  length (port_distributions st) = length (packet_rates st) /\
  Forall (fun kc => (1 <= length (snd kc) <= 100)%nat) (ip_frequencies st).

(** The total of a dictionary of counts. *)
Definition sum_counts (d : list (string * nat)) : nat :=
  fold_right (fun kc n => (snd kc + n)%nat) 0%nat d.

Definition is_global (a : Anomaly) : bool :=
  match a with GlobalAnomaly _ _ _ _ _ _ => true | SourceAnomaly _ _ _ _ _ => false end.

(** The results of the three global detectors, in the order in which
    [analyze_traffic] collects them. *)
Definition global_anomalies (st : AnomalyDetector) : list Anomaly :=
  option_list (detect_packet_rate_anomaly st) ++
  option_list (detect_connection_anomaly st) ++
  option_list (detect_port_anomaly st).

(** ** Sample inputs *)

(** A detector whose baseline has mean 1 and standard deviation 1/4 for
    each metric, at the default thresholds. *)
Definition sample_detector : AnomalyDetector :=
  {| baseline :=
       Some {| packet_rate_mean := 1; packet_rate_std := / 4;
               connection_count_mean := 1; connection_count_std := / 4;
               port_count_mean := 1; port_count_std := / 4 |};
     baseline_period := 3600;
     start_time := 0;
     alerts := [];
     packet_rates := [];
     connection_counts := [];
     port_distributions := [];
     ip_frequencies := [];
     thresholds := {| packet_rate_std_multiplier := 3;
                      connection_count_std_multiplier := 2.5;
                      unusual_port_threshold := 0.05;
                      ip_frequency_std_multiplier := 2 |};
     current_metrics := zero_metrics |}.

(** Three packets to port 80 at time 4000. *)
Definition sample_traffic : list TrafficData :=
  let entry := {| td_timestamp := Some 4000%Q; td_dest_port := Some 80%N;
                  td_source_ip := Some "10.0.0.9" |} in
  [entry; entry; entry].

(** A detector with a baseline in which 10.0.0.9 has nine samples of one
    packet each. *)
Definition quiet_source_detector : AnomalyDetector :=
  {| baseline := baseline sample_detector;
     baseline_period := 3600;
     start_time := 0;
     alerts := [];
     packet_rates := [];
     connection_counts := [];
     port_distributions := [];
     ip_frequencies := [("10.0.0.9"%string, [1; 1; 1; 1; 1; 1; 1; 1; 1]%nat)];
     thresholds := thresholds sample_detector;
     current_metrics := zero_metrics |}.

(** Eleven packets of 10.0.0.9 to port 80 at time 4000. *)
Definition burst_traffic : list TrafficData :=
  repeat {| td_timestamp := Some 4000%Q; td_dest_port := Some 80%N;
            td_source_ip := Some "10.0.0.9"%string |} 11.

End Detector.

(** * Properties *)

(** Closes a decidable goal about concrete data by evaluation. *)
Ltac by_compute := apply (bool_decide_unpack _); vm_compute; exact I.

Lemma Qltb_lt x y : Qltb x y = true <-> (x < y)%Q.
Proof. unfold Qltb, Qlt. apply Z.ltb_lt. Qed.

Lemma Qltb_ge x y : Qltb x y = false <-> (y <= x)%Q.
Proof. unfold Qltb, Qle. apply Z.ltb_ge. Qed.

Section Decoder.
Import Monitor.

(** C5, as stated, fails: a header with version nibble 6 and IHL 0 is
    decoded, not rejected. *)
Lemma parse_ip_header_accepts_not_ipv4 :
  N.shiftr (u8 not_ipv4 0) 4 = 6%N /\ N.land (u8 not_ipv4 0) 15 = 0%N /\
  parse_ip_header not_ipv4 =
    Some {| version := 6; header_length := 0; ttl := 64; protocol := 6;
            source_ip := "10.0.0.9"; destination_ip := "10.0.0.1" |}.
Proof. repeat split; vm_compute; reflexivity. Qed.

(** C5, amended: decoding is total; it returns the failure indicator
    exactly when the input has fewer than 20 bytes, and otherwise a record
    built from the first 20 bytes, whose version and header length are the
    two nibbles of byte 0 whatever their values. *)
Theorem parse_ip_header_total (packet : list byte) :
  parse_ip_header packet =
    if (length packet <? 20)%nat then None
    else Some {| version := N.shiftr (u8 packet 0) 4;
                 header_length := N.land (u8 packet 0) 15 * 4;
                 ttl := u8 packet 8;
                 protocol := u8 packet 9;
                 source_ip := inet_ntoa packet 12;
                 destination_ip := inet_ntoa packet 16 |}.
Proof.
  unfold parse_ip_header. rewrite length_take.
  destruct (Nat.ltb_spec (length packet) 20) as [Hlt | Hge];
    destruct (Nat.eqb_spec (20 `min` length packet) 20) as [He | He];
    try lia; try reflexivity.
  assert (Hu : forall i, (i < 20)%nat -> u8 (take 20 packet) i = u8 packet i).
  { intros i Hi. unfold u8. f_equal.
    rewrite <- (take_drop 20 packet) at 2.
    rewrite app_nth1; [reflexivity | rewrite length_take; lia]. }
  unfold inet_ntoa. cbn [Nat.add].
  rewrite !Hu by lia. reflexivity.
Qed.

End Decoder.

Section RuleDetectors.
Import Monitor.

Implicit Types (st : NetworkMonitor) (ck : Clock).

Lemma detect_port_scan_whitelisted source_ip dest_port ck st :
  source_ip ∈ whitelisted_ips st ->
  detect_port_scan source_ip dest_port ck st = (false, st).
Proof. intros Hw. unfold detect_port_scan. by rewrite decide_True. Qed.

Lemma detect_ddos_whitelisted source_ip ck st :
  source_ip ∈ whitelisted_ips st -> detect_ddos source_ip ck st = (false, st).
Proof. intros Hw. unfold detect_ddos. by rewrite decide_True. Qed.

(** What one call of the port-scan detector does for a source that is not
    allowlisted. *)
Lemma detect_port_scan_spec source_ip dest_port ck st :
  source_ip ∉ whitelisted_ips st ->
  let r := detect_port_scan source_ip dest_port ck st in
  let ports := ports_after source_ip dest_port st in
  port_scan_tracker (snd r) = <[source_ip := ports]> (port_scan_tracker st) /\
  whitelisted_ips (snd r) = whitelisted_ips st /\
  config (snd r) = config st /\
  fst r = (port_scan_threshold (config st) <? Z.of_nat (size ports)) /\
  alerts (snd r) =
    alerts st ++
      (if fst r then
         [{| alert_id := "ps_" +:+ pretty (int_of_time (time_time ck));
             alert_type := "high";
             alert_title := "Port Scan Detected";
             alert_description :=
               "IP " +:+ source_ip +:+ " has accessed " +:+
               pretty (size ports) +:+ " different ports";
             alert_timestamp := now_alert ck;
             alert_source_ip := source_ip;
             alert_destination_ip := "multiple";
             alert_status := "active" |}]
       else []).
Proof.
  intros Hw. unfold detect_port_scan, ports_after.
  rewrite decide_False by done. cbn -[pretty String.append].
  destruct (port_scan_threshold (config st) <? _) eqn:Hthr; cbn -[pretty String.append].
  - destruct (auto_block (config st) && _); cbn -[pretty String.append]; done.
  - by rewrite app_nil_r.
Qed.

(** Once the port set of a source is above the threshold, every further
    call of the detector for that source fires, whatever the port. *)
Lemma detect_port_scans_above source_ip calls st :
  source_ip ∉ whitelisted_ips st ->
  port_scan_threshold (config st)
    < Z.of_nat (size (tracker_get ∅ (port_scan_tracker st) source_ip)) ->
  Forall (fun fired => fired = true) (fst (detect_port_scans source_ip calls st)).
Proof.
  revert st. induction calls as [| [dest_port ck] calls IH]; intros st Hw Habove.
  - constructor.
  - cbn [detect_port_scans fst snd].
    pose proof (detect_port_scan_spec source_ip dest_port ck st Hw) as Hspec.
    cbv zeta in Hspec. destruct Hspec as (Htr & Hwl & Hcfg & Hfired & _).
    assert (Hsub : (size (tracker_get ∅ (port_scan_tracker st) source_ip)
                    <= size (ports_after source_ip dest_port st))%nat).
    { apply subseteq_size, union_subseteq_l. }
    constructor.
    + rewrite Hfired. apply Z.ltb_lt. lia.
    + apply IH.
      * by rewrite Hwl.
      * rewrite Hcfg, Htr. unfold tracker_get at 1.
        rewrite lookup_insert_eq. unfold from_option, Datatypes.id. lia.
Qed.

(** C1: for a source that is not allowlisted, the port-scan detector
    inserts the destination port into the source's port set and emits a
    high-severity port-scan alert if and only if the size of the set then
    exceeds [port_scan_threshold]; when it has fired, it fires again on every
    subsequent call for that source. *)
Theorem port_scan_fires_iff_above_threshold source_ip dest_port ck st :
  source_ip ∉ whitelisted_ips st ->
  let r := detect_port_scan source_ip dest_port ck st in
  let ports := tracker_get ∅ (port_scan_tracker st) source_ip ∪ {[dest_port]} in
  port_scan_tracker (snd r) !! source_ip = Some ports /\
  (fst r = true <-> port_scan_threshold (config st) < Z.of_nat (size ports)) /\
  (fst r = true ->
     exists alert,
       alerts (snd r) = alerts st ++ [alert] /\
       alert_type alert = "high" /\
       alert_title alert = "Port Scan Detected" /\
       alert_source_ip alert = source_ip) /\
  (fst r = false -> alerts (snd r) = alerts st) /\
  (fst r = true ->
     forall calls,
       Forall (fun fired => fired = true)
         (fst (detect_port_scans source_ip calls (snd r)))).
Proof.
  intros Hw r ports.
  pose proof (detect_port_scan_spec source_ip dest_port ck st Hw) as Hspec.
  cbv zeta in Hspec. destruct Hspec as (Htr & Hwl & Hcfg & Hfired & Hal).
  fold r in Htr, Hwl, Hcfg, Hfired, Hal.
  unfold ports_after in *. fold ports in Htr, Hfired, Hal.
  split; [by rewrite Htr, lookup_insert_eq |].
  split; [rewrite Hfired; apply Z.ltb_lt |].
  split; [| split].
  - intros Ht. rewrite Ht in Hal. eexists. split; [exact Hal | done].
  - intros Hf. rewrite Hf in Hal. by rewrite app_nil_r in Hal.
  - intros Ht calls. apply detect_port_scans_above.
    + by rewrite Hwl.
    + rewrite Hcfg, Htr. unfold tracker_get. rewrite lookup_insert_eq.
      unfold from_option, Datatypes.id. apply Z.ltb_lt. by rewrite <- Hfired.
Qed.

Lemma port_scan_fires_iff_above_threshold_witness :
  ("10.0.0.9" ∉ whitelisted_ips sensitive) /\
  fst (detect_port_scan "10.0.0.9" 25 (clock_at 5) sensitive) = true.
Proof.
  assert (Hw : "10.0.0.9" ∉ whitelisted_ips sensitive) by by_compute.
  split; [exact Hw |].
  pose proof (port_scan_fires_iff_above_threshold "10.0.0.9" 25 (clock_at 5)
                sensitive Hw) as H.
  cbv zeta in H. destruct H as (_ & H & _). apply H.
  vm_compute. reflexivity.
Defined.

#[local] Existing Instance Qlt_decision.

Lemma filter_Qltb (bound now : Q) (times : list Q) :
  List.filter (fun t => Qltb (now - t) bound) times
  = filter (fun t => (now - t < bound)%Q) times.
Proof.
  induction times as [| t times IH]; [reflexivity |].
  cbn [List.filter]. rewrite filter_cons, IH.
  destruct (Qltb (now - t) bound) eqn:Hlt.
  - apply Qltb_lt in Hlt. by rewrite decide_True.
  - apply Qltb_ge in Hlt. rewrite decide_False; [done |].
    by apply Qle_not_lt.
Qed.

(** What one call of the flood detector does for a source that is not
    allowlisted. *)
Lemma detect_ddos_spec source_ip ck st :
  source_ip ∉ whitelisted_ips st ->
  let r := detect_ddos source_ip ck st in
  let times := tracker_get [] (connection_tracker st) source_ip in
  let recent := length (recent_packets (time_time ck) times) in
  connection_tracker (snd r) = <[source_ip := times]> (connection_tracker st) /\
  whitelisted_ips (snd r) = whitelisted_ips st /\
  config (snd r) = config st /\
  fst r = (ddos_threshold (config st) <? Z.of_nat recent) /\
  alerts (snd r) =
    alerts st ++
      (if fst r then
         [{| alert_id := "ddos_" +:+ pretty (int_of_time (time_time ck));
             alert_type := "high";
             alert_title := "DDoS Attack Detected";
             alert_description :=
               "IP " +:+ source_ip +:+ " sent " +:+
               pretty recent +:+ " packets in 1 second";
             alert_timestamp := now_alert ck;
             alert_source_ip := source_ip;
             alert_destination_ip := "multiple";
             alert_status := "active" |}]
       else []).
Proof.
  intros Hw. unfold detect_ddos.
  rewrite decide_False by done. cbn -[pretty String.append].
  destruct (ddos_threshold (config st) <? _) eqn:Hthr; cbn -[pretty String.append].
  - destruct (auto_block (config st) && _); cbn -[pretty String.append]; done.
  - by rewrite app_nil_r.
Qed.

(** C2: for a source that is not allowlisted, with [recent] the number of
    the source's recorded arrival times [t] such that [now - t < 1], the
    flood detector emits a high-severity alert if and only if [recent]
    exceeds [ddos_threshold], and the alert carries that count. *)
Theorem flood_fires_iff_above_threshold source_ip ck st :
  source_ip ∉ whitelisted_ips st ->
  let r := detect_ddos source_ip ck st in
  let now := time_time ck in
  let recent :=
    length (filter (fun t => (now - t < 1)%Q)
              (tracker_get [] (connection_tracker st) source_ip)) in
  (fst r = true <-> ddos_threshold (config st) < Z.of_nat recent) /\
  (fst r = true ->
     exists alert,
       alerts (snd r) = alerts st ++ [alert] /\
       alert_type alert = "high" /\
       alert_title alert = "DDoS Attack Detected" /\
       alert_source_ip alert = source_ip /\
       alert_description alert =
         "IP " +:+ source_ip +:+ " sent " +:+ pretty recent
         +:+ " packets in 1 second") /\
  (fst r = false -> alerts (snd r) = alerts st).
Proof.
  intros Hw r now recent.
  pose proof (detect_ddos_spec source_ip ck st Hw) as Hspec.
  cbv zeta in Hspec. destruct Hspec as (_ & _ & _ & Hfired & Hal).
  unfold recent_packets in Hfired, Hal. rewrite filter_Qltb in Hfired, Hal.
  fold r in Hfired, Hal. fold now in Hfired, Hal. fold recent in Hfired, Hal.
  split; [rewrite Hfired; apply Z.ltb_lt |].
  split.
  - intros Ht. rewrite Ht in Hal. eexists. split; [exact Hal | done].
  - intros Hf. rewrite Hf in Hal. by rewrite app_nil_r in Hal.
Qed.

Lemma flood_fires_iff_above_threshold_witness :
  let st := track_time "10.0.0.9" 5 sensitive in
  ("10.0.0.9" ∉ whitelisted_ips st) /\
  fst (detect_ddos "10.0.0.9" (clock_at 5) st) = true.
Proof.
  cbv zeta.
  assert (Hw : "10.0.0.9" ∉ whitelisted_ips (track_time "10.0.0.9" 5 sensitive))
    by by_compute.
  split; [exact Hw |].
  pose proof (flood_fires_iff_above_threshold "10.0.0.9" (clock_at 5)
                (track_time "10.0.0.9" 5 sensitive) Hw) as H.
  cbv zeta in H. destruct H as (H & _). apply H.
  vm_compute. reflexivity.
Defined.

End RuleDetectors.

Section Frame.
Import Monitor.

Implicit Types (st : NetworkMonitor) (ck : Clock).

(** What the port-scan detector leaves alone, and how far it can change the
    blocklist and the investigation data. *)
Lemma detect_port_scan_frame source_ip dest_port ck st :
  let r := detect_port_scan source_ip dest_port ck st in
  connection_tracker (snd r) = connection_tracker st /\
  traffic_history (snd r) = traffic_history st /\
  packet_count (snd r) = packet_count st /\
  whitelisted_ips (snd r) = whitelisted_ips st /\
  config (snd r) = config st /\
  (blocked_ips (snd r) = blocked_ips st \/
   blocked_ips (snd r) = blocked_ips st ∪ {[source_ip]}
   /\ source_ip ∉ whitelisted_ips st) /\
  (forall ip, ip ≠ source_ip ->
     ip_investigation_data (snd r) !! ip = ip_investigation_data st !! ip) /\
  (is_Some (ip_investigation_data (snd r) !! source_ip)
   <-> is_Some (ip_investigation_data st !! source_ip) \/ fst r = true).
Proof.
  unfold detect_port_scan. case_decide as Hw.
  { cbn. repeat split; auto. - intros [? | ?]; done. }
  cbn -[pretty String.append].
  destruct (port_scan_threshold (config st) <? _); cbn -[pretty String.append].
  - destruct (auto_block (config st)); cbn -[pretty String.append];
      [rewrite bool_decide_eq_true_2 by done; cbn -[pretty String.append] |];
      (repeat split; auto;
       [ intros ip Hne; by rewrite lookup_insert_ne
       | rewrite lookup_insert_eq; eauto ]).
  - repeat split; auto. intros [? | ?]; done.
Qed.

(** The same for the flood detector. The connection tracker keeps its
    contents: the detector only creates an empty entry for a source that has
    none. *)
Lemma detect_ddos_frame source_ip ck st :
  let r := detect_ddos source_ip ck st in
  (forall s, tracker_get [] (connection_tracker (snd r)) s
             = tracker_get [] (connection_tracker st) s) /\
  (forall s, is_Some (connection_tracker st !! s) \/ s ≠ source_ip ->
             connection_tracker (snd r) !! s = connection_tracker st !! s) /\
  port_scan_tracker (snd r) = port_scan_tracker st /\
  traffic_history (snd r) = traffic_history st /\
  packet_count (snd r) = packet_count st /\
  whitelisted_ips (snd r) = whitelisted_ips st /\
  config (snd r) = config st /\
  (blocked_ips (snd r) = blocked_ips st \/
   blocked_ips (snd r) = blocked_ips st ∪ {[source_ip]}
   /\ source_ip ∉ whitelisted_ips st) /\
  (forall ip, ip ≠ source_ip ->
     ip_investigation_data (snd r) !! ip = ip_investigation_data st !! ip) /\
  (is_Some (ip_investigation_data (snd r) !! source_ip)
   <-> is_Some (ip_investigation_data st !! source_ip) \/ fst r = true).
Proof.
  assert (Hget : forall s,
    tracker_get [] (<[source_ip := tracker_get [] (connection_tracker st) source_ip]>
                      (connection_tracker st)) s
    = tracker_get [] (connection_tracker st) s).
  { intros s. unfold tracker_get. destruct (decide (source_ip = s)) as [-> | Hne].
    - by rewrite lookup_insert_eq.
    - by rewrite lookup_insert_ne. }
  assert (Hkeep : forall s, is_Some (connection_tracker st !! s) \/ s ≠ source_ip ->
    <[source_ip := tracker_get [] (connection_tracker st) source_ip]>
       (connection_tracker st) !! s = connection_tracker st !! s).
  { intros s Hs. unfold tracker_get.
    destruct (decide (source_ip = s)) as [-> | Hne].
    - destruct Hs as [[l Hl] | Hs]; [| done]. by rewrite lookup_insert_eq, Hl.
    - by rewrite lookup_insert_ne. }
  unfold detect_ddos. case_decide as Hw.
  { cbn. repeat split; auto. intros [? | ?]; done. }
  cbn -[pretty String.append].
  destruct (ddos_threshold (config st) <? _); cbn -[pretty String.append].
  - destruct (auto_block (config st)); cbn -[pretty String.append];
      [rewrite bool_decide_eq_true_2 by done; cbn -[pretty String.append] |];
      (repeat split; auto;
       [ intros ip Hne; by rewrite lookup_insert_ne
       | rewrite lookup_insert_eq; eauto ]).
  - repeat split; auto. intros [? | ?]; done.
Qed.

End Frame.

Section Pipeline.
Import Monitor.

Implicit Types (st : NetworkMonitor) (ck : Clock).

Lemma note_port_frame src dest_port st :
  let st' := note_port src dest_port st in
  connection_tracker st' = connection_tracker st /\
  port_scan_tracker st' = port_scan_tracker st /\
  traffic_history st' = traffic_history st /\
  packet_count st' = packet_count st /\
  whitelisted_ips st' = whitelisted_ips st /\
  blocked_ips st' = blocked_ips st /\
  alerts st' = alerts st /\
  config st' = config st /\
  (forall ip, is_Some (ip_investigation_data st' !! ip)
              <-> is_Some (ip_investigation_data st !! ip)).
Proof.
  unfold note_port. destruct (ip_investigation_data st !! src) as [d |] eqn:Hd.
  - case_decide; cbn; repeat split; auto.
    all: destruct (decide (ip = src)) as [-> | Hne];
      rewrite ?lookup_insert_eq, ?lookup_insert_ne by done; try done.
    all: rewrite Hd; eauto.
  - cbn. repeat split; auto.
Qed.

(** The effect of the rule detectors on a source that is not allowlisted. *)
Lemma run_detectors_effect src dest_port ck_ps ck_dd entry st :
  src ∉ whitelisted_ips st ->
  let st' := run_detectors src dest_port ck_ps ck_dd entry st in
  whitelisted_ips st' = whitelisted_ips st /\
  config st' = config st /\
  packet_count st' = packet_count st /\
  (forall ip, ip ∈ blocked_ips st' -> ip ∈ blocked_ips st \/ ip = src) /\
  (forall ip, ip ∈ blocked_ips st -> ip ∈ blocked_ips st') /\
  (forall s, is_Some (connection_tracker st !! s) \/ s ≠ src ->
             connection_tracker st' !! s = connection_tracker st !! s) /\
  (exists new, alerts st' = alerts st ++ new) /\
  (forall ip, is_Some (ip_investigation_data st' !! ip)
     <-> is_Some (ip_investigation_data st !! ip)
         \/ ip = src /\ (length (alerts st) < length (alerts st'))%nat).
Proof.
  intros Hw. unfold run_detectors.
  set (r2 := detect_port_scan src dest_port ck_ps st).
  pose proof (detect_port_scan_frame src dest_port ck_ps st) as F2.
  pose proof (detect_port_scan_spec src dest_port ck_ps st Hw) as S2.
  cbv zeta in F2, S2. fold r2 in F2, S2.
  destruct F2 as (Hct2 & Hth2 & Hpc2 & Hwl2 & Hcfg2 & Hbl2 & Hinv2 & Hsrc2).
  destruct S2 as (_ & _ & _ & _ & Hal2).
  assert (Hw2 : src ∉ whitelisted_ips (snd r2)) by by rewrite Hwl2.
  set (r3 := detect_ddos src ck_dd (snd r2)).
  pose proof (detect_ddos_frame src ck_dd (snd r2)) as F3.
  pose proof (detect_ddos_spec src ck_dd (snd r2) Hw2) as S3.
  cbv zeta in F3, S3. fold r3 in F3, S3.
  destruct F3 as (_ & Hct3 & _ & Hth3 & Hpc3 & Hwl3 & Hcfg3 & Hbl3 & Hinv3 & Hsrc3).
  destruct S3 as (_ & _ & _ & _ & Hal3).
  match goal with |- context [note_port src dest_port ?s] =>
    pose proof (note_port_frame src dest_port s) as F4 end.
  cbv zeta in F4. cbn [connection_tracker port_scan_tracker traffic_history
    packet_count whitelisted_ips blocked_ips alerts config
    ip_investigation_data set_traffic_history] in F4.
  destruct F4 as (Hct4 & _ & _ & Hpc4 & Hwl4 & Hbl4 & Hal4 & Hcfg4 & Hinv4).
  cbv zeta. rewrite Hwl4, Hcfg4, Hpc4, Hbl4, Hct4, Hal4.
  assert (Hlen : (length (alerts st) < length (alerts (snd r3)))%nat
                 <-> fst r2 = true \/ fst r3 = true).
  { rewrite Hal3, Hal2, !length_app.
    destruct (fst r2), (fst r3); cbn [length]; split; intros; auto; try lia. }
  repeat split.
  - congruence.
  - congruence.
  - congruence.
  - intros ip Hip.
    destruct Hbl3 as [Hb3 | [Hb3 _]], Hbl2 as [Hb2 | [Hb2 _]];
      rewrite Hb3, ?Hb2 in Hip; clear -Hip;
      rewrite ?elem_of_union, ?elem_of_singleton in Hip; tauto.
  - intros ip Hip.
    destruct Hbl3 as [Hb3 | [Hb3 _]], Hbl2 as [Hb2 | [Hb2 _]];
      rewrite Hb3, ?Hb2; clear -Hip;
      rewrite ?elem_of_union, ?elem_of_singleton; tauto.
  - intros s Hs. rewrite Hct3 by (by rewrite Hct2). by rewrite Hct2.
  - rewrite Hal3, Hal2, <- app_assoc. eauto.
  - rewrite Hinv4. destruct (decide (ip = src)) as [-> | Hne].
    + rewrite Hsrc3, Hsrc2, Hlen. tauto.
    + rewrite Hinv3, Hinv2 by done. tauto.
  - rewrite Hinv4. intros [Hold | [-> Hnew]].
    + destruct (decide (ip = src)) as [-> | Hne].
      * rewrite Hsrc3, Hsrc2. tauto.
      * by rewrite Hinv3, Hinv2.
    + rewrite Hsrc3, Hsrc2. apply Hlen in Hnew. tauto.
Qed.

(** The branches of [analyze_packet]. *)
Lemma analyze_packet_unfold packet current_time ck_ps ck_dd st :
  analyze_packet packet current_time ck_ps ck_dd st =
  match parse_ip_header packet with
  | None => set_packet_count (packet_count st + 1) st
  | Some ip_info =>
      let src := source_ip ip_info in
      if decide (src ∈ blocked_ips st) then
        set_packet_count (packet_count st + 1) st
      else if decide (src ∈ whitelisted_ips st) then
        set_connection_tracker
          (<[src := tracker_get [] (connection_tracker st) src ++ [current_time]]>
             (connection_tracker st))
          (set_packet_count (packet_count st + 1) st)
      else if (protocol ip_info =? 6)%N then
        match parse_tcp_header packet (header_length ip_info) with
        | None => track_time src current_time st
        | Some tcp_info =>
            run_detectors src (destination_port tcp_info) ck_ps ck_dd
              {| te_timestamp := current_time;
                 te_source_ip := src;
                 te_dest_ip := destination_ip ip_info;
                 te_dest_port := destination_port tcp_info;
                 te_protocol := "TCP";
                 te_flags := flags tcp_info |}
              (track_time src current_time st)
        end
      else track_time src current_time st
  end.
Proof.
  unfold analyze_packet.
  destruct (parse_ip_header packet) as [ip_info |]; [| reflexivity].
  cbv zeta.
  change (blocked_ips (set_packet_count (packet_count st + 1) st))
    with (blocked_ips st).
  change (whitelisted_ips (set_packet_count (packet_count st + 1) st))
    with (whitelisted_ips st).
  destruct (decide (source_ip ip_info ∈ blocked_ips st)); [reflexivity |].
  destruct (decide (source_ip ip_info ∈ whitelisted_ips st)); [reflexivity |].
  unfold run_detectors, track_time. cbv zeta.
  destruct (protocol ip_info =? 6)%N; [| reflexivity].
  destruct (parse_tcp_header packet (header_length ip_info)); reflexivity.
Qed.

#[local] Existing Instance Qlt_decision.

Lemma track_time_effect src current_time st :
  let st' := track_time src current_time st in
  connection_tracker st' =
    <[src := filter (fun t => (current_time - t < 60)%Q)
               (tracker_get [] (connection_tracker st) src ++ [current_time])]>
      (connection_tracker st) /\
  packet_count st' = (packet_count st + 1)%nat /\
  suspicious_packets st' = suspicious_packets st /\
  port_scan_tracker st' = port_scan_tracker st /\
  traffic_history st' = traffic_history st /\
  blocked_ips st' = blocked_ips st /\
  whitelisted_ips st' = whitelisted_ips st /\
  alerts st' = alerts st /\
  ip_investigation_data st' = ip_investigation_data st /\
  config st' = config st.
Proof.
  unfold track_time. cbn. repeat split.
  unfold tracker_get at 1. rewrite lookup_insert_eq, insert_insert_eq.
  unfold from_option, Datatypes.id. by rewrite filter_Qltb.
Qed.

End Pipeline.

Section Allowlist.
Import Monitor.

Implicit Types (st : NetworkMonitor) (ck : Clock).

(** C6, as stated, fails: with 10.0.0.9 allowlisted, a TCP packet from it
    to port 25 is not appended to the traffic log, and its port is recorded
    neither in the port tracker nor in the investigation data. *)
Lemma allowlisted_packet_not_logged :
  let st := snd (whitelist_ip "10.0.0.9" "2026-01-01T00:00:00" init) in
  let st' := analyze_packet tcp_from_9 5 (clock_at 5) (clock_at 5) st in
  source_ip <$> parse_ip_header tcp_from_9 = Some "10.0.0.9" /\
  "10.0.0.9" ∈ whitelisted_ips st /\
  traffic_history st' = [] /\
  port_scan_tracker st' !! "10.0.0.9" = None /\
  ip_investigation_data st' !! "10.0.0.9" = None.
Proof.
  cbv zeta. split; [vm_compute; reflexivity |].
  split; [by_compute |].
  repeat split; vm_compute; reflexivity.
Qed.

(** C6, amended: for a packet whose source is allowlisted, neither rule
    detector emits a detection and the source is not blocked; the packet is
    counted and, unless the source is also on the blocklist, its arrival
    time is appended to the source's connection tracker; the traffic log,
    the port tracker and the investigation data stay as they were. *)
Theorem allowlisted_packet_counted_not_logged
    packet current_time ck_ps ck_dd st ip_info :
  parse_ip_header packet = Some ip_info ->
  source_ip ip_info ∈ whitelisted_ips st ->
  let src := source_ip ip_info in
  let st' := analyze_packet packet current_time ck_ps ck_dd st in
  (forall dest_port, detect_port_scan src dest_port ck_ps st = (false, st)) /\
  detect_ddos src ck_dd st = (false, st) /\
  alerts st' = alerts st /\
  suspicious_packets st' = suspicious_packets st /\
  blocked_ips st' = blocked_ips st /\
  packet_count st' = (packet_count st + 1)%nat /\
  connection_tracker st' =
    (if decide (src ∈ blocked_ips st) then connection_tracker st
     else <[src := tracker_get [] (connection_tracker st) src ++ [current_time]]>
            (connection_tracker st)) /\
  traffic_history st' = traffic_history st /\
  port_scan_tracker st' = port_scan_tracker st /\
  ip_investigation_data st' = ip_investigation_data st.
Proof.
  intros Hip Hw src st'. subst st'.
  rewrite analyze_packet_unfold, Hip. cbv zeta. fold src.
  split; [intros; by apply detect_port_scan_whitelisted |].
  split; [by apply detect_ddos_whitelisted |].
  destruct (decide (src ∈ blocked_ips st)); [by cbn |].
  rewrite decide_True by done. by cbn.
Qed.

Lemma allowlisted_packet_counted_not_logged_witness :
  let st := snd (whitelist_ip "10.0.0.9" "2026-01-01T00:00:00" init) in
  let st' := analyze_packet tcp_from_9 5 (clock_at 5) (clock_at 5) st in
  alerts st' = alerts st /\ packet_count st' = (packet_count st + 1)%nat
  /\ traffic_history st' = traffic_history st.
Proof.
  cbv zeta.
  pose proof (allowlisted_packet_counted_not_logged tcp_from_9 5
                (clock_at 5) (clock_at 5)
                (snd (whitelist_ip "10.0.0.9" "2026-01-01T00:00:00" init))
                {| version := 4; header_length := 20; ttl := 64; protocol := 6;
                   source_ip := "10.0.0.9"; destination_ip := "10.0.0.1" |}
                ltac:(vm_compute; reflexivity)
                ltac:(by_compute)) as H.
  cbv zeta in H. destruct H as (_ & _ & Ha & _ & _ & Hc & _ & Ht & _).
  auto.
Defined.

End Allowlist.

Section Eviction.
Import Monitor.

Implicit Types (st : NetworkMonitor) (ck : Clock).

#[local] Existing Instance Qlt_decision.

(** C7, as stated, fails: 10.0.0.9 sends a packet at time 0 and 10.0.0.7
    one at time 100; after that step the arrival time 0 is still recorded
    for 10.0.0.9, although it is 100 seconds old. *)
Lemma idle_source_keeps_old_times :
  let st1 := analyze_packet tcp_from_9 0 (clock_at 0) (clock_at 0) init in
  let st2 := analyze_packet tcp_from_7 100 (clock_at 100) (clock_at 100) st1 in
  connection_tracker st2 !! "10.0.0.9" = Some [0%Q] /\ ~ (100 - 0 < 60)%Q.
Proof.
  cbv zeta. split; [vm_compute; reflexivity |].
  intros H. vm_compute in H. discriminate.
Qed.

(** C7, amended: when [analyze_packet] processes a packet of a source that
    is neither blocked nor allowlisted, at clock reading [now], the arrival
    times it leaves for that source are the earlier ones and [now], without
    those [t] for which [now - t < 60] fails; the arrival times of every
    other source are untouched by the step. *)
Theorem analyze_packet_evicts_old_times
    packet current_time ck_ps ck_dd st ip_info :
  parse_ip_header packet = Some ip_info ->
  source_ip ip_info ∉ blocked_ips st ->
  source_ip ip_info ∉ whitelisted_ips st ->
  let src := source_ip ip_info in
  let st' := analyze_packet packet current_time ck_ps ck_dd st in
  let times := filter (fun t => (current_time - t < 60)%Q)
                 (tracker_get [] (connection_tracker st) src ++ [current_time]) in
  connection_tracker st' !! src = Some times /\
  Forall (fun t => (current_time - t < 60)%Q) times /\
  (forall s, s ≠ src -> connection_tracker st' !! s = connection_tracker st !! s).
Proof.
  intros Hip Hb Hw src st' times. subst st'.
  rewrite analyze_packet_unfold, Hip. cbv zeta. fold src.
  rewrite !decide_False by done.
  pose proof (track_time_effect src current_time st) as T. cbv zeta in T.
  destruct T as (Hct & _ & _ & _ & _ & _ & Hwl & _).
  fold times in Hct.
  assert (Hafter : forall st1,
            (forall s, is_Some (connection_tracker (track_time src current_time st) !! s)
                       \/ s ≠ src ->
                       connection_tracker st1 !! s
                       = connection_tracker (track_time src current_time st) !! s) ->
            connection_tracker st1 !! src = Some times /\
            Forall (fun t => (current_time - t < 60)%Q) times /\
            (forall s, s ≠ src ->
               connection_tracker st1 !! s = connection_tracker st !! s)).
  { intros st1 Hkeep. split; [| split].
    - rewrite Hkeep; rewrite Hct, lookup_insert_eq; eauto.
    - apply Forall_forall. intros t Ht. subst times.
      by apply list_elem_of_filter in Ht as [Ht _].
    - intros s Hne. rewrite Hkeep by auto. by rewrite Hct, lookup_insert_ne. }
  destruct (protocol ip_info =? 6)%N; [| by apply Hafter].
  destruct (parse_tcp_header packet (header_length ip_info)) as [tcp_info |];
    [| by apply Hafter].
  apply Hafter. intros s Hs.
  match goal with |- context [run_detectors src ?p ck_ps ck_dd ?e ?s0] =>
    pose proof (run_detectors_effect src p ck_ps ck_dd e s0) as E end.
  cbv zeta in E. rewrite Hwl in E.
  destruct (E Hw) as (_ & _ & _ & _ & _ & Hkeep & _). by apply Hkeep.
Qed.

Lemma analyze_packet_evicts_old_times_witness :
  let st1 := analyze_packet tcp_from_9 0 (clock_at 0) (clock_at 0) init in
  let st2 := analyze_packet tcp_from_9 100 (clock_at 100) (clock_at 100) st1 in
  connection_tracker st2 !! "10.0.0.9" = Some [100%Q].
Proof.
  cbv zeta.
  pose proof (analyze_packet_evicts_old_times tcp_from_9 100
                (clock_at 100) (clock_at 100)
                (analyze_packet tcp_from_9 0 (clock_at 0) (clock_at 0) init)
                {| version := 4; header_length := 20; ttl := 64; protocol := 6;
                   source_ip := "10.0.0.9"; destination_ip := "10.0.0.1" |}
                ltac:(vm_compute; reflexivity)
                ltac:(by_compute)
                ltac:(by_compute)) as H.
  cbv zeta in H. destruct H as (H & _). cbn [source_ip] in H.
  rewrite H. vm_compute. reflexivity.
Defined.

End Eviction.

Section Dossier.
Import Monitor.

Implicit Types (st : NetworkMonitor) (ck : Clock).

Lemma keeps_record_refl ip st : keeps_record ip st st.
Proof. intros d Hd. eauto. Qed.

Lemma keeps_record_trans ip st1 st2 st3 :
  keeps_record ip st1 st2 -> keeps_record ip st2 st3 -> keeps_record ip st1 st3.
Proof.
  intros H12 H23 d Hd.
  destruct (H12 d Hd) as (d2 & Hd2 & Hs2 & Hl2).
  destruct (H23 d2 Hd2) as (d3 & Hd3 & Hs3 & Hl3).
  exists d3. split; [done |]. split; congruence.
Qed.

(** Storing [f d] for the record [d] of an address, where [f] leaves
    [status] and [last_seen] alone, keeps every record. *)
Lemma keeps_record_insert ip key st st' (f : Investigation -> Investigation)
    (dflt : Investigation) :
  (forall d, status (f d) = status d /\ last_seen (f d) = last_seen d) ->
  ip_investigation_data st' =
    <[key := f (match ip_investigation_data st !! key with
                | Some d => d | None => dflt end)]> (ip_investigation_data st) ->
  keeps_record ip st st'.
Proof.
  intros Hf Hst' d Hd. rewrite Hst'.
  destruct (decide (key = ip)) as [-> | Hne].
  - rewrite lookup_insert_eq, Hd. eexists. split; [done |]. apply Hf.
  - rewrite lookup_insert_ne by done. eauto.
Qed.

Lemma keeps_record_same ip st st' :
  ip_investigation_data st' = ip_investigation_data st -> keeps_record ip st st'.
Proof. intros Heq d Hd. rewrite Heq. eauto. Qed.

Lemma detect_port_scan_keeps ip source_ip dest_port ck st :
  keeps_record ip st (snd (detect_port_scan source_ip dest_port ck st)).
Proof.
  unfold detect_port_scan. case_decide; [apply keeps_record_refl |].
  cbn -[pretty String.append].
  destruct (port_scan_threshold (config st) <? _);
    [| by apply keeps_record_same].
  eapply (keeps_record_insert ip source_ip st _ (fun d => set_activities _ d));
    [done |].
  destruct (auto_block (config st) && _); cbn -[pretty String.append]; reflexivity.
Qed.

Lemma detect_ddos_keeps ip source_ip ck st :
  keeps_record ip st (snd (detect_ddos source_ip ck st)).
Proof.
  unfold detect_ddos. case_decide; [apply keeps_record_refl |].
  cbn -[pretty String.append].
  destruct (ddos_threshold (config st) <? _);
    [| by apply keeps_record_same].
  eapply (keeps_record_insert ip source_ip st _ (fun d => set_activities _ d));
    [done |].
  destruct (auto_block (config st) && _); cbn -[pretty String.append]; reflexivity.
Qed.

Lemma note_port_keeps ip src dest_port st :
  keeps_record ip st (note_port src dest_port st).
Proof.
  unfold note_port. destruct (ip_investigation_data st !! src) as [d |] eqn:Hd;
    [| apply keeps_record_refl].
  case_decide; [apply keeps_record_refl |].
  eapply (keeps_record_insert ip src st _
            (fun d => set_ports_accessed (ports_accessed d ++ [dest_port]) d) d);
    [done |].
  cbn. by rewrite Hd.
Qed.

Lemma run_detectors_keeps ip src dest_port ck_ps ck_dd entry st :
  keeps_record ip st (run_detectors src dest_port ck_ps ck_dd entry st).
Proof.
  unfold run_detectors.
  set (st2 := snd (detect_port_scan src dest_port ck_ps st)).
  set (st3 := snd (detect_ddos src ck_dd st2)).
  apply (keeps_record_trans ip st st2); [apply detect_port_scan_keeps |].
  apply (keeps_record_trans ip st2 st3); [apply detect_ddos_keeps |].
  apply (keeps_record_trans ip st3
           (set_traffic_history (deque_append 1000 (traffic_history st3) entry) st3));
    [| apply note_port_keeps].
  apply keeps_record_same. reflexivity.
Qed.

Lemma analyze_packet_keeps ip packet current_time ck_ps ck_dd st :
  keeps_record ip st (analyze_packet packet current_time ck_ps ck_dd st).
Proof.
  rewrite analyze_packet_unfold.
  destruct (parse_ip_header packet) as [ip_info |];
    [| apply keeps_record_same; reflexivity].
  cbv zeta. case_decide; [apply keeps_record_same; reflexivity |].
  case_decide; [apply keeps_record_same; reflexivity |].
  assert (Ht : keeps_record ip st (track_time (source_ip ip_info) current_time st)).
  { apply keeps_record_same. reflexivity. }
  destruct (protocol ip_info =? 6)%N; [| exact Ht].
  destruct (parse_tcp_header packet (header_length ip_info)); [| exact Ht].
  eapply keeps_record_trans; [exact Ht | apply run_detectors_keeps].
Qed.

Lemma block_ip_keeps ip ip' now st : keeps_record ip st (snd (block_ip ip' now st)).
Proof.
  unfold block_ip. case_decide; [apply keeps_record_refl |].
  case_decide; [| apply keeps_record_refl].
  cbn [snd ip_investigation_data set_blocked_ips].
  destruct (ip_investigation_data st !! ip') as [d |] eqn:Hd;
    [| apply keeps_record_same; reflexivity].
  apply (keeps_record_insert ip ip' st _
           (fun d => set_activities
                       (activities (set_classification "malicious" d) ++
                          [{| act_timestamp := now;
                              act_action := "IP Blocked";
                              act_details := "Manually blocked by administrator";
                              act_severity := "info" |}])
                       (set_classification "malicious" d)) d); [done |].
  rewrite Hd. reflexivity.
Qed.

Lemma whitelist_ip_keeps ip ip' now st :
  keeps_record ip st (snd (whitelist_ip ip' now st)).
Proof.
  unfold whitelist_ip.
  set (st0 := if decide (ip' ∈ blocked_ips st)
              then set_blocked_ips (blocked_ips st ∖ {[ip']}) st else st).
  assert (H0 : ip_investigation_data st0 = ip_investigation_data st)
    by (subst st0; by case_decide).
  apply (keeps_record_trans ip st st0); [by apply keeps_record_same |].
  cbv zeta. case_decide; [| apply keeps_record_refl].
  cbn [snd ip_investigation_data set_whitelisted_ips].
  destruct (ip_investigation_data st0 !! ip') as [d |] eqn:Hd;
    [| apply keeps_record_same; reflexivity].
  apply (keeps_record_insert ip ip' st0 _
           (fun d => set_activities
                       (activities (set_classification "benign" d) ++
                          [{| act_timestamp := now;
                              act_action := "IP Whitelisted";
                              act_details := "Manually whitelisted by administrator";
                              act_severity := "info" |}])
                       (set_classification "benign" d)) d); [done |].
  rewrite Hd. reflexivity.
Qed.

Lemma update_ip_notes_keeps ip ip' text now st :
  keeps_record ip st (snd (update_ip_notes ip' text now st)).
Proof.
  unfold update_ip_notes.
  by eapply (keeps_record_insert ip ip' st _ (fun d => set_notes text d)).
Qed.

(** Every call other than a query of [ip] keeps the record of [ip] with its
    [status] and [last_seen]. *)
Lemma run_op_keeps ip op st :
  not_query ip op -> keeps_record ip st (run_op op st).
Proof.
  destruct op as [? ? ? ? | ? ? | ? ? | ? | ? | ip' now | ? ? ? | ?];
    cbn [run_op not_query]; intros Hq.
  - apply analyze_packet_keeps.
  - apply block_ip_keeps.
  - apply whitelist_ip_keeps.
  - apply keeps_record_same. reflexivity.
  - apply keeps_record_same. reflexivity.
  - unfold get_ip_investigation_data.
    destruct (ip_investigation_data st !! ip') as [d |] eqn:Hd;
      [| apply keeps_record_refl].
    intros d' Hd'. cbn [snd ip_investigation_data set_ip_investigation_data].
    rewrite lookup_insert_ne by done. eauto.
  - apply update_ip_notes_keeps.
  - apply keeps_record_same. reflexivity.
Qed.

Lemma run_ops_keeps ip ops st :
  Forall (not_query ip) ops -> keeps_record ip st (run_ops ops st).
Proof.
  revert st. induction ops as [| op ops IH]; intros st Hq.
  - apply keeps_record_refl.
  - inversion Hq; subst. cbn [run_ops fold_left].
    eapply keeps_record_trans; [by apply run_op_keeps |]. by apply IH.
Qed.

(** No call deletes an investigation record. *)
Lemma run_op_record_stays ip op st :
  is_Some (ip_investigation_data st !! ip) ->
  is_Some (ip_investigation_data (run_op op st) !! ip).
Proof.
  intros [d Hd].
  destruct op as [? ? ? ? | ? ? | ? ? | ? | ? | ip' now | ? ? ? | ?];
    try (match goal with |- context [run_op ?op st] =>
           destruct (run_op_keeps ip op st I d Hd) as (d' & Hd' & _) end;
         exists d'; exact Hd').
  destruct (decide (ip' = ip)) as [-> | Hne].
  - cbn [run_op]. unfold get_ip_investigation_data. rewrite Hd.
    cbn [snd ip_investigation_data set_ip_investigation_data].
    rewrite lookup_insert_eq. eauto.
  - destruct (run_op_keeps ip (GetInvestigation ip' now) st Hne d Hd)
      as (d' & Hd' & _). exists d'. exact Hd'.
Qed.

(** C9, as stated, fails: after the first packet of 10.0.0.9, which fires
    no rule, the source is in the connection tracker but has no
    investigation record, and a query for it answers [None]. *)
Lemma observed_source_has_no_dossier :
  let st' := analyze_packet tcp_from_9 5 (clock_at 5) (clock_at 5) init in
  connection_tracker st' !! "10.0.0.9" = Some [5%Q] /\
  ip_investigation_data st' !! "10.0.0.9" = None /\
  fst (get_ip_investigation_data "10.0.0.9" "2026-01-01T00:00:01" st') = None.
Proof. cbv zeta. repeat split; vm_compute; reflexivity. Qed.

(** C9, amended: packet analysis creates an investigation record only for
    the source of a packet on which a rule detection fires: after a packet,
    an address has a record exactly when it had one before, or it is the
    source of the packet and the packet added an alert. [update_ip_notes]
    creates the record of its address. Once created, a record is never
    deleted, whatever calls follow. *)
Theorem dossier_created_on_detection_only :
  (forall packet current_time ck_ps ck_dd st ip,
     let st' := analyze_packet packet current_time ck_ps ck_dd st in
     is_Some (ip_investigation_data st' !! ip)
     <-> is_Some (ip_investigation_data st !! ip)
         \/ source_ip <$> parse_ip_header packet = Some ip
            /\ (length (alerts st) < length (alerts st'))%nat) /\
  (forall ip text now st,
     is_Some (ip_investigation_data (snd (update_ip_notes ip text now st)) !! ip)) /\
  (forall ops st ip,
     is_Some (ip_investigation_data st !! ip) ->
     is_Some (ip_investigation_data (run_ops ops st) !! ip)).
Proof.
  split; [| split].
  - intros packet current_time ck_ps ck_dd st ip st'. subst st'.
    rewrite analyze_packet_unfold.
    destruct (parse_ip_header packet) as [ip_info |]; cbn [fmap option_fmap option_map].
    2: { cbn. split; [auto | intros [? | [? ?]]; [done | lia]]. }
    cbv zeta.
    assert (Hsame : forall st1,
              ip_investigation_data st1 = ip_investigation_data st ->
              alerts st1 = alerts st ->
              is_Some (ip_investigation_data st1 !! ip)
              <-> is_Some (ip_investigation_data st !! ip)
                  \/ Some (source_ip ip_info) = Some ip
                     /\ (length (alerts st) < length (alerts st1))%nat).
    { intros st1 -> ->. split; [auto | intros [? | [? ?]]; [done | lia]]. }
    case_decide; [by apply Hsame |].
    case_decide as Hw; [by apply Hsame |].
    pose proof (track_time_effect (source_ip ip_info) current_time st) as T.
    cbv zeta in T. destruct T as (_ & _ & _ & _ & _ & _ & Hwl & Hal & Hinv & _).
    destruct (protocol ip_info =? 6)%N; [| by apply Hsame].
    destruct (parse_tcp_header packet (header_length ip_info)) as [tcp_info |];
      [| by apply Hsame].
    match goal with |- context [run_detectors ?src ?p ck_ps ck_dd ?e ?s0] =>
      pose proof (run_detectors_effect src p ck_ps ck_dd e s0) as E end.
    cbv zeta in E. rewrite Hwl in E.
    destruct (E Hw) as (_ & _ & _ & _ & _ & _ & _ & Hiff).
    rewrite Hiff, Hinv, Hal.
    split; (intros [? | [? ?]]; [by left | right; split; [congruence | done]]).
  - intros ip text now st. unfold update_ip_notes. cbn.
    rewrite lookup_insert_eq. eauto.
  - intros ops. induction ops as [| op ops IH]; intros st ip Hs; [done |].
    cbn [run_ops fold_left]. apply IH. by apply run_op_record_stays.
Qed.

(** C10: a query of the investigation data of an address that has a record
    is not a pure read: it writes into the stored record. The [status] of
    the record becomes "blocked" when the address is on the blocklist,
    otherwise "whitelisted" when it is on the allowlist, otherwise
    "monitoring"; its [last_seen] becomes the time of the query; nothing
    else of the state changes; the record returned is the stored one; and
    the two fields keep these values in the store through every later call,
    until the address is queried again. *)
Theorem investigation_query_writes_back ip now st data :
  ip_investigation_data st !! ip = Some data ->
  let r := get_ip_investigation_data ip now st in
  let derived : string :=
    if decide (ip ∈ blocked_ips st) then "blocked"
    else if decide (ip ∈ whitelisted_ips st) then "whitelisted"
    else "monitoring" in
  let data' :=
    {| first_seen := first_seen data; activities := activities data;
       ports_accessed := ports_accessed data;
       classification := classification data; notes := notes data;
       status := Some derived; last_seen := Some now |} in
  fst r = Some data' /\
  snd r = set_ip_investigation_data
            (<[ip := data']> (ip_investigation_data st)) st /\
  ip_investigation_data (snd r) = <[ip := data']> (ip_investigation_data st) /\
  ip_investigation_data (snd r) !! ip = Some data' /\
  (forall ops,
     Forall (not_query ip) ops ->
     exists d,
       ip_investigation_data (run_ops ops (snd r)) !! ip = Some d /\
       status d = Some derived /\ last_seen d = Some now).
Proof.
  intros Hdata r derived data'. subst r. unfold get_ip_investigation_data.
  rewrite Hdata. cbn [fst snd].
  assert (Hderived : current_status ip st = derived) by reflexivity.
  assert (Hdata' : set_last_seen (Some now)
                     (set_status (Some (current_status ip st)) data) = data')
    by (rewrite Hderived; reflexivity).
  rewrite Hdata'. cbn [ip_investigation_data set_ip_investigation_data].
  split; [done |]. split; [done |]. split; [done |].
  split; [by rewrite lookup_insert_eq |].
  intros ops Hq.
  match goal with |- context [run_ops ops ?s] =>
    destruct (run_ops_keeps ip ops s Hq data') as (d & Hd & Hs & Hl) end.
  { cbn [ip_investigation_data set_ip_investigation_data].
    by rewrite lookup_insert_eq. }
  exists d. by rewrite Hd, Hs, Hl.
Qed.

Lemma investigation_query_writes_back_witness :
  let st := snd (whitelist_ip "10.0.0.9" "2026-01-01T00:01:00"
                   (snd (update_ip_notes "10.0.0.9" "seen twice"
                           "2026-01-01T00:00:00" init))) in
  let r := get_ip_investigation_data "10.0.0.9" "2026-01-01T00:05:00" st in
  last_seen <$> ip_investigation_data st !! "10.0.0.9" = Some None /\
  status <$> ip_investigation_data st !! "10.0.0.9" = Some None /\
  last_seen <$> ip_investigation_data (snd r) !! "10.0.0.9"
    = Some (Some "2026-01-01T00:05:00") /\
  status <$> ip_investigation_data (snd r) !! "10.0.0.9"
    = Some (Some "whitelisted").
Proof.
  cbv zeta. split; [vm_compute; reflexivity |].
  split; [vm_compute; reflexivity |].
  pose proof (investigation_query_writes_back "10.0.0.9" "2026-01-01T00:05:00"
                (snd (whitelist_ip "10.0.0.9" "2026-01-01T00:01:00"
                        (snd (update_ip_notes "10.0.0.9" "seen twice"
                                "2026-01-01T00:00:00" init))))
                _ ltac:(vm_compute; reflexivity)) as H.
  cbv zeta in H. destruct H as (_ & _ & _ & H & _). rewrite H.
  split; vm_compute; reflexivity.
Defined.

End Dossier.

Section AccessLists.
Import Monitor.

Implicit Types (st : NetworkMonitor) (ck : Clock).

(** Packet analysis never touches the allowlist, and adds to the blocklist
    at most the source of the packet, which is then not allowlisted. *)
Lemma analyze_packet_access packet current_time ck_ps ck_dd st :
  let st' := analyze_packet packet current_time ck_ps ck_dd st in
  whitelisted_ips st' = whitelisted_ips st /\
  (forall ip, ip ∈ blocked_ips st' ->
              ip ∈ blocked_ips st \/ ip ∉ whitelisted_ips st).
Proof.
  cbv zeta. rewrite analyze_packet_unfold.
  destruct (parse_ip_header packet) as [ip_info |]; [| by cbn; auto].
  cbv zeta. case_decide; [by cbn; auto |].
  case_decide as Hw; [by cbn; auto |].
  pose proof (track_time_effect (source_ip ip_info) current_time st) as T.
  cbv zeta in T. destruct T as (_ & _ & _ & _ & _ & Hbl & Hwl & _).
  assert (Ht : whitelisted_ips (track_time (source_ip ip_info) current_time st)
               = whitelisted_ips st /\
               (forall ip,
                  ip ∈ blocked_ips (track_time (source_ip ip_info) current_time st) ->
                  ip ∈ blocked_ips st \/ ip ∉ whitelisted_ips st)).
  { split; [done |]. intros ip. rewrite Hbl. auto. }
  destruct (protocol ip_info =? 6)%N; [| done].
  destruct (parse_tcp_header packet (header_length ip_info)) as [tcp_info |];
    [| done].
  match goal with |- context [run_detectors ?src ?p ck_ps ck_dd ?e ?s0] =>
    pose proof (run_detectors_effect src p ck_ps ck_dd e s0) as E end.
  cbv zeta in E. rewrite Hwl in E.
  destruct (E Hw) as (Hwl' & _ & _ & Hbl' & _).
  split; [done |]. intros ip Hip.
  destruct (Hbl' ip Hip) as [Hold | ->]; [| by right].
  left. by rewrite <- Hbl.
Qed.

(** The access lists after [block_ip]. *)
Lemma block_ip_lists ip now st :
  whitelisted_ips (snd (block_ip ip now st)) = whitelisted_ips st /\
  blocked_ips (snd (block_ip ip now st)) =
    (if decide (ip ∈ whitelisted_ips st) then blocked_ips st
     else blocked_ips st ∪ {[ip]}).
Proof.
  unfold block_ip. destruct (decide (ip ∈ whitelisted_ips st)) as [Hw | Hw];
    [done |].
  destruct (decide (ip ∉ blocked_ips st)) as [Hb | Hb];
    cbn [snd blocked_ips whitelisted_ips set_blocked_ips ip_investigation_data].
  - by destruct (ip_investigation_data st !! ip).
  - split; [done |]. apply dec_stable in Hb. clear -Hb. set_solver.
Qed.

(** The access lists after [whitelist_ip]. *)
Lemma whitelist_ip_lists ip now st :
  blocked_ips (snd (whitelist_ip ip now st)) = blocked_ips st ∖ {[ip]} /\
  whitelisted_ips (snd (whitelist_ip ip now st)) = whitelisted_ips st ∪ {[ip]}.
Proof.
  unfold whitelist_ip.
  set (st0 := if decide (ip ∈ blocked_ips st)
              then set_blocked_ips (blocked_ips st ∖ {[ip]}) st else st).
  assert (Hb0 : blocked_ips st0 = blocked_ips st ∖ {[ip]}).
  { subst st0. case_decide as Hb; [done |]. clear -Hb. set_solver. }
  assert (Hw0 : whitelisted_ips st0 = whitelisted_ips st)
    by (subst st0; by case_decide).
  cbv zeta. destruct (decide (ip ∉ whitelisted_ips st0)) as [Hw | Hw];
    cbn [snd blocked_ips whitelisted_ips set_whitelisted_ips
         ip_investigation_data].
  - destruct (ip_investigation_data st0 !! ip);
      cbn [blocked_ips whitelisted_ips set_ip_investigation_data
           set_whitelisted_ips];
      by rewrite Hb0, Hw0.
  - rewrite Hb0, Hw0. split; [done |].
    apply dec_stable in Hw. rewrite Hw0 in Hw. clear -Hw. set_solver.
Qed.

(** Every call keeps the access lists disjoint. *)
Lemma run_op_exclusive op st : exclusive st -> exclusive (run_op op st).
Proof.
  unfold exclusive. intros Hex.
  destruct op as [packet current_time ck_ps ck_dd | ip now | ip now | ip | ip
                  | ip now | ip text now | cfg]; cbn [run_op].
  - pose proof (analyze_packet_access packet current_time ck_ps ck_dd st) as A.
    cbv zeta in A. destruct A as (Hwl & Hbl). rewrite Hwl.
    apply elem_of_disjoint. intros x Hb Hw.
    destruct (Hbl x Hb) as [Hb' | Hnw]; [| done].
    by apply (elem_of_disjoint (blocked_ips st) (whitelisted_ips st)) in Hb'.
  - destruct (block_ip_lists ip now st) as [-> ->].
    case_decide as Hw; [done |]. clear -Hex Hw. set_solver.
  - destruct (whitelist_ip_lists ip now st) as [-> ->]. clear -Hex. set_solver.
  - unfold remove_block. cbn [blocked_ips whitelisted_ips set_blocked_ips].
    clear -Hex. set_solver.
  - unfold remove_allow. cbn [blocked_ips whitelisted_ips set_whitelisted_ips].
    clear -Hex. set_solver.
  - unfold get_ip_investigation_data.
    by destruct (ip_investigation_data st !! ip).
  - exact Hex.
  - exact Hex.
Qed.

(** C8: no address is ever on both access lists: the lists are disjoint
    after every sequence of calls on a new monitor, and every single call
    (block, allow, remove, packet analysis with its automatic blocking)
    keeps them disjoint; [whitelist_ip] leaves its address off the blocklist
    and on the allowlist; [block_ip] on an allowlisted address fails and
    leaves the whole state unchanged. *)
Theorem access_lists_exclusive :
  (forall ops, exclusive (run_ops ops init)) /\
  (forall op st, exclusive st -> exclusive (run_op op st)) /\
  (forall ip now st,
     let st' := snd (whitelist_ip ip now st) in
     (ip ∉ blocked_ips st') /\ (ip ∈ whitelisted_ips st')) /\
  (forall ip now st,
     ip ∈ whitelisted_ips st -> block_ip ip now st = (false, st)).
Proof.
  split; [| split; [| split]].
  - assert (Hgen : forall ops st, exclusive st -> exclusive (run_ops ops st)).
    { induction ops as [| op ops IH]; intros st Hex; [done |].
      cbn [run_ops fold_left]. by apply IH, run_op_exclusive. }
    intros ops. apply Hgen. unfold exclusive, init.
    cbn [blocked_ips whitelisted_ips]. apply disjoint_empty_l.
  - apply run_op_exclusive.
  - intros ip now st. cbv zeta.
    destruct (whitelist_ip_lists ip now st) as [-> ->]. clear. set_solver.
  - intros ip now st Hw. unfold block_ip. by rewrite decide_True.
Qed.

End AccessLists.

Section Statistics.
Import Detector.
Local Open Scope R_scope.

Lemma sum_squares_nonneg {A} (f : A -> R) (xs : list A) :
  0 <= sum_R (map (fun x => f x * f x) xs).
Proof.
  unfold sum_R. induction xs as [| x xs IH]; cbn [map fold_right]; [lra |].
  pose proof (Rle_0_sqr (f x)) as Hsq. unfold Rsqr in Hsq. lra.
Qed.

(** [mean xs] is the sum of the samples divided by their number. *)
Lemma mean_spec (xs : list nat) :
  xs ≠ [] -> mean xs * INR (length xs) = sum_R (map INR xs).
Proof.
  intros Hne. unfold mean.
  assert (0 < INR (length xs)).
  { apply lt_0_INR. destruct xs; [done | cbn; lia]. }
  field. lra.
Qed.

(** [stdev_or_zero xs] is the non-negative number whose square is the sum
    of squared deviations from the mean divided by [n - 1]. *)
Lemma stdev_spec (xs : list nat) :
  (2 <= length xs)%nat ->
  0 <= stdev_or_zero xs /\
  stdev_or_zero xs * stdev_or_zero xs * (INR (length xs) - 1)
  = sum_R (map (fun x => (INR x - mean xs) * (INR x - mean xs)) xs).
Proof.
  intros Hlen. unfold stdev_or_zero.
  destruct (Nat.ltb_spec 1 (length xs)) as [_ | ?]; [| lia].
  assert (Hn : 0 < INR (length xs) - 1).
  { apply le_INR in Hlen. cbn in Hlen. lra. }
  assert (Hv : 0 <= variance xs).
  { unfold variance. apply Rmult_le_pos.
    - apply (sum_squares_nonneg (fun x => INR x - mean xs)).
    - left. by apply Rinv_0_lt_compat. }
  unfold stdev. split; [apply sqrt_pos |].
  rewrite sqrt_sqrt by done. unfold variance. field. lra.
Qed.

Lemma stdev_or_zero_nonneg (xs : list nat) : 0 <= stdev_or_zero xs.
Proof.
  unfold stdev_or_zero, stdev. destruct (1 <? length xs)%nat; [apply sqrt_pos | lra].
Qed.

End Statistics.

Section Baseline.
Import Detector.

Implicit Types (st : AnomalyDetector) (b : Baseline).

Lemma length_deque_append {A} (maxlen : nat) (l : list A) (x : A) :
  length (deque_append maxlen l x) = (S (length l) `min` maxlen)%nat.
Proof. unfold deque_append. rewrite length_drop, !length_app. cbn [length]. lia. Qed.

Lemma update_metrics_aligned now traffic_data st :
  series_aligned st -> series_aligned (update_metrics now traffic_data st).
Proof.
  intros [Hc Hp]. unfold series_aligned, update_metrics. cbn.
  rewrite !length_deque_append. lia.
Qed.

(** A tick on a detector without a baseline: nothing is reported, and the
    baseline is the one [establish_baseline] decides on, computed from the
    series that already hold the sample of this tick. *)
Lemma analyze_traffic_no_baseline traffic_data now_update now_establish cks st :
  baseline st = None ->
  analyze_traffic traffic_data now_update now_establish cks st =
    (Returned [],
     snd (establish_baseline now_establish
            (update_metrics now_update traffic_data st))).
Proof.
  intros Hb. unfold analyze_traffic, baseline_established. cbn. by rewrite Hb.
Qed.

(** A tick on a detector with a baseline changes the alerts only, after the
    update of the metrics. *)
Lemma analyze_traffic_with_baseline
    traffic_data now_update now_establish cks st b :
  baseline st = Some b ->
  let st1 := update_metrics now_update traffic_data st in
  exists alerts',
    snd (analyze_traffic traffic_data now_update now_establish cks st)
    = set_alerts alerts' st1 /\
    alerts' = snd (append_alerts (collect_anomalies st1) cks 0 (alerts st)).
Proof.
  intros Hb st1. unfold analyze_traffic, baseline_established. fold st1.
  assert (Hb1 : baseline st1 = Some b) by done. rewrite Hb1. cbn [negb].
  change (alerts st1) with (alerts st).
  destruct (append_alerts (collect_anomalies st1) cks 0 (alerts st))
    as [[e |] alerts']; cbn; eauto.
Qed.

Lemma run_op_baseline_frozen op st b :
  baseline st = Some b -> baseline (run_op op st) = Some b.
Proof.
  intros Hb. destruct op as [traffic_data now_update now_establish cks | level].
  - cbn [run_op].
    destruct (analyze_traffic_with_baseline traffic_data now_update
                now_establish cks st b Hb) as (alerts' & -> & _).
    exact Hb.
  - cbn [run_op]. by destruct (sensitivity_multipliers level) as [[p c] i].
Qed.

Lemma run_op_period_aligned op st :
  series_aligned st ->
  baseline_period (run_op op st) = baseline_period st /\
  series_aligned (run_op op st).
Proof.
  intros Hal. destruct op as [traffic_data now_update now_establish cks | level].
  - cbn [run_op].
    pose proof (update_metrics_aligned now_update traffic_data st Hal) as Hal1.
    destruct (baseline st) as [b |] eqn:Hb.
    + destruct (analyze_traffic_with_baseline traffic_data now_update
                  now_establish cks st b Hb) as (alerts' & -> & _).
      done.
    + rewrite analyze_traffic_no_baseline by done.
      unfold establish_baseline.
      destruct (Qltb _ _); [done |]. destruct (_ <? 50)%nat; done.
  - cbn [run_op]. by destruct (sensitivity_multipliers level) as [[p c] i].
Qed.

(** C3: on a tick without a baseline, the baseline becomes present exactly
    when the clock is at least [baseline_period] past [start_time] and the
    packet-rate series holds at least 50 samples, and it is then the mean
    and the sample standard deviation (denominator [n - 1]) of the three
    series at that instant; the period is 3600 and the three series have the
    same length in every run of a new detector; once present, the baseline
    is the same after every further sequence of ticks and sensitivity
    changes, so it is established at most once. *)
Theorem baseline_established_once :
  (forall traffic_data now_update now_establish cks st,
     baseline st = None ->
     let st1 := update_metrics now_update traffic_data st in
     let st' := snd (analyze_traffic traffic_data now_update now_establish cks st) in
     (is_Some (baseline st')
      <-> (baseline_period st <= now_establish - start_time st)%Q
          /\ (50 <= length (packet_rates st1))%nat) /\
     (is_Some (baseline st') -> baseline st' = Some (compute_baseline st1))) /\
  (forall st,
     let b := compute_baseline st in
     packet_rate_mean b = mean (packet_rates st) /\
     packet_rate_std b = stdev_or_zero (packet_rates st) /\
     connection_count_mean b = mean (connection_counts st) /\
     connection_count_std b = stdev_or_zero (connection_counts st) /\
     port_count_mean b = mean (port_distributions st) /\
     port_count_std b = stdev_or_zero (port_distributions st)) /\
  (forall xs : list nat,
     (2 <= length xs)%nat ->
     (mean xs * INR (length xs) = sum_R (map INR xs))%R /\
     (0 <= stdev_or_zero xs)%R /\
     (stdev_or_zero xs * stdev_or_zero xs * (INR (length xs) - 1)
      = sum_R (map (fun x => (INR x - mean xs) * (INR x - mean xs)) xs))%R) /\
  (forall ops now0,
     let st := run_ops ops (init now0) in
     baseline_period st = 3600%Q /\ series_aligned st) /\
  (forall ops st b,
     baseline st = Some b -> baseline (run_ops ops st) = Some b).
Proof.
  split; [| split; [| split; [| split]]].
  - intros traffic_data now_update now_establish cks st Hb st1 st'. subst st'.
    rewrite analyze_traffic_no_baseline by done. fold st1.
    unfold establish_baseline.
    change (start_time st1) with (start_time st).
    change (baseline_period st1) with (baseline_period st).
    destruct (Qltb (now_establish - start_time st) (baseline_period st)) eqn:Ht.
    + apply Qltb_lt in Ht. cbn [snd]. change (baseline st1) with (baseline st).
      rewrite Hb. split; [| by intros []].
      split; [by intros [] |]. intros [Hle _].
      by apply Qle_not_lt in Hle.
    + apply Qltb_ge in Ht.
      destruct (Nat.ltb_spec (length (packet_rates st1)) 50) as [Hn | Hn]; cbn [snd].
      * change (baseline st1) with (baseline st). rewrite Hb.
        split; [| by intros []]. split; [by intros [] | lia].
      * cbn. split; [| done]. split; eauto.
  - intros st. cbn. done.
  - intros xs Hlen. split; [| apply stdev_spec; lia].
    apply mean_spec. destruct xs; [cbn in Hlen; lia | done].
  - intros ops now0. cbv zeta.
    assert (Hgen : forall ops st, series_aligned st ->
              baseline_period (run_ops ops st) = baseline_period st
              /\ series_aligned (run_ops ops st)).
    { clear. induction ops as [| op ops IH]; intros st Hal; [done |].
      change (run_ops (op :: ops) st) with (run_ops ops (run_op op st)).
      destruct (run_op_period_aligned op st Hal) as [Hp Hal'].
      destruct (IH _ Hal') as [Hp' Hal'']. split; [congruence | done]. }
    apply (Hgen ops (init now0)). by split.
  - intros ops. induction ops as [| op ops IH]; intros st b Hb; [done |].
    cbn [run_ops fold_left]. by apply IH, run_op_baseline_frozen.
Qed.

End Baseline.

Section Detection.
Import Detector.
Local Open Scope R_scope.

Implicit Types (st : AnomalyDetector) (b : Baseline).

(** A z-score above the threshold puts the current value outside the band
    around the mean. *)
Lemma exceeds_outside_band current mean std threshold :
  exceeds current mean std threshold ->
  outside_band (INR current) mean std threshold.
Proof.
  intros [Hstd Hz]. unfold outside_band.
  assert (Hmul : threshold * std < Rabs (INR current - mean)).
  { apply (Rmult_lt_compat_r std) in Hz; [| done].
    unfold Rdiv in Hz. rewrite Rmult_assoc, Rinv_l in Hz by lra. lra. }
  unfold Rabs in Hmul. destruct (Rcase_abs (INR current - mean)); lra.
Qed.

(** The z-score test reports exactly when the standard deviation is not
    zero and the z-score is above the threshold. *)
Lemma z_test_spec type hi_factor hi lo current mean std threshold ports :
  0 <= std ->
  (exceeds current mean std threshold ->
   exists severity,
     z_test type hi_factor hi lo current mean std threshold ports
     = Some (GlobalAnomaly type severity current (mean - std, mean + std)
               (Rabs (INR current - mean) / std) ports)) /\
  (~ exceeds current mean std threshold ->
   z_test type hi_factor hi lo current mean std threshold ports = None).
Proof.
  intros Hstd. unfold z_test, exceeds.
  destruct (Req_dec_T std 0) as [H0 | H0].
  - split; [intros [? _]; lra | done].
  - destruct (Rlt_dec threshold (Rabs (INR current - mean) / std)) as [Hz | Hz].
    + split; [eauto | intros Hn; exfalso; apply Hn; split; [lra | done]].
    + split; [intros [_ ?]; done | done].
Qed.

(** With a zero standard deviation the test reports nothing. *)
Lemma z_test_zero_std type hi_factor hi lo current mean threshold ports :
  z_test type hi_factor hi lo current mean 0 threshold ports = None.
Proof. unfold z_test. destruct (Req_dec_T 0 0); [done | lra]. Qed.

Lemma z_test_type type hi_factor hi lo current mean std threshold ports a :
  z_test type hi_factor hi lo current mean std threshold ports = Some a ->
  anomaly_type a = type /\ global_prefix [a] = [a].
Proof.
  unfold z_test. destruct (Req_dec_T std 0); [done |].
  destruct (Rlt_dec _ _); [| done]. by intros [= <-].
Qed.

Lemma source_test_types st ip counts :
  Forall (fun a => anomaly_type a = "ip_frequency_anomaly"
                   /\ global_prefix [a] = [])
    (source_test st ip counts).
Proof.
  unfold source_test. destruct (_ <? 10)%nat; [constructor |].
  destruct (Req_dec_T _ 0); [constructor |].
  destruct (Rlt_dec _ _); repeat constructor.
Qed.

Lemma detect_ip_frequency_anomaly_types st :
  Forall (fun a => anomaly_type a = "ip_frequency_anomaly"
                   /\ global_prefix [a] = [])
    (default [] (detect_ip_frequency_anomaly st)).
Proof.
  unfold detect_ip_frequency_anomaly.
  assert (H : Forall (fun a => anomaly_type a = "ip_frequency_anomaly"
                               /\ global_prefix [a] = [])
                (flat_map (fun kc => source_test st (fst kc) (snd kc))
                   (ip_frequencies st))).
  { induction (ip_frequencies st) as [| kc l IH]; cbn; [constructor |].
    apply Forall_app. split; [apply source_test_types | done]. }
  destruct (flat_map _ _); [constructor | exact H].
Qed.

(** The alert loop appends one alert for each anomaly of the global
    prefix, in order, and nothing else. *)
Lemma append_alerts_spec anomalies cks i acc :
  exists new,
    snd (append_alerts anomalies cks i acc) = acc ++ new /\
    map alert_details new = global_prefix anomalies.
Proof.
  revert i acc. induction anomalies as [| a rest IH]; intros i acc.
  - exists []. by rewrite app_nil_r.
  - destruct a; cbn [append_alerts create_alert global_prefix].
    + destruct (IH (S i) (acc ++ [
        {| alert_id := "anomaly_" +:+ pretty (int_of_time (time_time (cks i)))
                       +:+ "_" +:+ type;
           alert_type := severity;
           alert_title := title_map type;
           alert_timestamp := now_alert (cks i);
           alert_source_ip := "multiple";
           alert_destination_ip := "multiple";
           alert_status := "active";
           alert_details :=
             GlobalAnomaly type severity current_value expected_range z_score
               unusual_ports |}])) as (new & Hnew & Hmap).
      eexists (_ :: new). rewrite Hnew, <- app_assoc. split; [done |].
      cbn [map alert_details]. by rewrite Hmap.
    + exists []. by rewrite app_nil_r.
Qed.

Lemma global_prefix_app_sources (out sources : list Anomaly) :
  global_prefix out = out ->
  Forall (fun a => anomaly_type a = "ip_frequency_anomaly"
                   /\ global_prefix [a] = []) sources ->
  global_prefix (out ++ sources) = out.
Proof.
  intros Hout Hsrc. induction out as [| a out IH].
  - destruct Hsrc as [| s sources [_ Hs] _]; [done |].
    cbn. by destruct s.
  - destruct a; cbn in Hout |- *; [| done].
    injection Hout as Hout. by rewrite IH.
Qed.

(** The anomalies for which a tick with a baseline appends alerts are those
    of the three global detectors, in their order, whatever the per-source
    detector finds. *)
Lemma emitted_globals traffic_data now_update now_establish cks st b :
  baseline st = Some b ->
  let st1 := update_metrics now_update traffic_data st in
  emitted traffic_data now_update now_establish cks st =
    option_list (detect_packet_rate_anomaly st1) ++
    option_list (detect_connection_anomaly st1) ++
    option_list (detect_port_anomaly st1).
Proof.
  intros Hb st1. unfold emitted.
  destruct (analyze_traffic_with_baseline traffic_data now_update
              now_establish cks st b Hb) as (alerts' & -> & ->).
  fold st1. cbn [alerts set_alerts].
  destruct (append_alerts_spec (collect_anomalies st1) cks 0 (alerts st))
    as (new & -> & Hmap).
  rewrite drop_app_length, Hmap. unfold collect_anomalies.
  rewrite !app_assoc. apply global_prefix_app_sources;
    [| apply detect_ip_frequency_anomaly_types].
  assert (Hb1 : baseline st1 = Some b) by done.
  unfold detect_packet_rate_anomaly, detect_connection_anomaly,
    detect_port_anomaly. rewrite Hb1.
  repeat match goal with
  | |- context [z_test ?t ?f ?h ?l ?c ?m ?s ?th ?p] =>
      let H := fresh "Hz" in
      destruct (z_test t f h l c m s th p) as [[] |] eqn:H;
      [ | apply z_test_type in H as [_ H]; discriminate H | ]
  end; reflexivity.
Qed.

Lemma z_test_is_Some type hi_factor hi lo current mean std threshold ports :
  0 <= std ->
  is_Some (z_test type hi_factor hi lo current mean std threshold ports)
  <-> exceeds current mean std threshold.
Proof.
  intros Hstd. unfold z_test, exceeds.
  destruct (Req_dec_T std 0) as [H0 | H0].
  - split; [by intros [] | intros [? _]; lra].
  - destruct (Rlt_dec threshold (Rabs (INR current - mean) / std)) as [Hz | Hz].
    + split; [intros _; split; [lra | done] | eauto].
    + split; [by intros [] | intros [_ ?]; done].
Qed.

(** Which types occur among the results of three detectors whose types are
    known. *)
Lemma has_type_option_lists (o1 o2 o3 : option Anomaly) (t1 t2 t3 t : string) :
  (forall a, o1 = Some a -> anomaly_type a = t1) ->
  (forall a, o2 = Some a -> anomaly_type a = t2) ->
  (forall a, o3 = Some a -> anomaly_type a = t3) ->
  has_type t (option_list o1 ++ option_list o2 ++ option_list o3)
  <-> is_Some o1 /\ t1 = t \/ is_Some o2 /\ t2 = t \/ is_Some o3 /\ t3 = t.
Proof.
  intros H1 H2 H3. unfold has_type. split.
  - intros (a & Ha & Ht).
    rewrite !elem_of_app in Ha.
    destruct Ha as [Ha | [Ha | Ha]].
    + destruct o1 as [a1 |]; cbn in Ha; [| by apply not_elem_of_nil in Ha].
      apply list_elem_of_singleton in Ha as ->.
      left. split; [eauto |]. by rewrite <- (H1 a1 eq_refl).
    + destruct o2 as [a2 |]; cbn in Ha; [| by apply not_elem_of_nil in Ha].
      apply list_elem_of_singleton in Ha as ->.
      right; left. split; [eauto |]. by rewrite <- (H2 a2 eq_refl).
    + destruct o3 as [a3 |]; cbn in Ha; [| by apply not_elem_of_nil in Ha].
      apply list_elem_of_singleton in Ha as ->.
      right; right. split; [eauto |]. by rewrite <- (H3 a3 eq_refl).
  - intros [[[a Ha] Ht] | [[[a Ha] Ht] | [[a Ha] Ht]]]; subst; exists a;
      (split; [| eauto]); rewrite !elem_of_app; cbn.
    + left. apply list_elem_of_singleton. reflexivity.
    + right; left. apply list_elem_of_singleton. reflexivity.
    + right; right. apply list_elem_of_singleton. reflexivity.
Qed.

(** C4: on a tick without a baseline no anomaly is reported and no alert
    is appended. On a tick with a baseline (whose standard deviations are
    not negative), for each of the three global metrics an anomaly of that
    metric gets an alert if and only if the baseline standard deviation of
    the metric is strictly positive and [|current - mean| / std] exceeds the
    metric's multiplier, the port count using the connection multiplier; in
    particular a zero standard deviation gives no detection; and whenever
    one is emitted, the current value lies outside [mean ± threshold × std]. *)
Theorem global_anomaly_rule traffic_data now_update now_establish cks st :
  baseline_wf st ->
  let st1 := update_metrics now_update traffic_data st in
  let cur := current_metrics st1 in
  let thr := thresholds st in
  let out := emitted traffic_data now_update now_establish cks st in
  match baseline st with
  | None =>
      out = [] /\
      fst (analyze_traffic traffic_data now_update now_establish cks st)
      = Returned []
  | Some b =>
      (has_type "packet_rate_anomaly" out
       <-> exceeds (packet_rate cur) (packet_rate_mean b) (packet_rate_std b)
             (packet_rate_std_multiplier thr)) /\
      (has_type "connection_anomaly" out
       <-> exceeds (connection_count cur) (connection_count_mean b)
             (connection_count_std b) (connection_count_std_multiplier thr)) /\
      (has_type "port_usage_anomaly" out
       <-> exceeds (size (unique_ports cur)) (port_count_mean b)
             (port_count_std b) (connection_count_std_multiplier thr)) /\
      (packet_rate_std b = 0 -> ~ has_type "packet_rate_anomaly" out) /\
      (connection_count_std b = 0 -> ~ has_type "connection_anomaly" out) /\
      (port_count_std b = 0 -> ~ has_type "port_usage_anomaly" out) /\
      (has_type "packet_rate_anomaly" out ->
       outside_band (INR (packet_rate cur)) (packet_rate_mean b)
         (packet_rate_std b) (packet_rate_std_multiplier thr)) /\
      (has_type "connection_anomaly" out ->
       outside_band (INR (connection_count cur)) (connection_count_mean b)
         (connection_count_std b) (connection_count_std_multiplier thr)) /\
      (has_type "port_usage_anomaly" out ->
       outside_band (INR (size (unique_ports cur))) (port_count_mean b)
         (port_count_std b) (connection_count_std_multiplier thr))
  end.
Proof.
  intros Hwf st1 cur thr out. unfold baseline_wf in Hwf.
  destruct (baseline st) as [b |] eqn:Hb.
  - destruct Hwf as (Hs1 & Hs2 & Hs3).
    assert (Hout : out =
              option_list (detect_packet_rate_anomaly st1) ++
              option_list (detect_connection_anomaly st1) ++
              option_list (detect_port_anomaly st1))
      by (by apply (emitted_globals _ _ _ _ _ b)).
    assert (Hb1 : baseline st1 = Some b) by done.
    unfold detect_packet_rate_anomaly, detect_connection_anomaly,
      detect_port_anomaly in Hout. rewrite Hb1 in Hout.
    change (thresholds st1) with thr in Hout.
    change (current_metrics st1) with cur in Hout.
    match type of Hout with
    | _ = option_list ?o1 ++ option_list ?o2 ++ option_list ?o3 =>
        pose proof (fun t => has_type_option_lists o1 o2 o3
                      "packet_rate_anomaly" "connection_anomaly"
                      "port_usage_anomaly" t
                      (fun a H => proj1 (z_test_type _ _ _ _ _ _ _ _ _ a H))
                      (fun a H => proj1 (z_test_type _ _ _ _ _ _ _ _ _ a H))
                      (fun a H => proj1 (z_test_type _ _ _ _ _ _ _ _ _ a H)))
          as Htypes
    end.
    rewrite <- Hout in Htypes. clear Hout.
    assert (H1 : has_type "packet_rate_anomaly" out
                 <-> exceeds (packet_rate cur) (packet_rate_mean b)
                       (packet_rate_std b) (packet_rate_std_multiplier thr)).
    { rewrite Htypes, <- (z_test_is_Some "packet_rate_anomaly" 1.5 "high"
                            "medium" _ _ _ _ None Hs1).
      split; [intros [[? _] | [[_ ?] | [_ ?]]]; [done | done | done] | auto]. }
    assert (H2 : has_type "connection_anomaly" out
                 <-> exceeds (connection_count cur) (connection_count_mean b)
                       (connection_count_std b)
                       (connection_count_std_multiplier thr)).
    { rewrite Htypes, <- (z_test_is_Some "connection_anomaly" 1.5 "high"
                            "medium" _ _ _ _ None Hs2).
      split; [intros [[_ ?] | [[? _] | [_ ?]]]; [done | done | done] | auto]. }
    assert (H3 : has_type "port_usage_anomaly" out
                 <-> exceeds (size (unique_ports cur)) (port_count_mean b)
                       (port_count_std b)
                       (connection_count_std_multiplier thr)).
    { rewrite Htypes, <- (z_test_is_Some "port_usage_anomaly" 1.2 "medium"
                            "low" _ _ _ _ (Some (elements (unique_ports cur)))
                            Hs3).
      split; [intros [[_ ?] | [[_ ?] | [? _]]]; [done | done | done] | auto]. }
    clear Htypes.
    split; [exact H1 |]. split; [exact H2 |]. split; [exact H3 |].
    split; [intros H0 Ht; apply H1 in Ht as [Hpos _]; lra |].
    split; [intros H0 Ht; apply H2 in Ht as [Hpos _]; lra |].
    split; [intros H0 Ht; apply H3 in Ht as [Hpos _]; lra |].
    split; [intros Ht; by apply exceeds_outside_band, H1 |].
    split; [intros Ht; by apply exceeds_outside_band, H2 |].
    intros Ht; by apply exceeds_outside_band, H3.
  - subst out. unfold emitted.
    rewrite analyze_traffic_no_baseline by done. cbn [fst snd].
    split; [| done].
    unfold establish_baseline.
    destruct (Qltb _ _); [| destruct (_ <? 50)%nat];
      cbn [snd alerts set_baseline update_metrics];
      by rewrite drop_all.
Qed.

Lemma global_anomaly_rule_witness :
  baseline_wf sample_detector /\
  has_type "packet_rate_anomaly"
    (emitted sample_traffic 4000 4000 (fun _ => Monitor.clock_at 4000)
       sample_detector).
Proof.
  assert (Hwf : baseline_wf sample_detector).
  { unfold baseline_wf, sample_detector. cbn [baseline packet_rate_std
      connection_count_std port_count_std]. lra. }
  split; [exact Hwf |].
  pose proof (global_anomaly_rule sample_traffic 4000 4000
                (fun _ => Monitor.clock_at 4000) sample_detector Hwf) as H.
  cbv zeta in H. change (baseline sample_detector) with
    (Some {| packet_rate_mean := 1; packet_rate_std := / 4;
             connection_count_mean := 1; connection_count_std := / 4;
             port_count_mean := 1; port_count_std := / 4 |}) in H.
  cbv beta iota in H. destruct H as (H & _). apply H.
  change (packet_rate (current_metrics
            (update_metrics 4000 sample_traffic sample_detector))) with 3%nat.
  unfold exceeds.
  cbn [packet_rate_mean packet_rate_std packet_rate_std_multiplier thresholds
       sample_detector].
  change (INR 3) with (1 + 1 + 1). unfold Rdiv. rewrite Rinv_inv.
  rewrite Rabs_right by lra. lra.
Defined.

End Detection.

(** * Further properties of the monitor *)

Section DecoderRange.
Import Monitor.

Lemma u8_bound (bs : list byte) (off : nat) : (u8 bs off < 256)%N.
Proof. unfold u8. pose proof (Byte.to_N_bounded (nth off bs x00)). lia. Qed.

Lemma u16_bound (bs : list byte) (off : nat) : (u16 bs off < 65536)%N.
Proof.
  unfold u16. pose proof (u8_bound bs off). pose proof (u8_bound bs (off + 1)).
  lia.
Qed.

Lemma u32_bound (bs : list byte) (off : nat) : (u32 bs off < 4294967296)%N.
Proof.
  unfold u32. pose proof (u16_bound bs off). pose proof (u16_bound bs (off + 2)).
  lia.
Qed.

Lemma high_nibble_bound (x : N) : (x < 256)%N -> (N.shiftr x 4 < 16)%N.
Proof.
  intros Hx. rewrite N.shiftr_div_pow2. change (2 ^ 4)%N with 16%N.
  apply N.Div0.div_lt_upper_bound. lia.
Qed.

Lemma low_nibble_bound (x : N) : (N.land x 15 < 16)%N.
Proof.
  change 15%N with (N.ones 4). rewrite N.land_ones. change (2 ^ 4)%N with 16%N.
  apply N.mod_lt. lia.
Qed.

(** Reading a byte of the TCP slice is reading the packet at the shifted
    offset. *)
Lemma u8_slice (packet : list byte) (n i : nat) :
  (i < 20)%nat -> (n + 20 <= length packet)%nat ->
  u8 (take 20 (drop n packet)) i = u8 packet (n + i).
Proof.
  intros Hi Hlen. unfold u8. f_equal.
  rewrite <- (take_drop n packet) at 2.
  rewrite app_nth2 by (rewrite length_take; lia).
  rewrite length_take. replace (n + i - n `min` length packet)%nat with i by lia.
  rewrite <- (take_drop 20 (drop n packet)) at 2.
  rewrite app_nth1; [reflexivity |].
  rewrite length_take, length_drop. lia.
Qed.

(** The IP decoder written out: a failure below 20 bytes, otherwise the
    fields of the first 20 bytes. *)
Lemma parse_ip_header_unfold (packet : list byte) :
  parse_ip_header packet =
    if (length packet <? 20)%nat then None
    else Some {| version := N.shiftr (u8 packet 0) 4;
                 header_length := N.land (u8 packet 0) 15 * 4;
                 ttl := u8 packet 8;
                 protocol := u8 packet 9;
                 source_ip := inet_ntoa packet 12;
                 destination_ip := inet_ntoa packet 16 |}.
Proof.
  unfold parse_ip_header. rewrite length_take.
  destruct (Nat.ltb_spec (length packet) 20) as [Hlt | Hge];
    destruct (Nat.eqb_spec (20 `min` length packet) 20) as [He | He];
    try lia; try reflexivity.
  assert (Hu : forall i, (i < 20)%nat -> u8 (take 20 packet) i = u8 packet i).
  { intros i Hi. exact (u8_slice packet 0 i Hi Hge). }
  unfold inet_ntoa. cbn [Nat.add]. rewrite !Hu by lia. reflexivity.
Qed.

(** The TCP decoder written out. *)
Lemma parse_tcp_header_unfold (packet : list byte) (ip_header_length : N) :
  let n := N.to_nat ip_header_length in
  parse_tcp_header packet ip_header_length =
    if (length packet <? n + 20)%nat then None
    else Some {| source_port := u8 packet (n + 0) * 256 + u8 packet (n + 1);
                 destination_port := u8 packet (n + 2) * 256 + u8 packet (n + 3);
                 sequence :=
                   (u8 packet (n + 4) * 256 + u8 packet (n + 5)) * 65536
                   + (u8 packet (n + 6) * 256 + u8 packet (n + 7));
                 acknowledgement :=
                   (u8 packet (n + 8) * 256 + u8 packet (n + 9)) * 65536
                   + (u8 packet (n + 10) * 256 + u8 packet (n + 11));
                 tcp_header_length := N.shiftr (u8 packet (n + 12)) 4 * 4;
                 flags := u8 packet (n + 13) |}%N.
Proof.
  intros n. unfold parse_tcp_header. fold n.
  rewrite length_take, length_drop.
  destruct (Nat.ltb_spec (length packet) (n + 20)) as [Hlt | Hge];
    destruct (Nat.eqb_spec (20 `min` (length packet - n)) 20) as [He | He];
    try lia; try reflexivity.
  unfold u32, u16. cbn [Nat.add].
  rewrite !u8_slice by lia. reflexivity.
Qed.

(** The TCP decoder is total: it fails exactly when fewer than 20 bytes
    follow the IP header, and otherwise reads the big-endian fields of the
    20 bytes at offset [ip_header_length]. *)
Theorem parse_tcp_header_total (packet : list byte) (ip_header_length : N) :
  let n := N.to_nat ip_header_length in
  parse_tcp_header packet ip_header_length =
    if (length packet <? n + 20)%nat then None
    else Some {| source_port := u8 packet (n + 0) * 256 + u8 packet (n + 1);
                 destination_port := u8 packet (n + 2) * 256 + u8 packet (n + 3);
                 sequence :=
                   (u8 packet (n + 4) * 256 + u8 packet (n + 5)) * 65536
                   + (u8 packet (n + 6) * 256 + u8 packet (n + 7));
                 acknowledgement :=
                   (u8 packet (n + 8) * 256 + u8 packet (n + 9)) * 65536
                   + (u8 packet (n + 10) * 256 + u8 packet (n + 11));
                 tcp_header_length := N.shiftr (u8 packet (n + 12)) 4 * 4;
                 flags := u8 packet (n + 13) |}%N.
Proof. apply parse_tcp_header_unfold. Qed.

(** Every decoded field is within the range of its wire width: the version
    is a nibble, the IP header length a multiple of 4 that is at most 60,
    TTL and protocol are bytes; ports are 16-bit, sequence numbers 32-bit,
    the TCP header length at most 60 and the flags a byte. *)
Theorem decoded_fields_in_range (packet : list byte) :
  match parse_ip_header packet with
  | Some ip =>
      (version ip < 16 /\ header_length ip <= 60
       /\ header_length ip mod 4 = 0 /\ ttl ip < 256 /\ protocol ip < 256)%N
      /\ match parse_tcp_header packet (header_length ip) with
         | Some tcp =>
             (source_port tcp < 65536 /\ destination_port tcp < 65536
              /\ sequence tcp < 4294967296 /\ acknowledgement tcp < 4294967296
              /\ tcp_header_length tcp <= 60 /\ flags tcp < 256)%N
         | None => (length packet < N.to_nat (header_length ip) + 20)%nat
         end
  | None => (length packet < 20)%nat
  end.
Proof.
  rewrite parse_ip_header_unfold.
  destruct (Nat.ltb_spec (length packet) 20) as [Hlt | Hge]; [exact Hlt |].
  cbn [version header_length ttl protocol].
  pose proof (u8_bound packet 0) as H0.
  pose proof (high_nibble_bound _ H0) as Hv.
  pose proof (low_nibble_bound (u8 packet 0)) as Hl.
  split.
  - repeat split; try apply u8_bound; try done; try lia.
    apply N.Div0.mod_mul.
  - rewrite parse_tcp_header_unfold. cbv zeta.
    destruct (Nat.ltb_spec (length packet)
                (N.to_nat (N.land (u8 packet 0) 15 * 4) + 20)) as [Hlt | Hge'];
      [exact Hlt |].
    cbn [source_port destination_port sequence acknowledgement
         tcp_header_length flags].
    match goal with |- context [N.to_nat ?x] => set (n := N.to_nat x) end.
    pose proof (u8_bound packet (n + 12)) as H12.
    pose proof (high_nibble_bound _ H12).
    repeat match goal with
    | |- context [u8 packet ?k] =>
        lazymatch goal with
        | H : (u8 packet k < 256)%N |- _ => fail
        | _ => pose proof (u8_bound packet k)
        end
    end.
    repeat split; lia.
Qed.

End DecoderRange.

Section Counters.
Import Monitor.

Implicit Types (st : NetworkMonitor) (ck : Clock).

(** What a rule detector does to the counters, the alerts, the port
    tracker and the traffic log, whether it fires or not. *)
Lemma detect_port_scan_counts source_ip dest_port ck st :
  let st' := snd (detect_port_scan source_ip dest_port ck st) in
  (exists new, alerts st' = alerts st ++ new /\ Forall fresh_alert new
               /\ suspicious_packets st' = (suspicious_packets st + length new)%nat) /\
  (forall s, tracker_get ∅ (port_scan_tracker st) s
             ⊆ tracker_get ∅ (port_scan_tracker st') s) /\
  (auto_block (config st) = false -> blocked_ips st' = blocked_ips st) /\
  (auto_block (config st) = true ->
   fst (detect_port_scan source_ip dest_port ck st) = true ->
   source_ip ∈ blocked_ips st').
Proof.
  unfold detect_port_scan. case_decide as Hw.
  { cbn [snd fst]. split; [exists []; by rewrite app_nil_r, Nat.add_0_r |].
    repeat split; done. }
  assert (Hsub : forall s,
            tracker_get ∅ (port_scan_tracker st) s
            ⊆ tracker_get ∅
                (<[source_ip := tracker_get ∅ (port_scan_tracker st) source_ip
                                ∪ {[dest_port]}]> (port_scan_tracker st)) s).
  { intros s. unfold tracker_get. destruct (decide (source_ip = s)) as [-> | Hne].
    - rewrite lookup_insert_eq. cbn. apply union_subseteq_l.
    - by rewrite lookup_insert_ne. }
  cbn -[pretty String.append].
  destruct (port_scan_threshold (config st) <? _); cbn -[pretty String.append].
  - destruct (auto_block (config st)); cbn -[pretty String.append];
      [rewrite bool_decide_eq_true_2 by done; cbn -[pretty String.append] |].
    + split; [eexists [_]; split; [reflexivity | split; [by repeat constructor | reflexivity]] |].
      split; [exact Hsub |]. split; [done |].
      intros _ _. apply elem_of_union_r, elem_of_singleton. reflexivity.
    + split; [eexists [_]; split; [reflexivity | split; [by repeat constructor | reflexivity]] |].
      split; [exact Hsub |]. split; done.
  - split; [exists []; by rewrite app_nil_r, Nat.add_0_r |].
    split; [exact Hsub |]. split; done.
Qed.

Lemma detect_ddos_counts source_ip ck st :
  let st' := snd (detect_ddos source_ip ck st) in
  (exists new, alerts st' = alerts st ++ new /\ Forall fresh_alert new
               /\ suspicious_packets st' = (suspicious_packets st + length new)%nat) /\
  (auto_block (config st) = false -> blocked_ips st' = blocked_ips st) /\
  (auto_block (config st) = true ->
   fst (detect_ddos source_ip ck st) = true -> source_ip ∈ blocked_ips st').
Proof.
  unfold detect_ddos. case_decide as Hw.
  { cbn [snd fst]. split; [exists []; by rewrite app_nil_r, Nat.add_0_r |].
    split; done. }
  cbn -[pretty String.append].
  destruct (ddos_threshold (config st) <? _); cbn -[pretty String.append].
  - destruct (auto_block (config st)); cbn -[pretty String.append];
      [rewrite bool_decide_eq_true_2 by done; cbn -[pretty String.append] |].
    + split; [eexists [_]; split; [reflexivity | split; [by repeat constructor | reflexivity]] |].
      split; [done |].
      intros _ _. apply elem_of_union_r, elem_of_singleton. reflexivity.
    + split; [eexists [_]; split; [reflexivity | split; [by repeat constructor | reflexivity]] |]. split; done.
  - split; [exists []; by rewrite app_nil_r, Nat.add_0_r |]. split; done.
Qed.

Lemma length_deque_append_le {A} (maxlen : nat) (l : list A) (x : A) :
  (length (deque_append maxlen l x) <= maxlen)%nat.
Proof. unfold deque_append. rewrite length_drop, !length_app. cbn [length]. lia. Qed.

(** The same for the whole detection step of a TCP packet. *)
Lemma run_detectors_counts src dest_port ck_ps ck_dd entry st :
  let st' := run_detectors src dest_port ck_ps ck_dd entry st in
  packet_count st' = packet_count st /\
  config st' = config st /\
  (exists new, alerts st' = alerts st ++ new /\ Forall fresh_alert new
               /\ suspicious_packets st' = (suspicious_packets st + length new)%nat) /\
  traffic_history st' = deque_append 1000 (traffic_history st) entry /\
  (forall s, tracker_get ∅ (port_scan_tracker st) s
             ⊆ tracker_get ∅ (port_scan_tracker st') s) /\
  (auto_block (config st) = false -> blocked_ips st' = blocked_ips st).
Proof.
  unfold run_detectors.
  set (st2 := snd (detect_port_scan src dest_port ck_ps st)).
  pose proof (detect_port_scan_frame src dest_port ck_ps st) as F2.
  pose proof (detect_port_scan_counts src dest_port ck_ps st) as C2.
  cbv zeta in F2, C2. fold st2 in F2, C2.
  destruct F2 as (_ & Hth2 & Hpc2 & _ & Hcfg2 & _).
  destruct C2 as ((new2 & Hal2 & Hf2 & Hsp2) & Hps2 & Hbl2 & _).
  set (st3 := snd (detect_ddos src ck_dd st2)).
  pose proof (detect_ddos_frame src ck_dd st2) as F3.
  pose proof (detect_ddos_counts src ck_dd st2) as C3.
  cbv zeta in F3, C3. fold st3 in F3, C3.
  destruct F3 as (_ & _ & Hps3 & Hth3 & Hpc3 & _ & Hcfg3 & _).
  destruct C3 as ((new3 & Hal3 & Hf3 & Hsp3) & Hbl3 & _).
  set (st4 := set_traffic_history (deque_append 1000 (traffic_history st3) entry) st3).
  pose proof (note_port_frame src dest_port st4) as F4. cbv zeta in F4.
  destruct F4 as (_ & Hps4 & Hth4 & Hpc4 & _ & Hbl4 & Hal4 & Hcfg4 & _).
  cbv zeta.
  assert (Hsp4 : suspicious_packets (note_port src dest_port st4)
                 = suspicious_packets st3).
  { unfold note_port. destruct (ip_investigation_data st4 !! src); [| done].
    by case_decide. }
  rewrite Hpc4, Hcfg4, Hal4, Hth4, Hps4, Hbl4, Hsp4. subst st4.
  cbn [packet_count config alerts traffic_history port_scan_tracker blocked_ips
       set_traffic_history].
  split; [congruence |]. split; [congruence |].
  split.
  { exists (new2 ++ new3). rewrite Hal3, Hal2, <- app_assoc.
    split; [done |]. split; [by apply Forall_app |].
    rewrite Hsp3, Hsp2, length_app. lia. }
  split; [by rewrite Hth3, Hth2 |].
  split; [intros s; rewrite Hps3; apply Hps2 |].
  intros Hab. rewrite Hbl3 by congruence. by apply Hbl2.
Qed.

(** The counters, alerts, log and blocklist after one packet. *)
Lemma analyze_packet_counts packet current_time ck_ps ck_dd st :
  let st' := analyze_packet packet current_time ck_ps ck_dd st in
  packet_count st' = (packet_count st + 1)%nat /\
  config st' = config st /\
  (exists new, alerts st' = alerts st ++ new /\ Forall fresh_alert new
               /\ suspicious_packets st' = (suspicious_packets st + length new)%nat) /\
  ((length (traffic_history st) <= 1000)%nat ->
   (length (traffic_history st') <= 1000)%nat) /\
  (forall s, tracker_get ∅ (port_scan_tracker st) s
             ⊆ tracker_get ∅ (port_scan_tracker st') s) /\
  (auto_block (config st) = false -> blocked_ips st' = blocked_ips st).
Proof.
  cbv zeta. rewrite analyze_packet_unfold.
  assert (Hsame : forall st1,
            packet_count st1 = (packet_count st + 1)%nat ->
            config st1 = config st -> alerts st1 = alerts st ->
            suspicious_packets st1 = suspicious_packets st ->
            traffic_history st1 = traffic_history st ->
            port_scan_tracker st1 = port_scan_tracker st ->
            blocked_ips st1 = blocked_ips st ->
            packet_count st1 = (packet_count st + 1)%nat /\
            config st1 = config st /\
            (exists new, alerts st1 = alerts st ++ new /\ Forall fresh_alert new
               /\ suspicious_packets st1 = (suspicious_packets st + length new)%nat) /\
            ((length (traffic_history st) <= 1000)%nat ->
             (length (traffic_history st1) <= 1000)%nat) /\
            (forall s, tracker_get ∅ (port_scan_tracker st) s
                       ⊆ tracker_get ∅ (port_scan_tracker st1) s) /\
            (auto_block (config st) = false -> blocked_ips st1 = blocked_ips st)).
  { intros st1 Hpc Hcfg Hal Hsp Hth Hps Hbl.
    rewrite Hal, Hsp, Hth, Hps, Hbl. repeat split; try done.
    exists []. by rewrite app_nil_r, Nat.add_0_r. }
  destruct (parse_ip_header packet) as [ip_info |]; [| by apply Hsame].
  cbv zeta. case_decide; [by apply Hsame |].
  case_decide; [by apply Hsame |].
  pose proof (track_time_effect (source_ip ip_info) current_time st) as T.
  cbv zeta in T.
  destruct T as (_ & Hpc & Hsp & Hps & Hth & Hbl & _ & Hal & _ & Hcfg).
  destruct (protocol ip_info =? 6)%N; [| by apply Hsame].
  destruct (parse_tcp_header packet (header_length ip_info)) as [tcp_info |];
    [| by apply Hsame].
  match goal with |- context [run_detectors ?src ?p ck_ps ck_dd ?e ?s0] =>
    pose proof (run_detectors_counts src p ck_ps ck_dd e s0) as R end.
  cbv zeta in R.
  destruct R as (Hpc' & Hcfg' & (new & Hal' & Hf & Hsp') & Hth' & Hps' & Hbl').
  rewrite Hpc', Hcfg', Hal', Hsp', Hth'.
  split; [done |]. split; [done |].
  split; [exists new; by rewrite Hal, Hsp |].
  split; [intros _; apply length_deque_append_le |].
  split; [intros s; rewrite <- Hps; apply Hps' |].
  intros Hab. rewrite Hbl' by congruence. done.
Qed.

End Counters.

Section Runs.
Import Monitor.

Implicit Types (st : NetworkMonitor) (ck : Clock).

Lemma run_ops_cons op ops st : run_ops (op :: ops) st = run_ops ops (run_op op st).
Proof. reflexivity. Qed.

(** The calls of the control plane leave the counters, the alerts, the
    traffic log and the port tracker alone. *)
Lemma control_op_frame op st :
  is_packet op = false ->
  packet_count (run_op op st) = packet_count st /\
  suspicious_packets (run_op op st) = suspicious_packets st /\
  alerts (run_op op st) = alerts st /\
  traffic_history (run_op op st) = traffic_history st /\
  port_scan_tracker (run_op op st) = port_scan_tracker st /\
  connection_tracker (run_op op st) = connection_tracker st.
Proof.
  destruct op as [? ? ? ? | ip now | ip now | ip | ip | ip now | ip text now | cfg];
    cbn [is_packet run_op]; intros Hp; try discriminate.
  - unfold block_ip. repeat case_decide; cbn [snd]; try done.
    cbn [ip_investigation_data set_blocked_ips].
    by destruct (ip_investigation_data st !! ip).
  - unfold whitelist_ip.
    destruct (decide (ip ∈ blocked_ips st)); cbv zeta;
      case_decide; cbn [snd]; try done;
      cbn [ip_investigation_data set_blocked_ips set_whitelisted_ips];
      by destruct (ip_investigation_data st !! ip).
  - done.
  - done.
  - unfold get_ip_investigation_data.
    by destruct (ip_investigation_data st !! ip).
  - done.
  - done.
Qed.

(** [packet_count] counts every packet handed to [analyze_packet],
    including those that fail to decode or come from a blocked source, and
    nothing else. *)
Theorem packet_count_counts_packets (ops : list Op) st :
  packet_count (run_ops ops st) = (packet_count st + packets_in ops)%nat.
Proof.
  revert st. induction ops as [| op ops IH]; intros st.
  - unfold packets_in. cbn. lia.
  - rewrite run_ops_cons, IH. unfold packets_in. cbn [List.filter].
    destruct (is_packet op) eqn:Hp.
    + destruct op; try discriminate. cbn [run_op length].
      pose proof (analyze_packet_counts packet current_time ck_ps ck_dd st) as A.
      cbv zeta in A. destruct A as (-> & _). lia.
    + destruct (control_op_frame op st Hp) as (-> & _). lia.
Qed.

(** In every run of a new monitor, [suspicious_packets] is the number of
    alerts, every alert has severity high, and the traffic log holds at
    most 1000 entries. *)
Theorem counters_consistent_in_runs (ops : list Op) :
  counters_consistent (run_ops ops init).
Proof.
  assert (Hgen : forall ops st, counters_consistent st ->
                                counters_consistent (run_ops ops st)).
  { clear. induction ops as [| op ops IH]; intros st Hst; [done |].
    rewrite run_ops_cons. apply IH. destruct Hst as (Hsp & Hhigh & Hlen).
    unfold counters_consistent.
    destruct (is_packet op) eqn:Hp.
    - destruct op; try discriminate. cbn [run_op].
      pose proof (analyze_packet_counts packet current_time ck_ps ck_dd st) as A.
      cbv zeta in A.
      destruct A as (_ & _ & (new & -> & Hf & ->) & Hth & _).
      rewrite length_app. split; [lia |]. split; [| by apply Hth].
      apply Forall_app. split; [done |].
      eapply Forall_impl; [exact Hf |]. by intros a (? & _).
    - destruct (control_op_frame op st Hp) as (_ & -> & -> & -> & _). done. }
  apply Hgen. unfold counters_consistent, init. cbn.
  split; [done |]. split; [constructor | lia].
Qed.

(** [analyze_packet] never removes or rewrites an alert: the alerts
    present before the call are still there, in place, and the call appends
    at most two, one per rule detector, each of severity high, active, and
    naming the source of the packet. *)
Theorem analyze_packet_appends_alerts packet current_time ck_ps ck_dd st :
  exists new,
    alerts (analyze_packet packet current_time ck_ps ck_dd st)
    = alerts st ++ new /\
    (length new <= 2)%nat /\
    Forall (fun a => alert_type a = "high" /\ alert_status a = "active" /\
                     alert_destination_ip a = "multiple" /\
                     source_ip <$> parse_ip_header packet
                     = Some (alert_source_ip a)) new.
Proof.
  rewrite analyze_packet_unfold.
  assert (Hnone : forall st1, alerts st1 = alerts st ->
            exists new, alerts st1 = alerts st ++ new /\ (length new <= 2)%nat /\
              Forall (fun a => alert_type a = "high" /\ alert_status a = "active" /\
                               alert_destination_ip a = "multiple" /\
                               source_ip <$> parse_ip_header packet
                               = Some (alert_source_ip a)) new).
  { intros st1 ->. exists []. rewrite app_nil_r.
    split; [done |]. split; [cbn; lia | constructor]. }
  destruct (parse_ip_header packet) as [ip_info |] eqn:Hip; [| by apply Hnone].
  cbv zeta. case_decide; [by apply Hnone |].
  case_decide as Hw; [by apply Hnone |].
  pose proof (track_time_effect (source_ip ip_info) current_time st) as T.
  cbv zeta in T. destruct T as (_ & _ & _ & _ & _ & _ & Hwl & Hal & _).
  destruct (protocol ip_info =? 6)%N; [| by apply Hnone].
  destruct (parse_tcp_header packet (header_length ip_info)) as [tcp_info |];
    [| by apply Hnone].
  unfold run_detectors.
  set (st1 := track_time (source_ip ip_info) current_time st) in *.
  assert (Hw1 : source_ip ip_info ∉ whitelisted_ips st1) by by rewrite Hwl.
  set (r2 := detect_port_scan (source_ip ip_info) (destination_port tcp_info)
               ck_ps st1).
  pose proof (detect_port_scan_frame (source_ip ip_info)
                (destination_port tcp_info) ck_ps st1) as F2.
  pose proof (detect_port_scan_spec (source_ip ip_info)
                (destination_port tcp_info) ck_ps st1 Hw1) as S2.
  cbv zeta in F2, S2. fold r2 in F2, S2.
  destruct F2 as (_ & _ & _ & Hwl2 & _).
  destruct S2 as (_ & _ & _ & _ & Hal2).
  assert (Hw2 : source_ip ip_info ∉ whitelisted_ips (snd r2)) by by rewrite Hwl2.
  set (r3 := detect_ddos (source_ip ip_info) ck_dd (snd r2)).
  pose proof (detect_ddos_spec (source_ip ip_info) ck_dd (snd r2) Hw2) as S3.
  cbv zeta in S3. fold r3 in S3. destruct S3 as (_ & _ & _ & _ & Hal3).
  match goal with |- context [note_port ?src ?p ?s] =>
    pose proof (note_port_frame src p s) as F4 end.
  cbv zeta in F4. destruct F4 as (_ & _ & _ & _ & _ & _ & Hal4 & _).
  rewrite Hal4. cbn [alerts set_traffic_history].
  rewrite Hal3, Hal2, Hal, <- app_assoc.
  eexists. split; [reflexivity |].
  destruct (fst r2), (fst r3); cbn -[pretty String.append];
    (split; [lia |]); repeat constructor.
Qed.

(** The port set of a source is never evicted: through any run it only
    grows. *)
Theorem port_sets_only_grow (ops : list Op) st (s : string) :
  tracker_get ∅ (port_scan_tracker st) s
  ⊆ tracker_get ∅ (port_scan_tracker (run_ops ops st)) s.
Proof.
  revert st. induction ops as [| op ops IH]; intros st; [done |].
  rewrite run_ops_cons. etrans; [| apply IH].
  destruct (is_packet op) eqn:Hp.
  - destruct op; try discriminate. cbn [run_op].
    pose proof (analyze_packet_counts packet current_time ck_ps ck_dd st) as A.
    cbv zeta in A. destruct A as (_ & _ & _ & _ & Hps & _). apply Hps.
  - by destruct (control_op_frame op st Hp) as (_ & _ & _ & _ & -> & _).
Qed.

End Runs.

Section Drops.
Import Monitor.

Implicit Types (st : NetworkMonitor) (ck : Clock).

(** A packet that does not decode, or whose source is blocked, is dropped
    at the top of the pipeline: it is counted and nothing else changes. *)
Theorem dropped_packet_only_counted packet current_time ck_ps ck_dd st :
  parse_ip_header packet = None
  \/ (exists ip_info, parse_ip_header packet = Some ip_info
                      /\ source_ip ip_info ∈ blocked_ips st) ->
  analyze_packet packet current_time ck_ps ck_dd st
  = set_packet_count (packet_count st + 1) st.
Proof.
  intros [Hnone | (ip_info & Hip & Hb)]; rewrite analyze_packet_unfold.
  - by rewrite Hnone.
  - rewrite Hip. cbv zeta. by rewrite decide_True.
Qed.

Lemma dropped_packet_only_counted_witness :
  analyze_packet [x45; x00] 5 (clock_at 5) (clock_at 5) init
  = set_packet_count 1 init.
Proof.
  apply (dropped_packet_only_counted [x45; x00] 5 (clock_at 5) (clock_at 5) init).
  left. vm_compute. reflexivity.
Defined.

(** A packet of a source that is neither blocked nor allowlisted, which is
    not TCP or has fewer than 20 bytes after its IP header, only gets its
    arrival time recorded: no detector runs and nothing is logged. *)
Theorem non_tcp_packet_only_tracked packet current_time ck_ps ck_dd st ip_info :
  parse_ip_header packet = Some ip_info ->
  source_ip ip_info ∉ blocked_ips st ->
  source_ip ip_info ∉ whitelisted_ips st ->
  protocol ip_info ≠ 6%N
  \/ (length packet < N.to_nat (header_length ip_info) + 20)%nat ->
  analyze_packet packet current_time ck_ps ck_dd st
  = track_time (source_ip ip_info) current_time st.
Proof.
  intros Hip Hb Hw Hskip. rewrite analyze_packet_unfold, Hip. cbv zeta.
  rewrite !decide_False by done.
  destruct (N.eqb_spec (protocol ip_info) 6) as [Hp | Hp]; [| done].
  destruct Hskip as [Hne | Hshort]; [done |].
  rewrite parse_tcp_header_unfold. cbv zeta.
  by destruct (Nat.ltb_spec (length packet)
                 (N.to_nat (header_length ip_info) + 20)); [| lia].
Qed.

Lemma non_tcp_packet_only_tracked_witness :
  analyze_packet (take 20 tcp_from_9) 5 (clock_at 5) (clock_at 5) init
  = track_time "10.0.0.9" 5 init.
Proof.
  apply (non_tcp_packet_only_tracked (take 20 tcp_from_9) 5 (clock_at 5)
           (clock_at 5) init
           {| version := 4; header_length := 20; ttl := 64; protocol := 6;
              source_ip := "10.0.0.9"; destination_ip := "10.0.0.1" |}).
  - vm_compute. reflexivity.
  - by_compute.
  - by_compute.
  - right. vm_compute. lia.
Defined.

(** If the detection step of a packet adds an alert while [auto_block] is
    on, the source is on the blocklist afterwards. *)
Lemma run_detectors_auto_block src dest_port ck_ps ck_dd entry st :
  src ∉ whitelisted_ips st ->
  auto_block (config st) = true ->
  let st' := run_detectors src dest_port ck_ps ck_dd entry st in
  (length (alerts st) < length (alerts st'))%nat ->
  src ∈ blocked_ips st'.
Proof.
  intros Hw Hab. unfold run_detectors.
  set (r2 := detect_port_scan src dest_port ck_ps st).
  pose proof (detect_port_scan_frame src dest_port ck_ps st) as F2.
  pose proof (detect_port_scan_spec src dest_port ck_ps st Hw) as S2.
  pose proof (detect_port_scan_counts src dest_port ck_ps st) as C2.
  cbv zeta in F2, S2, C2. fold r2 in F2, S2, C2.
  destruct F2 as (_ & _ & _ & Hwl2 & Hcfg2 & _).
  destruct S2 as (_ & _ & _ & _ & Hal2).
  destruct C2 as (_ & _ & _ & Hin2).
  assert (Hw2 : src ∉ whitelisted_ips (snd r2)) by by rewrite Hwl2.
  set (r3 := detect_ddos src ck_dd (snd r2)).
  pose proof (detect_ddos_frame src ck_dd (snd r2)) as F3.
  pose proof (detect_ddos_spec src ck_dd (snd r2) Hw2) as S3.
  pose proof (detect_ddos_counts src ck_dd (snd r2)) as C3.
  cbv zeta in F3, S3, C3. fold r3 in F3, S3, C3.
  destruct F3 as (_ & _ & _ & _ & _ & _ & _ & Hbl3 & _).
  destruct S3 as (_ & _ & _ & _ & Hal3).
  destruct C3 as (_ & _ & Hin3).
  match goal with |- context [note_port src dest_port ?s] =>
    pose proof (note_port_frame src dest_port s) as F4 end.
  cbv zeta in F4. destruct F4 as (_ & _ & _ & _ & _ & Hbl4 & Hal4 & _).
  cbv zeta. rewrite Hbl4, Hal4.
  cbn [alerts blocked_ips set_traffic_history].
  rewrite Hal3, Hal2, !length_app. intros Hlen.
  destruct (fst r3) eqn:Hf3.
  - apply Hin3; [congruence | done].
  - destruct (fst r2) eqn:Hf2; [| cbn [length] in Hlen; lia].
    specialize (Hin2 Hab eq_refl).
    destruct Hbl3 as [-> | [-> _]]; [done |]. by apply elem_of_union_l.
Qed.

(** Automatic blocking: with [auto_block] off, no packet changes the
    blocklist; with it on, a packet that adds an alert puts its source on
    the blocklist, and every later packet of that source is then dropped. *)
Theorem auto_block_policy packet current_time ck_ps ck_dd st :
  let st' := analyze_packet packet current_time ck_ps ck_dd st in
  (auto_block (config st) = false -> blocked_ips st' = blocked_ips st) /\
  (auto_block (config st) = true ->
   (length (alerts st) < length (alerts st'))%nat ->
   forall ip_info,
     parse_ip_header packet = Some ip_info ->
     source_ip ip_info ∈ blocked_ips st' /\
     forall packet' ip_info' now' ck1 ck2,
       parse_ip_header packet' = Some ip_info' ->
       source_ip ip_info' = source_ip ip_info ->
       analyze_packet packet' now' ck1 ck2 st'
       = set_packet_count (packet_count st' + 1) st').
Proof.
  cbv zeta. split.
  - pose proof (analyze_packet_counts packet current_time ck_ps ck_dd st) as A.
    cbv zeta in A. by destruct A as (_ & _ & _ & _ & _ & Hbl).
  - intros Hab Hlen ip_info Hip.
    assert (Hin : source_ip ip_info
                  ∈ blocked_ips (analyze_packet packet current_time ck_ps ck_dd st)).
    { revert Hlen. rewrite analyze_packet_unfold, Hip. cbv zeta.
      case_decide; [cbn; lia |]. case_decide as Hw; [cbn; lia |].
      pose proof (track_time_effect (source_ip ip_info) current_time st) as T.
      cbv zeta in T. destruct T as (_ & _ & _ & _ & _ & _ & Hwl & Hal & _ & Hcfg).
      destruct (protocol ip_info =? 6)%N; [| rewrite Hal; lia].
      destruct (parse_tcp_header packet (header_length ip_info)) as [tcp_info |];
        [| rewrite Hal; lia].
      intros Hlen. apply run_detectors_auto_block.
      - by rewrite Hwl.
      - by rewrite Hcfg.
      - by rewrite Hal. }
    split; [exact Hin |].
    intros packet' ip_info' now' ck1 ck2 Hip' Hsrc.
    rewrite analyze_packet_unfold, Hip'. cbv zeta.
    rewrite decide_True; [done | by rewrite Hsrc].
Qed.

End Drops.

Section ControlPlane.
Import Monitor.

Implicit Types (st : NetworkMonitor) (ck : Clock).

Lemma block_ip_rejected ip now st :
  ip ∈ whitelisted_ips st \/ ip ∈ blocked_ips st ->
  block_ip ip now st = (false, st).
Proof.
  intros Hin. unfold block_ip.
  destruct (decide (ip ∈ whitelisted_ips st)); [done |].
  destruct Hin as [? | Hb]; [done |]. by rewrite decide_False by auto.
Qed.

Lemma whitelist_ip_rejected ip now st :
  ip ∈ whitelisted_ips st -> ip ∉ blocked_ips st ->
  whitelist_ip ip now st = (false, st).
Proof.
  intros Hw Hb. unfold whitelist_ip. rewrite (decide_False (P := ip ∈ blocked_ips st)) by done.
  cbv zeta. by rewrite decide_False by auto.
Qed.

(** Blocking or allowlisting an address a second time is rejected and
    changes nothing: in particular no second audit entry is written. *)
Theorem block_and_allow_idempotent ip now now' st :
  block_ip ip now' (snd (block_ip ip now st))
  = (false, snd (block_ip ip now st)) /\
  whitelist_ip ip now' (snd (whitelist_ip ip now st))
  = (false, snd (whitelist_ip ip now st)).
Proof.
  split.
  - apply block_ip_rejected.
    destruct (block_ip_lists ip now st) as [-> ->].
    case_decide; [by left | right]. apply elem_of_union_r, elem_of_singleton.
    reflexivity.
  - destruct (whitelist_ip_lists ip now st) as [Hb Hw].
    apply whitelist_ip_rejected.
    + rewrite Hw. apply elem_of_union_r, elem_of_singleton. reflexivity.
    + rewrite Hb. apply not_elem_of_difference. right.
      apply elem_of_singleton. reflexivity.
Qed.

(** [block_ip] succeeds exactly on an address that is neither allowlisted
    nor already blocked. A failed call changes nothing. A successful call
    blocks the address, marks its investigation record, if it has one, as
    malicious with one more audit entry, creates no record, and leaves the
    records of other addresses alone. *)
Theorem block_ip_effect ip now st :
  let r := block_ip ip now st in
  (fst r = true <-> (ip ∉ whitelisted_ips st) /\ (ip ∉ blocked_ips st)) /\
  (fst r = false -> snd r = st) /\
  (fst r = true ->
   ip ∈ blocked_ips (snd r) /\
   ip_investigation_data (snd r) !! ip =
     (fun d =>
        set_activities
          (activities d ++
             [{| act_timestamp := now; act_action := "IP Blocked";
                 act_details := "Manually blocked by administrator";
                 act_severity := "info" |}])
          (set_classification "malicious" d))
     <$> ip_investigation_data st !! ip /\
   forall ip', ip' ≠ ip ->
     ip_investigation_data (snd r) !! ip' = ip_investigation_data st !! ip').
Proof.
  cbv zeta. unfold block_ip.
  destruct (decide (ip ∈ whitelisted_ips st)) as [Hw | Hw].
  { cbn [fst snd]. split; [split; [done | tauto] |]. split; done. }
  destruct (decide (ip ∉ blocked_ips st)) as [Hb | Hb]; cbn [fst snd].
  - split; [tauto |]. split; [done |]. intros _.
    cbn [ip_investigation_data set_blocked_ips].
    destruct (ip_investigation_data st !! ip) as [d |] eqn:Hd;
      cbn [blocked_ips ip_investigation_data set_ip_investigation_data
           set_blocked_ips].
    + split; [apply elem_of_union_r, elem_of_singleton; reflexivity |].
      split; [by rewrite lookup_insert_eq |].
      intros ip' Hne. by rewrite lookup_insert_ne.
    + split; [apply elem_of_union_r, elem_of_singleton; reflexivity |].
      split; [by rewrite Hd |]. done.
  - split; [split; [done | tauto] |]. split; done.
Qed.

(** [whitelist_ip] succeeds exactly on an address that is not yet
    allowlisted. It takes the address off the blocklist in every case; a
    successful call marks the address's investigation record, if it has
    one, as benign with one more audit entry; a failed call leaves the
    investigation data unchanged. *)
Theorem whitelist_ip_effect ip now st :
  let r := whitelist_ip ip now st in
  (fst r = true <-> ip ∉ whitelisted_ips st) /\
  blocked_ips (snd r) = blocked_ips st ∖ {[ip]} /\
  whitelisted_ips (snd r) = whitelisted_ips st ∪ {[ip]} /\
  (fst r = false -> ip_investigation_data (snd r) = ip_investigation_data st) /\
  (fst r = true ->
   ip_investigation_data (snd r) !! ip =
     (fun d =>
        set_activities
          (activities d ++
             [{| act_timestamp := now; act_action := "IP Whitelisted";
                 act_details := "Manually whitelisted by administrator";
                 act_severity := "info" |}])
          (set_classification "benign" d))
     <$> ip_investigation_data st !! ip /\
   forall ip', ip' ≠ ip ->
     ip_investigation_data (snd r) !! ip' = ip_investigation_data st !! ip').
Proof.
  cbv zeta.
  destruct (whitelist_ip_lists ip now st) as [Hbl Hwl].
  split; [| split; [exact Hbl | split; [exact Hwl |]]]; clear Hbl Hwl;
    unfold whitelist_ip;
    set (st0 := if decide (ip ∈ blocked_ips st)
                then set_blocked_ips (blocked_ips st ∖ {[ip]}) st else st);
    assert (Hw0 : whitelisted_ips st0 = whitelisted_ips st)
      by (subst st0; by case_decide);
    assert (Hi0 : ip_investigation_data st0 = ip_investigation_data st)
      by (subst st0; by case_decide);
    cbv zeta; rewrite Hw0;
    destruct (decide (ip ∉ whitelisted_ips st)) as [Hw | Hw]; cbn [fst snd].
  - tauto.
  - split; [done | tauto].
  - split; [done |]. intros _.
    cbn [ip_investigation_data set_whitelisted_ips]. rewrite Hi0.
    destruct (ip_investigation_data st !! ip) as [d |] eqn:Hd;
      cbn [ip_investigation_data set_ip_investigation_data set_whitelisted_ips].
    + split; [by rewrite lookup_insert_eq |].
      intros ip' Hne. by rewrite lookup_insert_ne, ?Hi0.
    + rewrite ?Hi0. split; [by rewrite Hd |]. done.
  - split; [done |]. done.
Qed.

(** Notes round trip: after [update_ip_notes], a query of the address
    returns a record with the new notes; an existing record keeps its other
    fields, a missing one is created as unknown with no activity and no
    ports; other addresses and both access lists are untouched. *)
Theorem notes_round_trip ip text now now' st :
  let st1 := snd (update_ip_notes ip text now st) in
  (exists d,
     fst (get_ip_investigation_data ip now' st1) = Some d /\
     notes d = text /\
     let d0 := default (new_investigation now []) (ip_investigation_data st !! ip) in
     first_seen d = first_seen d0 /\ activities d = activities d0 /\
     ports_accessed d = ports_accessed d0 /\
     classification d = classification d0) /\
  (forall ip', ip' ≠ ip ->
     ip_investigation_data st1 !! ip' = ip_investigation_data st !! ip') /\
  blocked_ips st1 = blocked_ips st /\
  whitelisted_ips st1 = whitelisted_ips st.
Proof.
  cbv zeta. unfold update_ip_notes.
  cbn [snd ip_investigation_data set_ip_investigation_data blocked_ips
       whitelisted_ips].
  split; [| split; [intros ip' Hne; by rewrite lookup_insert_ne | done]].
  unfold get_ip_investigation_data.
  cbn [ip_investigation_data set_ip_investigation_data].
  rewrite lookup_insert_eq. cbn [fst]. eexists. split; [reflexivity |].
  by destruct (ip_investigation_data st !! ip).
Qed.

(** A query of an address without a record answers [None] and changes
    nothing; a query answers [None] only for such an address. *)
Theorem query_without_record ip now st :
  (fst (get_ip_investigation_data ip now st) = None
   <-> ip_investigation_data st !! ip = None) /\
  (fst (get_ip_investigation_data ip now st) = None ->
   snd (get_ip_investigation_data ip now st) = st).
Proof.
  unfold get_ip_investigation_data.
  destruct (ip_investigation_data st !! ip); cbn [fst snd]; split; done.
Qed.

(** After a TCP packet of a source that is neither blocked nor allowlisted,
    the investigation record of the source, if it has one, lists the
    packet's destination port. *)
Theorem dossier_lists_packet_port
    packet current_time ck_ps ck_dd st ip_info tcp_info d :
  parse_ip_header packet = Some ip_info ->
  source_ip ip_info ∉ blocked_ips st ->
  source_ip ip_info ∉ whitelisted_ips st ->
  protocol ip_info = 6%N ->
  parse_tcp_header packet (header_length ip_info) = Some tcp_info ->
  ip_investigation_data (analyze_packet packet current_time ck_ps ck_dd st)
    !! source_ip ip_info = Some d ->
  destination_port tcp_info ∈ ports_accessed d.
Proof.
  intros Hip Hb Hw Hp Htcp. rewrite analyze_packet_unfold, Hip. cbv zeta.
  rewrite !decide_False by done. rewrite Hp, Htcp. cbn [N.eqb Pos.eqb].
  unfold run_detectors. cbv zeta.
  match goal with |- context [note_port ?src ?p ?s] => generalize s end.
  intros st4. unfold note_port.
  destruct (ip_investigation_data st4 !! source_ip ip_info) as [d4 |] eqn:Hd4.
  - case_decide as Hin.
    + rewrite Hd4. by intros [= <-].
    + cbn [ip_investigation_data set_ip_investigation_data].
      rewrite lookup_insert_eq. intros [= <-]. cbn [ports_accessed set_ports_accessed].
      apply elem_of_app. right. apply list_elem_of_singleton. reflexivity.
  - by rewrite Hd4.
Qed.

Lemma dossier_lists_packet_port_witness :
  exists d,
    ip_investigation_data
      (analyze_packet tcp_from_9 5 (clock_at 5) (clock_at 5) sensitive)
      !! "10.0.0.9" = Some d /\ 25%N ∈ ports_accessed d.
Proof.
  eexists. split; [vm_compute; reflexivity |].
  apply (dossier_lists_packet_port tcp_from_9 5 (clock_at 5) (clock_at 5)
           sensitive
           {| version := 4; header_length := 20; ttl := 64; protocol := 6;
              source_ip := "10.0.0.9"; destination_ip := "10.0.0.1" |}
           {| source_port := 12345; destination_port := 25; sequence := 0;
              acknowledgement := 0; tcp_header_length := 20; flags := 2 |}).
  - vm_compute. reflexivity.
  - by_compute.
  - by_compute.
  - reflexivity.
  - vm_compute. reflexivity.
  - vm_compute. reflexivity.
Defined.

End ControlPlane.

(** * Further properties of the anomaly detector *)

Section Sampling.
Import Detector.

Implicit Types (st : AnomalyDetector) (m : Metrics).

Lemma sum_counts_bump k d : sum_counts (bump k d) = S (sum_counts d).
Proof.
  induction d as [| [k' c] d IH]; [reflexivity |].
  cbn [bump]. case_decide; cbn [sum_counts fold_right snd] in *; [lia |].
  fold (sum_counts (bump k d)). fold (sum_counts d). lia.
Qed.

Lemma size_add_port (ports : gset N) (p : N) :
  (size (ports ∪ {[p]}) <= S (size ports))%nat.
Proof.
  rewrite size_union_alt.
  assert (size ({[p]} ∖ ports : gset N) <= size ({[p]} : gset N))%nat
    by (apply subseteq_size; set_solver).
  rewrite size_singleton in *. lia.
Qed.

(** The relations that the loop of [update_metrics] keeps between the
    metrics it counts. *)
Lemma count_entries_spec (entries : list TrafficData) m :
  let m' := fold_left count_entry entries m in
  packet_rate m' = (packet_rate m + length entries)%nat /\
  connection_count m' = (connection_count m + length entries)%nat /\
  (size (unique_ports m') <= size (unique_ports m) + length entries)%nat /\
  sum_counts (ip_counts m') = (sum_counts (ip_counts m) + length entries)%nat.
Proof.
  revert m. induction entries as [| e entries IH]; intros m.
  - cbn. repeat split; lia.
  - cbn [fold_left length]. specialize (IH (count_entry m e)). cbv zeta in IH.
    destruct IH as (Hp & Hc & Hu & Hs). cbv zeta.
    rewrite Hp, Hc, Hs. cbn [count_entry packet_rate connection_count ip_counts].
    rewrite sum_counts_bump.
    repeat split; try lia.
    etrans; [exact Hu |]. cbn [count_entry unique_ports].
    pose proof (size_add_port (unique_ports m) (default 0%N (td_dest_port e))).
    lia.
Qed.

#[local] Existing Instance Monitor.Qlt_decision.

(** The metrics of a tick are computed afresh from the entries that are
    less than 60 seconds old: the packet rate is their number, the
    connection count is the same number, the per-source counts add up to
    it, and there are at most as many distinct ports. Each global series
    receives the sample of the tick, whether or not a baseline exists and
    whether or not the tick raises. *)
Theorem tick_metrics traffic_data now_update now_establish cks st :
  let recent :=
    filter (fun e => (now_update - default 0%Q (td_timestamp e) < 60)%Q)
      traffic_data in
  let st' := snd (analyze_traffic traffic_data now_update now_establish cks st) in
  let m := current_metrics st' in
  packet_rate m = length recent /\
  connection_count m = length recent /\
  sum_counts (ip_counts m) = length recent /\
  (size (unique_ports m) <= length recent <= length traffic_data)%nat /\
  packet_rates st' = deque_append 100 (packet_rates st) (length recent) /\
  connection_counts st' = deque_append 100 (connection_counts st) (length recent) /\
  port_distributions st'
  = deque_append 100 (port_distributions st) (size (unique_ports m)).
Proof.
  cbv zeta.
  assert (Hrec : recent_traffic now_update traffic_data
                 = filter (fun e => (now_update - default 0%Q (td_timestamp e) < 60)%Q)
                     traffic_data).
  { unfold recent_traffic.
    induction traffic_data as [| e l IH]; [reflexivity |].
    cbn [List.filter]. rewrite filter_cons, IH.
    destruct (Qltb _ 60) eqn:Hlt.
    - apply Qltb_lt in Hlt. by rewrite decide_True.
    - apply Qltb_ge in Hlt. rewrite decide_False; [done |]. by apply Qle_not_lt. }
  rewrite <- Hrec.
  pose proof (count_entries_spec (recent_traffic now_update traffic_data)
                zero_metrics) as C.
  cbv zeta in C. cbn [zero_metrics packet_rate connection_count unique_ports
                      ip_counts sum_counts fold_right] in C.
  rewrite size_empty in C. destruct C as (Hp & Hc & Hu & Hs).
  assert (Hst' : forall st',
            current_metrics st'
            = fold_left count_entry (recent_traffic now_update traffic_data)
                zero_metrics ->
            packet_rates st'
            = packet_rates (update_metrics now_update traffic_data st) ->
            connection_counts st'
            = connection_counts (update_metrics now_update traffic_data st) ->
            port_distributions st'
            = port_distributions (update_metrics now_update traffic_data st) ->
            packet_rate (current_metrics st')
            = length (recent_traffic now_update traffic_data) /\
            connection_count (current_metrics st')
            = length (recent_traffic now_update traffic_data) /\
            sum_counts (ip_counts (current_metrics st'))
            = length (recent_traffic now_update traffic_data) /\
            (size (unique_ports (current_metrics st'))
             <= length (recent_traffic now_update traffic_data)
             <= length traffic_data)%nat /\
            packet_rates st'
            = deque_append 100 (packet_rates st)
                (length (recent_traffic now_update traffic_data)) /\
            connection_counts st'
            = deque_append 100 (connection_counts st)
                (length (recent_traffic now_update traffic_data)) /\
            port_distributions st'
            = deque_append 100 (port_distributions st)
                (size (unique_ports (current_metrics st')))).
  { intros st' -> -> -> ->.
    cbn [update_metrics packet_rates connection_counts port_distributions].
    rewrite Hp, Hc, Hs.
    assert (Hle : (length (recent_traffic now_update traffic_data)
                   <= length traffic_data)%nat)
      by apply List.filter_length_le.
    repeat split; lia. }
  destruct (baseline st) as [b |] eqn:Hb.
  - destruct (analyze_traffic_with_baseline traffic_data now_update
                now_establish cks st b Hb) as (alerts' & -> & _).
    by apply Hst'.
  - rewrite analyze_traffic_no_baseline by done. unfold establish_baseline.
    destruct (Qltb _ _); [by apply Hst' |].
    destruct (_ <? 50)%nat; by apply Hst'.
Qed.

End Sampling.

Section Series.
Import Detector.

Implicit Types (st : AnomalyDetector).

Lemma freq_append_bounded ip count (d : list (string * list nat)) :
  Forall (fun kc => (1 <= length (snd kc) <= 100)%nat) d ->
  Forall (fun kc => (1 <= length (snd kc) <= 100)%nat) (freq_append ip count d).
Proof.
  induction d as [| [k counts] d IH]; intros Hd.
  - cbn. repeat constructor.
  - inversion Hd as [| ? ? Hk Hd']; subst. cbn [freq_append]. case_decide.
    + constructor; [| done]. cbn [snd] in *.
      destruct (Nat.ltb_spec 100 (length (counts ++ [count]))) as [Hlt | Hge];
        rewrite ?length_drop, length_app in *; cbn [length] in *; lia.
    + constructor; [done | by apply IH].
Qed.

Lemma update_metrics_bounded now traffic_data st :
  series_bounded st -> series_bounded (update_metrics now traffic_data st).
Proof.
  intros (Hlen & Hcc & Hpd & Hfreq). unfold series_bounded, update_metrics.
  cbn [packet_rates connection_counts port_distributions ip_frequencies].
  pose proof (count_entries_spec (recent_traffic now traffic_data) zero_metrics)
    as C. cbv zeta in C. destruct C as (Hp & Hc & _).
  cbn [zero_metrics packet_rate connection_count] in Hp, Hc.
  rewrite Hp, Hc, Hcc, !length_deque_append, Hpd.
  split; [lia |]. split; [done |]. split; [done |].
  generalize (ip_counts (fold_left count_entry (recent_traffic now traffic_data)
                           zero_metrics)).
  intros counts. revert Hfreq. generalize (ip_frequencies st).
  induction counts as [| kc counts IH]; intros d Hd; [done |].
  cbn [fold_left]. apply IH. by apply freq_append_bounded.
Qed.

Lemma run_op_bounded op st : series_bounded st -> series_bounded (run_op op st).
Proof.
  intros Hst. destruct op as [traffic_data now_update now_establish cks | level].
  - cbn [run_op].
    pose proof (update_metrics_bounded now_update traffic_data st Hst) as H1.
    destruct (baseline st) as [b |] eqn:Hb.
    + destruct (analyze_traffic_with_baseline traffic_data now_update
                  now_establish cks st b Hb) as (alerts' & -> & _).
      exact H1.
    + rewrite analyze_traffic_no_baseline by done. unfold establish_baseline.
      destruct (Qltb _ _); [exact H1 |]. destruct (_ <? 50)%nat; exact H1.
  - cbn [run_op]. by destruct (sensitivity_multipliers level) as [[p c] i].
Qed.

(** In every run of a new detector each global series holds at most 100
    samples, the connection-count series is equal to the packet-rate
    series, the port series has the same length, and every per-source
    series holds between 1 and 100 samples. *)
Theorem series_bounded_in_runs (ops : list Op) (now0 : Q) :
  series_bounded (run_ops ops (init now0)).
Proof.
  assert (Hgen : forall ops st, series_bounded st -> series_bounded (run_ops ops st)).
  { clear. induction ops as [| op ops IH]; intros st Hst; [done |].
    change (run_ops (op :: ops) st) with (run_ops ops (run_op op st)).
    by apply IH, run_op_bounded. }
  apply Hgen. unfold series_bounded, init. cbn.
  split; [lia |]. split; [done |]. split; [done | constructor].
Qed.

End Series.

Section Raising.
Import Detector.
Local Open Scope R_scope.

Implicit Types (st : AnomalyDetector).

Lemma append_alerts_fst anomalies cks i acc :
  fst (append_alerts anomalies cks i acc) =
    if forallb is_global anomalies then None
    else Some "KeyError: 'current_value'"%string.
Proof.
  revert i acc. induction anomalies as [| a rest IH]; intros i acc; [done |].
  destruct a; cbn [append_alerts create_alert forallb is_global andb];
    [apply IH | done].
Qed.

Lemma global_anomalies_global st :
  forallb is_global (global_anomalies st) = true.
Proof.
  unfold global_anomalies, detect_packet_rate_anomaly,
    detect_connection_anomaly, detect_port_anomaly.
  destruct (baseline st) as [b |]; [| done].
  repeat match goal with
  | |- context [z_test ?t ?f ?h ?l ?c ?m ?s ?th ?p] =>
      let H := fresh "Hz" in
      destruct (z_test t f h l c m s th p) as [[] |] eqn:H;
      [ | apply z_test_type in H as [_ H]; discriminate H | ]
  end; reflexivity.
Qed.

Lemma detect_ip_frequency_anomaly_Some st l :
  detect_ip_frequency_anomaly st = Some l ->
  exists a rest, l = a :: rest /\ is_global a = false.
Proof.
  intros Hl. pose proof (detect_ip_frequency_anomaly_types st) as Ht.
  rewrite Hl in Ht. cbn in Ht.
  unfold detect_ip_frequency_anomaly in Hl.
  destruct (flat_map _ _) as [| a rest]; [done |]. injection Hl as <-.
  exists a, rest. split; [done |].
  inversion Ht as [| ? ? [_ Ha] _]; subst. by destruct a.
Qed.

(** A tick with a baseline returns the anomalies of the three global
    detectors when the per-source detector finds nothing. As soon as the
    per-source detector finds an anomaly the tick raises [KeyError] instead
    of returning: the alert loop fails on the first per-source anomaly. In
    both cases the alerts appended are exactly those of the global
    anomalies, so no alert is ever created for a per-source anomaly. *)
Theorem per_source_anomaly_raises
    traffic_data now_update now_establish cks st b :
  baseline st = Some b ->
  let st1 := update_metrics now_update traffic_data st in
  let r := analyze_traffic traffic_data now_update now_establish cks st in
  fst r = match detect_ip_frequency_anomaly st1 with
          | None => Returned (global_anomalies st1)
          | Some _ => Raised "KeyError: 'current_value'"
          end /\
  map alert_details (drop (length (alerts st)) (alerts (snd r)))
  = global_anomalies st1.
Proof.
  intros Hb st1 r. split.
  - subst r. unfold analyze_traffic, baseline_established. fold st1.
    assert (Hb1 : baseline st1 = Some b) by done. rewrite Hb1. cbn [negb].
    pose proof (append_alerts_fst (collect_anomalies st1) cks 0 (alerts st1))
      as Hfst.
    destruct (append_alerts (collect_anomalies st1) cks 0 (alerts st1))
      as [o alerts']. cbn [fst] in Hfst. subst o.
    unfold collect_anomalies.
    change (option_list (detect_packet_rate_anomaly st1) ++
            option_list (detect_connection_anomaly st1) ++
            option_list (detect_port_anomaly st1) ++
            default [] (detect_ip_frequency_anomaly st1))
      with (option_list (detect_packet_rate_anomaly st1) ++
            (option_list (detect_connection_anomaly st1) ++
             (option_list (detect_port_anomaly st1) ++
              default [] (detect_ip_frequency_anomaly st1)))).
    rewrite !app_assoc, <- (app_assoc _ _ (option_list (detect_port_anomaly st1))).
    fold (global_anomalies st1).
    rewrite forallb_app, global_anomalies_global. cbn [andb].
    destruct (detect_ip_frequency_anomaly st1) as [l |] eqn:Hl.
    + destruct (detect_ip_frequency_anomaly_Some st1 l Hl) as (a & rest & -> & Ha).
      cbn [default from_option Datatypes.id forallb]. by rewrite Ha.
    + cbn. by rewrite app_nil_r.
  - exact (emitted_globals traffic_data now_update now_establish cks st b Hb).
Qed.

Lemma per_source_anomaly_raises_witness :
  fst (analyze_traffic burst_traffic 4000 4000
         (fun _ => Monitor.clock_at 4000) quiet_source_detector)
  = Raised "KeyError: 'current_value'".
Proof.
  pose proof (per_source_anomaly_raises burst_traffic 4000 4000
                (fun _ => Monitor.clock_at 4000) quiet_source_detector _ eq_refl)
    as H.
  cbv zeta in H. destruct H as (H & _). rewrite H. clear H.
  unfold detect_ip_frequency_anomaly.
  assert (Hfreq : ip_frequencies
                    (update_metrics 4000 burst_traffic quiet_source_detector)
                  = [("10.0.0.9"%string, [1; 1; 1; 1; 1; 1; 1; 1; 1; 11]%nat)])
    by (vm_compute; reflexivity).
  assert (Hcount : get_count "10.0.0.9"
                     (ip_counts (current_metrics
                        (update_metrics 4000 burst_traffic quiet_source_detector)))
                   = 11%nat)
    by (vm_compute; reflexivity).
  assert (Hthr : ip_frequency_std_multiplier
                   (thresholds
                      (update_metrics 4000 burst_traffic quiet_source_detector))
                 = 2)
    by reflexivity.
  rewrite Hfreq. cbn [flat_map fst snd]. unfold source_test.
  rewrite Hcount, Hthr. clear Hfreq Hcount Hthr.
  cbn [length Nat.ltb Nat.leb].
  assert (Hmean : mean [1; 1; 1; 1; 1; 1; 1; 1; 1; 11]%nat = 2).
  { unfold mean, sum_R. cbn [map fold_right length]. rewrite !S_INR. cbn [INR].
    field. }
  assert (Hvar : variance [1; 1; 1; 1; 1; 1; 1; 1; 1; 11]%nat = 10).
  { unfold variance. rewrite Hmean. unfold sum_R.
    cbn [map fold_right length]. rewrite !S_INR. cbn [INR]. field. }
  assert (Hstd : stdev_or_zero [1; 1; 1; 1; 1; 1; 1; 1; 1; 11]%nat = sqrt 10).
  { unfold stdev_or_zero, stdev. cbn [length Nat.ltb Nat.leb]. by rewrite Hvar. }
  rewrite Hmean, Hstd.
  assert (Hlo : 3 < sqrt 10).
  { rewrite <- (sqrt_square 3) by lra. apply sqrt_lt_1; lra. }
  assert (Hhi : sqrt 10 < 4).
  { rewrite <- (sqrt_square 4) by lra. apply sqrt_lt_1; lra. }
  destruct (Req_dec_T (sqrt 10) 0) as [H0 | _]; [lra |].
  destruct (Rlt_dec 2 (Rabs (INR 11 - 2) / sqrt 10)) as [_ | Hn]; [done |].
  exfalso. apply Hn. rewrite !S_INR. cbn [INR].
  rewrite Rabs_right by lra.
  apply (Rmult_lt_reg_r (sqrt 10)); [lra |].
  unfold Rdiv. rewrite Rmult_assoc, Rinv_l by lra. lra.
Defined.

End Raising.

Section ConstantSeries.
Import Detector.
Local Open Scope R_scope.

Lemma sum_zero_terms {A} (g : A -> R) (xs : list A) :
  Forall (fun x => g x = 0) xs -> sum_R (map g xs) = 0.
Proof.
  unfold sum_R. induction 1 as [| x xs Hx _ IH]; cbn [map fold_right]; [done |].
  rewrite Hx, IH. lra.
Qed.

Lemma sum_squares_zero {A} (f : A -> R) (xs : list A) :
  sum_R (map (fun x => f x * f x) xs) = 0 -> Forall (fun x => f x = 0) xs.
Proof.
  induction xs as [| x xs IH]; [constructor |].
  unfold sum_R. cbn [map fold_right]. fold (sum_R (map (fun x => f x * f x) xs)).
  intros Hsum.
  pose proof (sum_squares_nonneg f xs) as Hrest.
  pose proof (Rle_0_sqr (f x)) as Hsq. unfold Rsqr in Hsq.
  constructor.
  - assert (Hx : f x * f x = 0) by lra.
    apply Rmult_integral in Hx. tauto.
  - apply IH. lra.
Qed.

Lemma mean_of_constant (c : nat) (xs : list nat) :
  xs ≠ [] -> Forall (fun x => x = c) xs -> mean xs = INR c.
Proof.
  intros Hne Hall. unfold mean.
  assert (Hsum : sum_R (map INR xs) = INR (length xs) * INR c).
  { clear Hne. unfold sum_R.
    induction Hall as [| x xs -> _ IH]; cbn [map fold_right length].
    - cbn. lra.
    - rewrite IH, S_INR. lra. }
  assert (0 < INR (length xs)).
  { apply lt_0_INR. destruct xs; [done | cbn; lia]. }
  rewrite Hsum. field. lra.
Qed.

(** The sample standard deviation of a series of at least two samples is
    zero exactly when all its samples are equal; a detector whose baseline
    was taken from such a series then reports nothing, whatever the current
    value and the threshold. *)
Theorem stdev_zero_iff_constant (xs : list nat) :
  (2 <= length xs)%nat ->
  (stdev_or_zero xs = 0 <-> forall x y, x ∈ xs -> y ∈ xs -> x = y) /\
  ((forall x y, x ∈ xs -> y ∈ xs -> x = y) ->
   forall type hi_factor hi lo current threshold ports,
     z_test type hi_factor hi lo current (mean xs) (stdev_or_zero xs)
       threshold ports = None).
Proof.
  intros Hlen.
  assert (Hn : 0 < INR (length xs) - 1).
  { apply le_INR in Hlen. cbn in Hlen. lra. }
  assert (Hiff : stdev_or_zero xs = 0
                 <-> forall x y, x ∈ xs -> y ∈ xs -> x = y).
  { unfold stdev_or_zero.
    destruct (Nat.ltb_spec 1 (length xs)) as [_ | ?]; [| lia].
    unfold stdev. split.
    - intros Hstd x y Hx Hy.
      assert (Hv : 0 <= variance xs).
      { unfold variance. apply Rmult_le_pos.
        - apply (sum_squares_nonneg (fun x => INR x - mean xs)).
        - left. by apply Rinv_0_lt_compat. }
      apply sqrt_eq_0 in Hstd; [| done].
      unfold variance, Rdiv in Hstd.
      apply Rmult_integral in Hstd as [Hss | Hinv].
      + apply (sum_squares_zero (fun x => INR x - mean xs)) in Hss.
        rewrite Forall_forall in Hss.
        apply INR_eq. pose proof (Hss x Hx). pose proof (Hss y Hy). lra.
      + pose proof (Rinv_0_lt_compat _ Hn). lra.
    - intros Hall.
      destruct xs as [| c xs']; [cbn in Hlen; lia |].
      assert (Hc : Forall (fun x => x = c) (c :: xs')).
      { apply Forall_forall. intros x Hx. apply Hall; [done | by left]. }
      assert (Hmean : mean (c :: xs') = INR c) by by apply mean_of_constant.
      assert (Hvar : variance (c :: xs') = 0).
      { unfold variance.
        rewrite (sum_zero_terms
                   (fun x => (INR x - mean (c :: xs')) * (INR x - mean (c :: xs')))).
        - unfold Rdiv. lra.
        - eapply Forall_impl; [exact Hc |]. intros x ->. rewrite Hmean. lra. }
      rewrite Hvar. apply sqrt_0. }
  split; [exact Hiff |].
  intros Hall type hi_factor hi lo current threshold ports.
  apply Hiff in Hall. rewrite Hall. apply z_test_zero_std.
Qed.

Lemma stdev_zero_iff_constant_witness : stdev_or_zero [3; 3]%nat = 0.
Proof.
  destruct (stdev_zero_iff_constant [3; 3]%nat ltac:(cbn; lia)) as [Hiff _].
  apply Hiff. intros x y Hx Hy.
  apply elem_of_cons in Hx as [-> | Hx]; [| apply list_elem_of_singleton in Hx as ->];
    (apply elem_of_cons in Hy as [-> | Hy];
     [| apply list_elem_of_singleton in Hy as ->]); reflexivity.
Defined.

End ConstantSeries.

Section Sensitivity.
Local Open Scope R_scope.

(** Sensitivity levels: [high], [medium] and [low] set the rule thresholds
    to 5/50, 10/100 and 20/200 and the anomaly multipliers to 2/2/1.5,
    3/2.5/2 and 4/3/2.5. Any other level gives the rule thresholds of [low]
    but the anomaly multipliers of [medium]. Nothing else of either state
    changes, apart from the automatic-blocking switch. *)
Theorem sensitivity_levels (level : string) (auto : bool)
    (mst : Monitor.NetworkMonitor) (dst : Detector.AnomalyDetector) :
  let mst' := Monitor.apply_configuration level auto mst in
  let dst' := Detector.run_op (Detector.Sensitivity level) dst in
  let rule := (Monitor.port_scan_threshold (Monitor.config mst'),
               Monitor.ddos_threshold (Monitor.config mst')) in
  let mult := (Detector.packet_rate_std_multiplier (Detector.thresholds dst'),
               Detector.connection_count_std_multiplier (Detector.thresholds dst'),
               Detector.ip_frequency_std_multiplier (Detector.thresholds dst')) in
  (level = "high"%string -> rule = (5, 50)%Z /\ mult = (2, 2, 1.5)) /\
  (level = "medium"%string -> rule = (10, 100)%Z /\ mult = (3, 2.5, 2)) /\
  (level = "low"%string -> rule = (20, 200)%Z /\ mult = (4, 3, 2.5)) /\
  (level ≠ "high"%string -> level ≠ "medium"%string -> level ≠ "low"%string ->
   rule = (20, 200)%Z /\ mult = (3, 2.5, 2)) /\
  Monitor.auto_block (Monitor.config mst') = auto /\
  Monitor.monitoring_enabled (Monitor.config mst')
  = Monitor.monitoring_enabled (Monitor.config mst) /\
  Monitor.blocked_ips mst' = Monitor.blocked_ips mst /\
  Monitor.whitelisted_ips mst' = Monitor.whitelisted_ips mst /\
  Monitor.alerts mst' = Monitor.alerts mst /\
  Detector.baseline dst' = Detector.baseline dst /\
  Detector.packet_rates dst' = Detector.packet_rates dst /\
  Detector.alerts dst' = Detector.alerts dst /\
  Detector.unusual_port_threshold (Detector.thresholds dst')
  = Detector.unusual_port_threshold (Detector.thresholds dst).
Proof.
  cbv zeta. unfold Monitor.apply_configuration. cbn [Detector.run_op].
  unfold Detector.sensitivity_multipliers.
  split; [intros ->; split; reflexivity |].
  split; [intros ->; split; reflexivity |].
  split; [intros ->; split; reflexivity |].
  split; [intros H1 H2 H3; rewrite !decide_False by done; split; reflexivity |].
  repeat split; try reflexivity.
  all: repeat case_decide; reflexivity.
Qed.

End Sensitivity.

Section Tracking.
Import Monitor.

Implicit Types (st : NetworkMonitor) (ck : Clock).

Lemma run_op_keeps_source op st (s : string) :
  is_Some (connection_tracker st !! s) ->
  is_Some (connection_tracker (run_op op st) !! s).
Proof.
  intros Hs. destruct (is_packet op) eqn:Hp.
  - destruct op; try discriminate. cbn [run_op].
    rewrite analyze_packet_unfold.
    destruct (parse_ip_header packet) as [ip_info |]; [| done].
    cbv zeta. case_decide; [done |].
    assert (Hins : forall l,
              is_Some (<[source_ip ip_info := l]> (connection_tracker st) !! s)).
    { intros l. destruct (decide (source_ip ip_info = s)) as [-> | Hne].
      - rewrite lookup_insert_eq. eauto.
      - by rewrite lookup_insert_ne. }
    case_decide as Hw; [apply Hins |].
    pose proof (track_time_effect (source_ip ip_info) current_time st) as T.
    cbv zeta in T. destruct T as (Hct & _ & _ & _ & _ & _ & Hwl & _).
    assert (Ht : is_Some (connection_tracker
                            (track_time (source_ip ip_info) current_time st) !! s))
      by (rewrite Hct; apply Hins).
    destruct (protocol ip_info =? 6)%N; [| exact Ht].
    destruct (parse_tcp_header packet (header_length ip_info)) as [tcp_info |];
      [| exact Ht].
    match goal with |- context [run_detectors ?src ?p ck_ps ck_dd ?e ?s0] =>
      pose proof (run_detectors_effect src p ck_ps ck_dd e s0) as E end.
    cbv zeta in E. rewrite Hwl in E.
    destruct (E Hw) as (_ & _ & _ & _ & _ & Hkeep & _).
    rewrite Hkeep by auto. exact Ht.
  - by destruct (control_op_frame op st Hp) as (_ & _ & _ & _ & _ & ->).
Qed.

(** A source that has an entry in the connection tracker keeps one through
    every run, so the number of tracked sources, which the status reports
    as [active_connections], never decreases. *)
Theorem tracked_sources_never_forgotten (ops : list Op) st :
  (forall s, is_Some (connection_tracker st !! s) ->
             is_Some (connection_tracker (run_ops ops st) !! s)) /\
  (size (connection_tracker st) <= size (connection_tracker (run_ops ops st)))%nat.
Proof.
  assert (Hkeep : forall s, is_Some (connection_tracker st !! s) ->
                            is_Some (connection_tracker (run_ops ops st) !! s)).
  { revert st. induction ops as [| op ops IH]; intros st s Hs; [done |].
    change (run_ops (op :: ops) st) with (run_ops ops (run_op op st)).
    by apply IH, run_op_keeps_source. }
  split; [exact Hkeep |].
  rewrite <- !size_dom. apply subseteq_size.
  intros s Hs. apply elem_of_dom. apply Hkeep. by apply elem_of_dom.
Qed.

(** The port-scan detector counts distinct ports: a port the source has
    already touched leaves the size of its set unchanged, a new port adds
    exactly one. *)
Theorem port_scan_counts_distinct_ports source_ip dest_port ck st :
  source_ip ∉ whitelisted_ips st ->
  let ports := tracker_get ∅ (port_scan_tracker st) source_ip in
  let st' := snd (detect_port_scan source_ip dest_port ck st) in
  size (tracker_get ∅ (port_scan_tracker st') source_ip)
  = (if decide (dest_port ∈ ports) then size ports else S (size ports)).
Proof.
  intros Hw ports st'. subst st'.
  pose proof (detect_port_scan_spec source_ip dest_port ck st Hw) as Hspec.
  cbv zeta in Hspec. destruct Hspec as (-> & _).
  unfold tracker_get at 1. rewrite lookup_insert_eq.
  unfold from_option, Datatypes.id, ports_after. fold ports.
  case_decide as Hin.
  - f_equal. apply set_eq. intros x. rewrite elem_of_union, elem_of_singleton.
    split; [intros [? | ->]; done | auto].
  - rewrite size_union by (apply disjoint_singleton_r; exact Hin).
    rewrite size_singleton. lia.
Qed.

Lemma port_scan_counts_distinct_ports_witness :
  size (tracker_get ∅
          (port_scan_tracker
             (snd (detect_port_scan "10.0.0.9" 25 (clock_at 5) sensitive)))
          "10.0.0.9") = 1%nat.
Proof.
  rewrite (port_scan_counts_distinct_ports "10.0.0.9" 25 (clock_at 5) sensitive)
    by by_compute.
  vm_compute. reflexivity.
Defined.

Lemma last_deque_append {A} (n : nat) (l : list A) (x : A) :
  last (deque_append (S n) l x) = Some x.
Proof.
  unfold deque_append. rewrite length_app. cbn [length].
  rewrite drop_app_le by lia. apply last_snoc.
Qed.

(** Every TCP packet of a source that is neither blocked nor allowlisted
    is logged: after its analysis, the newest entry of the traffic log is
    the packet's, with its arrival time, addresses, destination port and
    flags, whether or not a rule fired on it. *)
Theorem tcp_packet_logged
    packet current_time ck_ps ck_dd st ip_info tcp_info :
  parse_ip_header packet = Some ip_info ->
  source_ip ip_info ∉ blocked_ips st ->
  source_ip ip_info ∉ whitelisted_ips st ->
  protocol ip_info = 6%N ->
  parse_tcp_header packet (header_length ip_info) = Some tcp_info ->
  last (traffic_history (analyze_packet packet current_time ck_ps ck_dd st))
  = Some {| te_timestamp := current_time;
            te_source_ip := source_ip ip_info;
            te_dest_ip := destination_ip ip_info;
            te_dest_port := destination_port tcp_info;
            te_protocol := "TCP";
            te_flags := flags tcp_info |}.
Proof.
  intros Hip Hb Hw Hp Htcp. rewrite analyze_packet_unfold, Hip. cbv zeta.
  rewrite !decide_False by done. rewrite Hp, Htcp. cbn [N.eqb Pos.eqb].
  match goal with |- context [run_detectors ?src ?p ck_ps ck_dd ?e ?s0] =>
    pose proof (run_detectors_counts src p ck_ps ck_dd e s0) as R end.
  cbv zeta in R. destruct R as (_ & _ & _ & -> & _).
  apply last_deque_append.
Qed.

Lemma tcp_packet_logged_witness :
  te_dest_port <$>
    last (traffic_history
            (analyze_packet tcp_from_9 5 (clock_at 5) (clock_at 5) init))
  = Some 25%N.
Proof.
  rewrite (tcp_packet_logged tcp_from_9 5 (clock_at 5) (clock_at 5) init
             {| version := 4; header_length := 20; ttl := 64; protocol := 6;
                source_ip := "10.0.0.9"; destination_ip := "10.0.0.1" |}
             {| source_port := 12345; destination_port := 25; sequence := 0;
                acknowledgement := 0; tcp_header_length := 20; flags := 2 |}).
  - reflexivity.
  - vm_compute. reflexivity.
  - by_compute.
  - by_compute.
  - reflexivity.
  - vm_compute. reflexivity.
Defined.

End Tracking.
